(** * shared-libs: configuration loader, audit trail, token and password utilities

    A shallow embedding of the Go packages [config], [utils] and [middleware]
    of praleedsuvarna/shared-libs, and the properties their specification
    states about them.

    Conventions of the embedding.
    - A Go [string] and a Go [[]byte] are Rocq [string]s (sequences of bytes).
    - A Go [error] is an [option string]: [None] is [nil], [Some m] an error
      whose [Error()] text is [m].
    - A Go [map[string]T] is a [gmap string T]; ranging over a map visits its
      entries in an order chosen by the runtime, which the embedding takes as
      an input.
    - Package-level variables, the process environment, the output streams
      and the document store make up [State]; a Go function that reads or
      writes them is a computation in the monad [M], whose outcomes are a
      normal return, [os.Exit] (what [log.Fatal] ends in) and a panic.
    - What the outside world answers during a call (the clock, the [.env]
      file, the secret store, the document store) is an [Oracle].
    - The mutexes of the source are not modelled: calls are sequential. *)

From Stdlib Require Import ZArith Lia List String Ascii Bool Permutation.
From stdpp Require Import base option list gmap strings.

Open Scope string_scope.

(* ================================================================== *)
(** * Data model *)
(* ================================================================== *)

(** [error]: [nil] or a message. *)
Definition error : Type := option string.
Definition nil : error := None.

(** [time.Time], as far as the code observes it: the instant, in
    nanoseconds since the Unix epoch, and the location the value carries,
    [time.Local] (the time zone of the system) or [time.UTC]. *)
Inductive Location : Type := Local | UTC.

Record Time : Type := mkTime { unixNano : Z; location : Location }.

(** [config.ConfigMode] is a string type. *)
Definition ConfigMode : Type := string.
Definition ConfigVersion : string := "2.0.0".
Definition ModeBasic : ConfigMode := "basic".
Definition ModeSecretManager : ConfigMode := "secret_manager".
Definition ModeAuto : ConfigMode := "auto".

(** [config.AppConfig] *)
Record AppConfig : Type := mkAppConfig {
  Mode : ConfigMode;
  AppEnv : string;
  ProjectID : string;
  MongoURI : string;
  DBName : string;
  JWTSecret : string;
  NATSURL : string;
  AllowedOrigins : string;
  Port : string;
  Version : string;
  LoadTime : Time
}.

Definition set_Mode (v : ConfigMode) (c : AppConfig) : AppConfig :=
  mkAppConfig v (AppEnv c) (ProjectID c) (MongoURI c) (DBName c) (JWTSecret c)
    (NATSURL c) (AllowedOrigins c) (Port c) (Version c) (LoadTime c).
Definition set_ProjectID (v : string) (c : AppConfig) : AppConfig :=
  mkAppConfig (Mode c) (AppEnv c) v (MongoURI c) (DBName c) (JWTSecret c)
    (NATSURL c) (AllowedOrigins c) (Port c) (Version c) (LoadTime c).
Definition set_MongoURI (v : string) (c : AppConfig) : AppConfig :=
  mkAppConfig (Mode c) (AppEnv c) (ProjectID c) v (DBName c) (JWTSecret c)
    (NATSURL c) (AllowedOrigins c) (Port c) (Version c) (LoadTime c).
Definition set_DBName (v : string) (c : AppConfig) : AppConfig :=
  mkAppConfig (Mode c) (AppEnv c) (ProjectID c) (MongoURI c) v (JWTSecret c)
    (NATSURL c) (AllowedOrigins c) (Port c) (Version c) (LoadTime c).
Definition set_JWTSecret (v : string) (c : AppConfig) : AppConfig :=
  mkAppConfig (Mode c) (AppEnv c) (ProjectID c) (MongoURI c) (DBName c) v
    (NATSURL c) (AllowedOrigins c) (Port c) (Version c) (LoadTime c).
Definition set_NATSURL (v : string) (c : AppConfig) : AppConfig :=
  mkAppConfig (Mode c) (AppEnv c) (ProjectID c) (MongoURI c) (DBName c)
    (JWTSecret c) v (AllowedOrigins c) (Port c) (Version c) (LoadTime c).
Definition set_AllowedOrigins (v : string) (c : AppConfig) : AppConfig :=
  mkAppConfig (Mode c) (AppEnv c) (ProjectID c) (MongoURI c) (DBName c)
    (JWTSecret c) (NATSURL c) v (Port c) (Version c) (LoadTime c).

(** [config.ConfigOptions]; its fields live in a module of their own because
    [Mode] is also a field of [AppConfig]. *)
Module ConfigOptions.
Record t : Type := mk {
  Mode : ConfigMode;
  EnableSecretManager : bool;
  SecretManagerProject : string;
  RequiredSecrets : list string;
  OptionalSecrets : list string;
  FallbackToEnv : bool
}.
End ConfigOptions.

(** [primitive.ObjectID]: twelve bytes, read as a number. *)
Definition ObjectID : Type := N.

(** [models.AuditLog] *)
Record AuditLog : Type := mkAuditLog {
  ID : ObjectID;
  AdminID : string;
  Action : string;
  TargetID : string;
  Timestamp : Time
}.

(** A connected [*mongo.Client], and the [*mongo.Collection] handles made
    from it. *)
Record MongoClient : Type := mkMongoClient { clientURI : string }.

Record Collection : Type := mkCollection {
  collClient : MongoClient;
  collDatabase : string;
  collName : string
}.

(** The document store: the audit entries of each (database, collection). *)
Definition Store : Type := gmap (string * string) (list AuditLog).

(* ================================================================== *)
(** * Process state, oracle and the monad of Go computations *)
(* ================================================================== *)

Record State : Type := mkState {
  environ : gmap string string;   (* the process environment *)
  Config : option AppConfig;      (* config.Config, nil at start *)
  once : bool;                    (* config.once has run its function *)
  DB : option MongoClient;        (* config.DB, nil at start *)
  objectIDCounter : nat;          (* ObjectIDs generated so far *)
  store : Store;                  (* the document store *)
  stderr : list string;           (* lines written by log.* and println *)
  stdout : list string            (* lines written by fmt.Print* *)
}.

Definition set_environ (v : gmap string string) (s : State) : State :=
  mkState v (Config s) (once s) (DB s) (objectIDCounter s) (store s)
    (stderr s) (stdout s).
Definition set_Config (v : option AppConfig) (s : State) : State :=
  mkState (environ s) v (once s) (DB s) (objectIDCounter s) (store s)
    (stderr s) (stdout s).
Definition set_once (v : bool) (s : State) : State :=
  mkState (environ s) (Config s) v (DB s) (objectIDCounter s) (store s)
    (stderr s) (stdout s).
Definition set_objectIDCounter (v : nat) (s : State) : State :=
  mkState (environ s) (Config s) (once s) (DB s) v (store s)
    (stderr s) (stdout s).
Definition set_store (v : Store) (s : State) : State :=
  mkState (environ s) (Config s) (once s) (DB s) (objectIDCounter s) v
    (stderr s) (stdout s).
Definition set_stderr (v : list string) (s : State) : State :=
  mkState (environ s) (Config s) (once s) (DB s) (objectIDCounter s) (store s)
    v (stdout s).
Definition set_stdout (v : list string) (s : State) : State :=
  mkState (environ s) (Config s) (once s) (DB s) (objectIDCounter s) (store s)
    (stderr s) v.

(** How a call ends. *)
Inductive Outcome (A : Type) : Type :=
| Ret (a : A) (s : State)            (* the function returns [a] *)
| Exit (code : Z) (s : State)        (* os.Exit: the process is gone *)
| Panic (v : string) (s : State).    (* a run-time panic unwinds the call *)
Arguments Ret {A} a s.
Arguments Exit {A} code s.
Arguments Panic {A} v s.

Definition M (A : Type) : Type := State -> Outcome A.

Definition ret {A} (a : A) : M A := fun s => Ret a s.

Definition bind {A B} (m : M A) (k : A -> M B) : M B :=
  fun s =>
    match m s with
    | Ret a s' => k a s'
    | Exit c s' => Exit c s'
    | Panic v s' => Panic v s'
    end.

Definition gets {A} (f : State -> A) : M A := fun s => Ret (f s) s.
Definition modify (f : State -> State) : M unit := fun s => Ret tt (f s).
Definition os_Exit {A} (code : Z) : M A := fun s => Exit code s.
Definition panic {A} (v : string) : M A := fun s => Panic v s.

Declare Scope go_scope.
Delimit Scope go_scope with go.
Notation "'let*' x ':=' m 'in' k" := (bind m (fun x => k))
  (at level 10, x name, m at level 100, k at level 200) : go_scope.
Notation "'let*' ' p ':=' m 'in' k" := (bind m (fun p => k))
  (at level 10, p strict pattern, m at level 100, k at level 200) : go_scope.
Notation "'do*' m 'in' k" := (bind m (fun _ => k))
  (at level 10, m at level 100, k at level 200) : go_scope.
Open Scope go_scope.

(** What the world outside the process answers during one call. *)
Record Oracle : Type := mkOracle {
  (* time.Now(): the wall clock reading *)
  clock : Z;
  (* time.Local: the offset of the system's time zone, in seconds east of
     UTC *)
  localZoneOffset : Z;
  (* godotenv.Load(): the variables of ./.env, or its error *)
  dotenvFile : gmap string string + string;
  (* secretmanager.NewClient: nil or its error *)
  secretmanagerNewClient : error;
  (* client.AccessSecretVersion, by resource name: the payload or the error *)
  AccessSecretVersion : string -> string + string;
  (* the order in which [range secretMap] visits the entries *)
  secretMapOrder : list (string * string);
  (* primitive.NewObjectID: the n-th identifier the generator hands out *)
  objectIDs : nat -> ObjectID;
  (* collection.InsertOne(ctx, doc): the store afterwards and the error;
     [ctx] is given by its timeout in nanoseconds *)
  InsertOne : Z -> Collection -> AuditLog -> Store -> Store * error
}.

(** [os.Getenv]: the value, or the empty string when the variable is unset. *)
Definition os_Getenv (key : string) : M string :=
  gets (fun s => default "" (environ s !! key)).

(** [time.Now()]: the current local time. *)
Definition time_Now (w : Oracle) : M Time :=
  ret (mkTime (clock w) Local).


(** Package [log] writes to standard error; the date and time it puts before
    each line are left out. [Fatal] is [Print] followed by [os.Exit(1)]. *)
Module log.
Definition Println (line : string) : M unit :=
  modify (fun s => set_stderr (stderr s ++ [line]) s).
Definition Printf (line : string) : M unit := Println line.
Definition Fatal {A} (line : string) : M A :=
  do* Println line in os_Exit 1.
Definition Fatalf {A} (line : string) : M A := Fatal line.
End log.

(** The builtin [println] writes its arguments to standard error, separated
    by spaces. *)
Definition println (a b : string) : M unit :=
  modify (fun s => set_stderr (stderr s ++ [a ++ " " ++ b]) s).

(** [godotenv.Load()]: reads [.env] and sets each of its variables that the
    environment does not have yet; a variable that is present, even empty,
    is kept. *)
Definition godotenv_Load (w : Oracle) : M error :=
  match dotenvFile w with
  | inl vars =>
      do* modify (fun s => set_environ (environ s ∪ vars) s) in ret nil
  | inr e => ret (Some e)
  end.

(* ================================================================== *)
(** * Package config (config/env.go, config/secret_manager.go,
      config/database.go) *)
(* ================================================================== *)

Module config.
Section WithOracle.
Variable w : Oracle.

(** [GetEnv] *)
Definition GetEnv (key fallback : string) : M string :=
  let* value := os_Getenv key in
  if String.eqb value "" then ret fallback else ret value.

(** [contains] *)
Fixpoint contains (slice : list string) (item : string) : bool :=
  match slice with
  | [] => false
  | s :: rest => if String.eqb s item then true else contains rest item
  end.

(** [getDefaultAllowedOrigins] *)
Definition getDefaultAllowedOrigins (env : string) : string :=
  if String.eqb env "production" then "https://your-production-domain.com"
  else if String.eqb env "staging" then "https://staging.your-domain.com"
  else "http://localhost:5173,http://127.0.0.1:5173".

(** [getSecretFromGoogleSecretManager] (the build with Secret Manager): it
    talks to the secret store only, and touches nothing of the process. *)
Definition getSecretFromGoogleSecretManager (projectID secretName : string)
  : string * error :=
  match secretmanagerNewClient w with
  | Some err =>
      ("", Some ("failed to create secret manager client: " ++ err))
  | None =>
      let name := "projects/" ++ projectID ++ "/secrets/" ++ secretName
                  ++ "/versions/latest" in
      match AccessSecretVersion w name with
      | inr err =>
          ("", Some ("failed to access secret " ++ secretName ++ ": " ++ err))
      | inl data => (data, nil)
      end
  end.

(** [fetchSecretFromManager] *)
Definition fetchSecretFromManager (projectID secretName : string)
  : string * error :=
  getSecretFromGoogleSecretManager projectID secretName.

(** [getSecretOrEnv] *)
Definition getSecretOrEnv (projectID secretKey envKey fallback : string)
    (allowFallback : bool) : M (string * error) :=
  let '(value, err) := fetchSecretFromManager projectID secretKey in
  match err with
  | None => ret (value, nil)
  | Some e =>
      if negb allowFallback then ret ("", Some e)
      else
        do* log.Printf ("⚠️  Secret Manager failed for " ++ secretKey
                        ++ ", falling back to env var " ++ envKey) in
        let* envValue := GetEnv envKey fallback in
        if String.eqb envValue "" then
          ret ("", Some ("both secret " ++ secretKey
                         ++ " and environment variable " ++ envKey
                         ++ " are empty"))
        else ret (envValue, nil)
  end.

(** [detectConfigMode] *)
Definition detectConfigMode : M ConfigMode :=
  let* projectID := GetEnv "GOOGLE_CLOUD_PROJECT" "" in
  if negb (String.eqb projectID "") then
    do* log.Println
          "🔍 Google Cloud environment detected, using Secret Manager mode" in
    ret ModeSecretManager
  else
    let* flag := GetEnv "USE_SECRET_MANAGER" "" in
    if String.eqb flag "true" then
      do* log.Println "🔍 Secret Manager explicitly enabled" in
      ret ModeSecretManager
    else
      do* log.Println "🔍 Standard environment detected, using basic mode" in
      ret ModeBasic.

(** [loadBasicConfig]: the configuration it leaves behind [config] and the
    error it returns. *)
Definition loadBasicConfig (config : AppConfig) : M (AppConfig * error) :=
  do* log.Println
        "📝 Loading basic configuration from environment variables..." in
  let* mongoURI := GetEnv "MONGO_URI" "" in
  let config := set_MongoURI mongoURI config in
  let* dbName := GetEnv "DB_NAME" "mrexperiences_service" in
  let config := set_DBName dbName config in
  let* jwtSecret := GetEnv "JWT_SECRET" "" in
  let config := set_JWTSecret jwtSecret config in
  let* natsURL := GetEnv "NATS_URL" "" in
  let config := set_NATSURL natsURL config in
  let config :=
    set_AllowedOrigins (getDefaultAllowedOrigins (AppEnv config)) config in
  let* envOrigins := GetEnv "ALLOWED_ORIGINS" "" in
  let config :=
    if negb (String.eqb envOrigins "") then set_AllowedOrigins envOrigins config
    else config in
  do* log.Println "✅ Basic configuration loaded from environment variables" in
  ret (config, nil).

(** The [secretMap] literal of [loadSecretsFromManager]. *)
Definition secretMap : list (string * string) :=
  [ ("mongo-uri", "MONGO_URI");
    ("db-name", "DB_NAME");
    ("jwt-secret", "JWT_SECRET");
    ("nats-url", "NATS_URL") ].

(** The [switch secretKey] that assigns a loaded value to its field. *)
Definition assignSecret (secretKey value : string) (config : AppConfig)
  : AppConfig :=
  if String.eqb secretKey "mongo-uri" then set_MongoURI value config
  else if String.eqb secretKey "db-name" then
    let config := set_DBName value config in
    if String.eqb (DBName config) "" then
      set_DBName "mrexperiences_service" config
    else config
  else if String.eqb secretKey "jwt-secret" then set_JWTSecret value config
  else if String.eqb secretKey "nats-url" then set_NATSURL value config
  else config.

(** The [for secretKey, envKey := range secretMap] loop of
    [loadSecretsFromManager], over the entries in the order the runtime
    visits them. A required secret that fails ends the function with its
    error. *)
Fixpoint rangeSecretMap (options : ConfigOptions.t)
    (entries : list (string * string)) (config : AppConfig)
  : M (AppConfig * error) :=
  match entries with
  | [] => ret (config, nil)
  | (secretKey, envKey) :: rest =>
      let* '(value, err) :=
        getSecretOrEnv (ProjectID config) secretKey envKey ""
          (ConfigOptions.FallbackToEnv options) in
      match err with
      | Some e =>
          let isRequired :=
            contains (ConfigOptions.RequiredSecrets options) secretKey in
          if isRequired then
            ret (config, Some ("required secret " ++ secretKey
                               ++ " failed to load: " ++ e))
          else
            do* log.Printf ("⚠️  Optional secret " ++ secretKey
                            ++ " not available: " ++ e) in
            rangeSecretMap options rest (assignSecret secretKey "" config)
      | None =>
          rangeSecretMap options rest (assignSecret secretKey value config)
      end
  end.

(** [loadSecretsFromManager] *)
Definition loadSecretsFromManager (config : AppConfig)
    (options : ConfigOptions.t) : M (AppConfig * error) :=
  do* log.Println "🔐 Loading configuration with Secret Manager caching..." in
  if String.eqb (ProjectID config) "" then
    ret (config,
         Some "Google Cloud project ID is required for Secret Manager mode")
  else
    let* '(config, err) :=
      rangeSecretMap options (secretMapOrder w) config in
    match err with
    | Some e => ret (config, Some e)
    | None =>
        let config :=
          set_AllowedOrigins (getDefaultAllowedOrigins (AppEnv config))
            config in
        let* envOrigins := GetEnv "ALLOWED_ORIGINS" "" in
        let config :=
          if negb (String.eqb envOrigins "") then
            set_AllowedOrigins envOrigins config
          else config in
        do* log.Printf ("✅ Secret Manager configuration loaded (project: "
                        ++ ProjectID config ++ ")") in
        ret (config, nil)
    end.

(** [once.Do(f)]: runs [f] unless a call of [Do] has completed before. *)
Definition once_Do (f : M unit) : M unit :=
  let* done := gets once in
  if done then ret tt
  else
    do* f in
    modify (set_once true).

(** The first half of the function [LoadEnvWithOptions] runs once: the new
    [AppConfig], the detection of the mode and the [.env] file of a
    development environment. *)
Definition newConfig (options : ConfigOptions.t) : M AppConfig :=
  do* log.Printf ("🔧 Loading configuration (shared-libs v"
                  ++ ConfigVersion ++ ")...") in
  let* appEnv := GetEnv "APP_ENV" "development" in
  let* port := GetEnv "PORT" "8080" in
  let* loadTime := time_Now w in
  let config :=
    mkAppConfig (ConfigOptions.Mode options) appEnv "" "" "" "" "" ""
      port ConfigVersion loadTime in
  let* config :=
    if String.eqb (Mode config) ModeAuto then
      let* mode := detectConfigMode in
      ret (set_Mode mode config)
    else ret config in
  do* (if String.eqb (AppEnv config) "development" then
         let* err := godotenv_Load w in
         match err with
         | Some _ =>
             log.Println
               "⚠️  Warning: .env file not found, using system environment variables"
         | None => log.Println "✅ Loaded .env file for development"
         end
       else ret tt) in
  ret config.

(** The second half: the [switch config.Mode], the fatal exit on an error
    and the assignment to [Config]. *)
Definition loadAndAssign (options : ConfigOptions.t) (config : AppConfig)
  : M unit :=
  let* '(config, err) :=
    if String.eqb (Mode config) ModeSecretManager then
      let config :=
        set_ProjectID (ConfigOptions.SecretManagerProject options) config in
      let* config :=
        if String.eqb (ProjectID config) "" then
          let* projectID := GetEnv "GOOGLE_CLOUD_PROJECT" "" in
          ret (set_ProjectID projectID config)
        else ret config in
      loadSecretsFromManager config options
    else if String.eqb (Mode config) ModeBasic then
      loadBasicConfig config
    else
      ret (config, Some ("unsupported config mode: " ++ Mode config)) in
  match err with
  | Some e => log.Fatalf ("❌ Failed to load configuration: " ++ e)
  | None =>
      do* modify (set_Config (Some config)) in
      log.Printf ("✅ Configuration loaded successfully (mode: "
                  ++ Mode config ++ ", env: " ++ AppEnv config ++ ")")
  end.

(** [LoadEnvWithOptions] *)
Definition LoadEnvWithOptions (options : ConfigOptions.t) : M unit :=
  once_Do (
    let* config := newConfig options in
    loadAndAssign options config).

(** [LoadEnv] *)
Definition LoadEnv : M unit :=
  LoadEnvWithOptions
    (ConfigOptions.mk ModeAuto false "" [] [] true).

(** [LoadEnvWithSecretManager] *)
Definition LoadEnvWithSecretManager (projectID : string)
    (requiredSecrets : list string) : M unit :=
  LoadEnvWithOptions
    (ConfigOptions.mk ModeSecretManager true projectID requiredSecrets []
       true).

End WithOracle.

(** The accessors. Each reads [Config] under the read lock and ends the
    process when it is still nil, except [GetConfigMode]. *)
Definition notLoaded : string :=
  "Configuration not loaded. Call LoadEnv() first".

Definition GetMongoURI : M string :=
  let* c := gets Config in
  match c with
  | None => log.Fatal notLoaded
  | Some c => ret (MongoURI c)
  end.

Definition GetDBName : M string :=
  let* c := gets Config in
  match c with
  | None => log.Fatal notLoaded
  | Some c => ret (DBName c)
  end.

Definition GetJWTSecret : M string :=
  let* c := gets Config in
  match c with
  | None => log.Fatal notLoaded
  | Some c => ret (JWTSecret c)
  end.

Definition GetNATSURL : M string :=
  let* c := gets Config in
  match c with
  | None => log.Fatal notLoaded
  | Some c => ret (NATSURL c)
  end.

Definition GetAllowedOrigins : M string :=
  let* c := gets Config in
  match c with
  | None => log.Fatal notLoaded
  | Some c => ret (AllowedOrigins c)
  end.

Definition GetPort : M string :=
  let* c := gets Config in
  match c with
  | None => log.Fatal notLoaded
  | Some c => ret (Port c)
  end.

Definition GetAppEnv : M string :=
  let* c := gets Config in
  match c with
  | None => log.Fatal notLoaded
  | Some c => ret (AppEnv c)
  end.

(** [GetConfig] returns a pointer to a copy. *)
Definition GetConfig : M AppConfig :=
  let* c := gets Config in
  match c with
  | None => log.Fatal notLoaded
  | Some c => ret c
  end.

Definition GetConfigMode : M ConfigMode :=
  let* c := gets Config in
  match c with
  | None => ret ModeBasic
  | Some c => ret (Mode c)
  end.

Definition IsSecretManagerEnabled : M bool :=
  let* mode := GetConfigMode in
  ret (String.eqb mode ModeSecretManager).

(** [GetCollection] (config/database.go) *)
Definition GetCollection (collectionName : string) : M Collection :=
  let* db := gets DB in
  match db with
  | None => log.Fatal "❌ Database not connected. Call ConnectDB() first"
  | Some client =>
      let* dbName := GetDBName in
      ret (mkCollection client dbName collectionName)
  end.

End config.


(* ================================================================== *)
(** * Go's encoding/base64, as [utils] and [bcrypt] use it *)
(* ================================================================== *)

Module base64.
Local Open Scope Z_scope.

(** An [Encoding]: the alphabet, the padding character ([None] is
    [NoPadding]) and the strict flag. *)
Record Encoding : Type := mkEncoding {
  encode : string;
  padChar : option ascii;
  strict : bool
}.

Definition byteZ (c : ascii) : Z := Z.of_N (N_of_ascii c).

(** [byte(z)]: the low eight bits. *)
Definition Zbyte (z : Z) : ascii := ascii_of_N (Z.to_N (z mod 256)).

(** [enc.encode[i]] *)
Definition encodeAt (enc : Encoding) (i : Z) : ascii :=
  default "000"%char (String.get (Z.to_nat i) (encode enc)).

Fixpoint indexOf (c : ascii) (l : list ascii) (i : Z) (found : Z) : Z :=
  match l with
  | [] => found
  | x :: rest => indexOf c rest (i + 1) (if Ascii.eqb x c then i else found)
  end.

(** [enc.decodeMap[c]]: the index of [c] in the alphabet, 0xFF for a
    character outside it. *)
Definition decodeMap (enc : Encoding) (c : ascii) : Z :=
  indexOf c (list_ascii_of_string (encode enc)) 0 255.

Definition padding (enc : Encoding) : list ascii :=
  match padChar enc with Some p => [p] | None => [] end.

(** [Encode]: three bytes make four characters; a last block of one or two
    bytes is padded. *)
Fixpoint Encode (enc : Encoding) (src : list ascii) : list ascii :=
  match src with
  | [] => []
  | [b0] =>
      let val := Z.shiftl (byteZ b0) 16 in
      ([ encodeAt enc (Z.land (Z.shiftr val 18) 63);
         encodeAt enc (Z.land (Z.shiftr val 12) 63) ]
       ++ padding enc ++ padding enc)%list
  | [b0; b1] =>
      let val := Z.lor (Z.shiftl (byteZ b0) 16) (Z.shiftl (byteZ b1) 8) in
      ([ encodeAt enc (Z.land (Z.shiftr val 18) 63);
         encodeAt enc (Z.land (Z.shiftr val 12) 63);
         encodeAt enc (Z.land (Z.shiftr val 6) 63) ]
       ++ padding enc)%list
  | b0 :: b1 :: b2 :: rest =>
      let val := Z.lor (Z.lor (Z.shiftl (byteZ b0) 16) (Z.shiftl (byteZ b1) 8))
                   (byteZ b2) in
      encodeAt enc (Z.land (Z.shiftr val 18) 63)
      :: encodeAt enc (Z.land (Z.shiftr val 12) 63)
      :: encodeAt enc (Z.land (Z.shiftr val 6) 63)
      :: encodeAt enc (Z.land val 63)
      :: Encode enc rest
  end.

Definition EncodeToString (enc : Encoding) (src : string) : string :=
  string_of_list_ascii (Encode enc (list_ascii_of_string src)).

Definition isNewline (c : ascii) : bool :=
  Ascii.eqb c "010"%char || Ascii.eqb c "013"%char.

Definition isPad (enc : Encoding) (c : ascii) : bool :=
  match padChar enc with Some p => Ascii.eqb c p | None => false end.

Fixpoint skipNewlines (src : list ascii) : list ascii :=
  match src with
  | c :: rest => if isNewline c then skipNewlines rest else src
  | [] => []
  end.

(** The bytes that the [dlen] sextets of [dbuf] stand for; [None] when the
    encoding is strict and the unused bits are not zero. *)
Definition quantumBytes (enc : Encoding) (dbuf : list Z) (dlen : nat)
  : option (list ascii) :=
  let d := fun i => nth i dbuf 0 in
  let val :=
    Z.lor (Z.lor (Z.lor (Z.shiftl (d 0%nat) 18) (Z.shiftl (d 1%nat) 12))
             (Z.shiftl (d 2%nat) 6)) (d 3%nat) in
  let b0 := Zbyte (Z.shiftr val 16) in
  let b1 := Zbyte (Z.shiftr val 8) in
  let b2 := Zbyte val in
  match dlen with
  | 4%nat => Some [b0; b1; b2]
  | 3%nat => if strict enc && negb (byteZ b2 =? 0) then None else Some [b0; b1]
  | 2%nat =>
      if strict enc && (negb (byteZ b1 =? 0) || negb (byteZ b2 =? 0)) then None
      else Some [b0]
  | _ => Some []
  end.

(** One call of [decodeQuantum]: the bytes it yields and the input it leaves,
    or [None] for a [CorruptInputError]. [j] counts the sextets read so far;
    line breaks are skipped. *)
Fixpoint decodeQuantum (enc : Encoding) (src : list ascii) (j : nat)
    (dbuf : list Z) : option (list ascii * list ascii) :=
  match src with
  | [] =>
      match j with
      | 0%nat => Some ([], [])
      | 1%nat => None
      | _ =>
          match padChar enc with
          | Some _ => None
          | None => bs ← quantumBytes enc dbuf j; Some (bs, [])
          end
      end
  | c :: rest =>
      let out := decodeMap enc c in
      if negb (out =? 255) then
        match j with
        | 3%nat => bs ← quantumBytes enc (dbuf ++ [out]) 4; Some (bs, rest)
        | _ => decodeQuantum enc rest (S j) (dbuf ++ [out])
        end
      else if isNewline c then decodeQuantum enc rest j dbuf
      else if negb (isPad enc c) then None
      else
        match j with
        | 0%nat | 1%nat => None
        | 2%nat =>
            match skipNewlines rest with
            | [] => None
            | c2 :: rest2 =>
                if negb (isPad enc c2) then None
                else
                  match skipNewlines rest2 with
                  | [] => bs ← quantumBytes enc dbuf 2; Some (bs, [])
                  | _ :: _ => None
                  end
            end
        | _ =>
            match skipNewlines rest with
            | [] => bs ← quantumBytes enc dbuf j; Some (bs, [])
            | _ :: _ => None
            end
        end
  end.

(** [Decode]: quantum after quantum until the input is used up. A quantum
    that leaves input behind has read at least one character, so the length
    of the input is fuel enough. *)
Fixpoint Decode (enc : Encoding) (fuel : nat) (src : list ascii)
  : option (list ascii) :=
  match src with
  | [] => Some []
  | _ :: _ =>
      match fuel with
      | O => None
      | S fuel =>
          '(bs, rest) ← decodeQuantum enc src 0 [];
          more ← Decode enc fuel rest;
          Some (bs ++ more)%list
      end
  end.

(** [DecodeString]: the bytes, or [None] when [err != nil]. *)
Definition DecodeString (enc : Encoding) (s : string) : option string :=
  string_of_list_ascii <$>
    Decode enc (String.length s) (list_ascii_of_string s).

Definition encodeStd : string :=
  "ABCDEFGHIJKLMNOPQRSTUVWXYZabcdefghijklmnopqrstuvwxyz0123456789+/".

(** [NewEncoding]: padded with [=], not strict. *)
Definition NewEncoding (encoder : string) : Encoding :=
  mkEncoding encoder (Some "="%char) false.

Definition StdEncoding : Encoding := NewEncoding encodeStd.

End base64.

(* ================================================================== *)
(** * golang.org/x/crypto/bcrypt: the format of a hash

    [GenerateFromPassword] and [CompareHashAndPassword] with everything they
    do around the key schedule: the layout
    [$2a$<cost>$<22 characters of salt><31 characters of digest>], its
    parsing and the comparison. The expensive Blowfish setup and encryption
    (the library's internal [bcrypt(password, cost, salt)]) and the random
    source are inputs. *)
(* ================================================================== *)

Module bcrypt.
Local Open Scope Z_scope.

Inductive Error : Type :=
| ErrMismatchedHashAndPassword
| ErrHashTooShort
| ErrPasswordTooLong
| HashVersionTooNewError (b : ascii)
| InvalidHashPrefixError (b : ascii)
| InvalidCostError (cost : Z)
| SyntaxError (s : string)          (* strconv.Atoi's *)
| OtherError (msg : string).

Record Primitives : Type := mkPrimitives {
  (* io.ReadFull(rand.Reader, buf): nil or the error, and the bytes read *)
  randErr : option string;
  randByte : nat -> ascii;
  (* bcrypt(password, cost, salt): the encoded digest or the error *)
  crypt : string -> Z -> list ascii -> list ascii + Error
}.

Definition majorVersion : ascii := "2"%char.
Definition minorVersion : ascii := "a"%char.
Definition maxSaltSize : nat := 16.
Definition encodedSaltSize : nat := 22.
Definition encodedHashSize : nat := 31.
Definition minHashSize : nat := 59.
Definition MinCost : Z := 4.
Definition MaxCost : Z := 31.
Definition DefaultCost : Z := 10.

Definition alphabet : string :=
  "./ABCDEFGHIJKLMNOPQRSTUVWXYZabcdefghijklmnopqrstuvwxyz0123456789".
Definition bcEncoding : base64.Encoding := base64.NewEncoding alphabet.

(** [hashed] *)
Record hashed : Type := mkHashed {
  hash : list ascii;
  salt : list ascii;
  cost : Z;
  major : ascii;
  minor : ascii
}.

Fixpoint stripPad (rev : list ascii) : list ascii :=
  match rev with
  | c :: rest => if Ascii.eqb c "="%char then stripPad rest else rev
  | [] => []
  end.

(** [base64Encode]: [bcEncoding] without the trailing [=]. *)
Definition base64Encode (src : list ascii) : list ascii :=
  rev (stripPad (rev (base64.Encode bcEncoding src))).

(** [checkCost] *)
Definition checkCost (cost : Z) : option Error :=
  if (cost <? MinCost) || (MaxCost <? cost) then Some (InvalidCostError cost)
  else None.

(** [copy(arr[n:], src)] *)
Definition copyAt (arr : list ascii) (n : nat) (src : list ascii)
  : list ascii :=
  let k := Nat.min (length arr - n) (length src) in
  (firstn n arr ++ firstn k src ++ skipn (n + k) arr)%list.

Definition digit (z : Z) : ascii := ascii_of_N (Z.to_N (48 + z)).

(** [fmt.Sprintf("%02d", cost)], for the costs [checkCost] lets through. *)
Definition format02d (cost : Z) : list ascii :=
  [digit (cost / 10); digit (cost mod 10)].

(** [hashed.Hash] *)
Definition Hash (p : hashed) : list ascii :=
  let arr := repeat "000"%char 60 in
  let arr := copyAt arr 0 ["$"%char] in
  let arr := copyAt arr 1 [major p] in
  let n := 2%nat in
  let '(arr, n) :=
    if negb (Ascii.eqb (minor p) "000"%char)
    then (copyAt arr 2 [minor p], 3%nat) else (arr, n) in
  let arr := copyAt arr n ["$"%char] in
  let n := S n in
  let arr := copyAt arr n (format02d (cost p)) in
  let n := (n + 2)%nat in
  let arr := copyAt arr n ["$"%char] in
  let n := S n in
  let arr := copyAt arr n (salt p) in
  let n := (n + encodedSaltSize)%nat in
  let arr := copyAt arr n (hash p) in
  let n := (n + encodedHashSize)%nat in
  firstn n arr.

(** [strconv.Atoi] on a short string (its fast path): an optional sign and
    decimal digits. *)
Fixpoint atoiDigits (s : list ascii) (n : Z) : option Z :=
  match s with
  | [] => Some n
  | ch :: rest =>
      let d := base64.byteZ ch - 48 in
      if (d <? 0) || (9 <? d) then None else atoiDigits rest (n * 10 + d)
  end.

Definition Atoi (s : list ascii) : Z + Error :=
  let bad := inr (SyntaxError (string_of_list_ascii s)) in
  match s with
  | [] => bad
  | c :: rest =>
      let signed := Ascii.eqb c "-"%char || Ascii.eqb c "+"%char in
      let body := if signed then rest else s in
      match body with
      | [] => bad
      | _ =>
          match atoiDigits body 0 with
          | None => bad
          | Some n => inl (if Ascii.eqb c "-"%char then - n else n)
          end
      end
  end.

(** [hashed.decodeVersion]: the major and minor version read and the
    number of bytes used. *)
Definition decodeVersion (sbytes : list ascii) : (ascii * ascii * nat) + Error :=
  let b0 := nth 0 sbytes "000"%char in
  let b1 := nth 1 sbytes "000"%char in
  let b2 := nth 2 sbytes "000"%char in
  if negb (Ascii.eqb b0 "$"%char) then inr (InvalidHashPrefixError b0)
  else if base64.byteZ majorVersion <? base64.byteZ b1
  then inr (HashVersionTooNewError b1)
  else if negb (Ascii.eqb b2 "$"%char) then inl (b1, b2, 4%nat)
  else inl (b1, "000"%char, 3%nat).

(** [hashed.decodeCost] *)
Definition decodeCost (sbytes : list ascii) : (Z * nat) + Error :=
  match Atoi (firstn 2 sbytes) with
  | inr e => inr e
  | inl cost =>
      match checkCost cost with
      | Some e => inr e
      | None => inl (cost, 3%nat)
      end
  end.

(** [newFromHash] *)
Definition newFromHash (hashedSecret : list ascii) : hashed + Error :=
  if (length hashedSecret <? minHashSize)%nat then inr ErrHashTooShort
  else
    match decodeVersion hashedSecret with
    | inr e => inr e
    | inl (major, minor, n) =>
        let hashedSecret := skipn n hashedSecret in
        match decodeCost hashedSecret with
        | inr e => inr e
        | inl (cost, n) =>
            let hashedSecret := skipn n hashedSecret in
            let salt := firstn encodedSaltSize hashedSecret in
            let hashedSecret := skipn encodedSaltSize hashedSecret in
            inl (mkHashed hashedSecret salt cost major minor)
        end
    end.

Section WithPrimitives.
Variable prim : Primitives.

(** [newFromPassword] *)
Definition newFromPassword (password : string) (cost : Z) : hashed + Error :=
  let cost := if cost <? MinCost then DefaultCost else cost in
  match checkCost cost with
  | Some e => inr e
  | None =>
      match randErr prim with
      | Some e => inr (OtherError e)
      | None =>
          let unencodedSalt := map (randByte prim) (seq 0 maxSaltSize) in
          let salt := base64Encode unencodedSalt in
          match crypt prim password cost salt with
          | inr e => inr e
          | inl hash => inl (mkHashed hash salt cost majorVersion minorVersion)
          end
      end
  end.

(** [GenerateFromPassword] *)
Definition GenerateFromPassword (password : string) (cost : Z)
  : string + Error :=
  if (72 <? String.length password)%nat then inr ErrPasswordTooLong
  else
    match newFromPassword password cost with
    | inr e => inr e
    | inl p => inl (string_of_list_ascii (Hash p))
    end.

(** [CompareHashAndPassword]: [None] is [nil]. *)
Definition CompareHashAndPassword (hashedPassword password : string)
  : option Error :=
  match newFromHash (list_ascii_of_string hashedPassword) with
  | inr e => Some e
  | inl p =>
      match crypt prim password (cost p) (salt p) with
      | inr e => Some e
      | inl otherHash =>
          let otherP := mkHashed otherHash (salt p) (cost p) (major p) (minor p) in
          if bool_decide (Hash p = Hash otherP) then None
          else Some ErrMismatchedHashAndPassword
      end
  end.

End WithPrimitives.
End bcrypt.

(* ================================================================== *)
(** * Values of type [interface{}] *)
(* ================================================================== *)

(** The dynamic values a claim set or a Fiber map holds. A [float64] is kept
    as its bit pattern. *)
#[warnings="-register-all"]
Inductive iface : Type :=
| INil
| IBool (b : bool)
| IString (s : string)
| IInt64 (z : Z)
| IFloat64 (bits : Z)
| ISlice (l : list iface)
| IMap (m : list (string * iface)).

(** The dynamic type, as a failed type assertion prints it. *)
Definition typeName (v : iface) : string :=
  match v with
  | INil => "nil"
  | IBool _ => "bool"
  | IString _ => "string"
  | IInt64 _ => "int64"
  | IFloat64 _ => "float64"
  | ISlice _ => "[]interface {}"
  | IMap _ => "map[string]interface {}"
  end.

(** [m[key]] on a [map[string]interface{}]: the nil interface for a key that
    is not there. *)
Definition index (m : gmap string iface) (key : string) : iface :=
  default INil (m !! key).

(** [v.(string)], the form that panics. *)
Definition assertString (v : iface) : M string :=
  match v with
  | IString s => ret s
  | _ =>
      panic ("interface conversion: interface {} is " ++ typeName v
             ++ ", not string")
  end.

(** [s, ok := v.(string)] *)
Definition assertStringOk (v : iface) : string * bool :=
  match v with
  | IString s => (s, true)
  | _ => ("", false)
  end.

(** [v != "lit"] between an [interface{}] and a string. *)
Definition neqString (v : iface) (lit : string) : bool :=
  match v with
  | IString s => negb (String.eqb s lit)
  | _ => true
  end.

(* ================================================================== *)
(** * github.com/golang-jwt/jwt/v4: parsing and verifying

    Decoding the segments of a token ([ParseUnverified]), the validation of
    the registered claims and the signing methods are the library's and are
    inputs; [ParseWithClaims], which joins them, follows the library. *)
(* ================================================================== *)

Module jwt.

(** A [SigningMethod], for keys of type [[]byte]. *)
Record SigningMethod : Type := mkSigningMethod {
  Alg : string;
  (* Verify(signingString, signature, key) *)
  Verify : string -> string -> string -> error;
  (* Sign(signingString, key) *)
  Sign : string -> string -> string * error
}.

(** [jwt.Token]; [Claims] is a [MapClaims]. *)
Record Token : Type := mkToken {
  Raw : string;
  Method : SigningMethod;
  Header : gmap string iface;
  Claims : gmap string iface;
  Signature : string;
  Valid : bool
}.

Record Library : Type := mkLibrary {
  (* ParseUnverified: the token and its three segments, or the token read so
     far (nil or not) with the error *)
  ParseUnverified :
    string -> (Token * (string * string * string)) + (option Token * string);
  (* MapClaims.Valid(), at the Unix time given *)
  MapClaimsValid : Z -> gmap string iface -> error;
  SigningMethodHS256 : SigningMethod;
  (* Token.SigningString() *)
  SigningString : Token -> string * error
}.

Section WithLibrary.
Variable w : Oracle.
Variable lib : Library.

(** [time.Now().Unix()] *)
Definition unixNow : Z := (clock w / 1000000000)%Z.

(** [ParseWithClaims] with an empty [MapClaims]: the token with [err == nil],
    or the token (nil or not) with the error. *)
Definition ParseWithClaims (tokenString : string)
    (keyFunc : Token -> M (string * error))
  : M (Token + (option Token * string)) :=
  match ParseUnverified lib tokenString with
  | inr (token, err) => ret (inr (token, err))
  | inl (token, (part0, part1, part2)) =>
      let* '(key, err) := keyFunc token in
      match err with
      | Some e => ret (inr (Some token, e))
      | None =>
          let vErr := MapClaimsValid lib unixNow (Claims token) in
          let token :=
            mkToken (Raw token) (Method token) (Header token) (Claims token)
              part2 (Valid token) in
          match Verify (Method token) (part0 ++ "." ++ part1)
                  (Signature token) key with
          | Some e => ret (inr (Some token, e))
          | None =>
              match vErr with
              | Some e => ret (inr (Some token, e))
              | None =>
                  ret (inl (mkToken (Raw token) (Method token) (Header token)
                              (Claims token) (Signature token) true))
              end
          end
      end
  end.

(** [jwt.Parse] *)
Definition Parse (tokenString : string)
    (keyFunc : Token -> M (string * error))
  : M (Token + (option Token * string)) :=
  ParseWithClaims tokenString keyFunc.

(** [NewWithClaims] *)
Definition NewWithClaims (method : SigningMethod)
    (claims : gmap string iface) : Token :=
  mkToken "" method
    (<["typ" := IString "JWT"]> (<["alg" := IString (Alg method)]> ∅))
    claims "" false.

(** [Token.SignedString] *)
Definition SignedString (t : Token) (key : string) : string * error :=
  let '(sstr, err) := SigningString lib t in
  match err with
  | Some e => ("", Some e)
  | None =>
      let '(sig, err) := Sign (Method t) sstr key in
      match err with
      | Some e => ("", Some e)
      | None => (sstr ++ "." ++ sig, nil)
      end
  end.

End WithLibrary.
End jwt.

(* ================================================================== *)
(** * Package utils (utils/jwt.go, the password helpers, utils/logging.go) *)
(* ================================================================== *)

Module utils.
Section WithOracle.
Variable w : Oracle.
Variable lib : jwt.Library.
Variable prim : bcrypt.Primitives.

(** The key function of the source: the bytes of [JWT_SECRET]. *)
Definition keyFunc (token : jwt.Token) : M (string * error) :=
  let* secret := os_Getenv "JWT_SECRET" in
  ret (secret, nil).

(** [GenerateToken] *)
Definition GenerateToken (userID role : string) : M (string * error) :=
  let claims : gmap string iface :=
    <["user_id" := IString userID]> (
    <["role" := IString role]> (
    <["exp" := IInt64 (jwt.unixNow w + 72 * 3600)]> ∅)) in
  let token := jwt.NewWithClaims (jwt.SigningMethodHS256 lib) claims in
  let* secret := os_Getenv "JWT_SECRET" in
  ret (jwt.SignedString lib token secret).

(** The claim sets [GenerateTokenPair] signs. *)
Definition accessTokenClaims (userID organizationID role : string)
  : gmap string iface :=
  <["user_id" := IString userID]> (
  <["organization_id" := IString organizationID]> (
  <["role" := IString role]> (
  <["type" := IString "access"]> (
  <["exp" := IInt64 (jwt.unixNow w + 3600)]> (
  <["iat" := IInt64 (jwt.unixNow w)]> ∅))))).

Definition refreshTokenClaims (userID : string) : gmap string iface :=
  <["user_id" := IString userID]> (
  <["type" := IString "refresh"]> (
  <["exp" := IInt64 (jwt.unixNow w + 24 * 7 * 3600)]> ∅)).

(** [GenerateTokenPair] *)
Definition GenerateTokenPair (userID organizationID role : string)
  : M (string * string * error) :=
  let accessToken :=
    jwt.NewWithClaims (jwt.SigningMethodHS256 lib)
      (accessTokenClaims userID organizationID role) in
  let* secret := os_Getenv "JWT_SECRET" in
  let '(accessTokenString, err) := jwt.SignedString lib accessToken secret in
  match err with
  | Some e => ret ("", "", Some e)
  | None =>
      let refreshToken :=
        jwt.NewWithClaims (jwt.SigningMethodHS256 lib)
          (refreshTokenClaims userID) in
      let* secret := os_Getenv "JWT_SECRET" in
      let '(refreshTokenString, err) :=
        jwt.SignedString lib refreshToken secret in
      match err with
      | Some e => ret ("", "", Some e)
      | None => ret (accessTokenString, refreshTokenString, nil)
      end
  end.

(** [VerifyRefreshToken]: the token, the claims and the error. *)
Definition VerifyRefreshToken (tokenString : string)
  : M (option jwt.Token * option (gmap string iface) * error) :=
  let* r := jwt.Parse w lib tokenString keyFunc in
  match r with
  | inr (_, err) => ret (None, None, Some err)
  | inl token =>
      let claims := jwt.Claims token in
      if negb (jwt.Valid token) then
        ret (None, None, Some "invalid refresh token")
      else if neqString (index claims "type") "refresh" then
        ret (None, None, Some "not a refresh token")
      else ret (Some token, Some claims, nil)
  end.

(** [HashPassword]; the lines it prints for debugging are left out. *)
Definition HashPassword (password : string) : string * option bcrypt.Error :=
  match bcrypt.GenerateFromPassword prim password bcrypt.DefaultCost with
  | inr err => ("", Some err)
  | inl hashedBytes =>
      (base64.EncodeToString base64.StdEncoding hashedBytes, None)
  end.

(** [ComparePasswords]; the lines it prints for debugging are left out. *)
Definition ComparePasswords (encodedHash password : string) : bool :=
  match base64.DecodeString base64.StdEncoding encodedHash with
  | None => false
  | Some hashedBytes =>
      match bcrypt.CompareHashAndPassword prim hashedBytes password with
      | None => true
      | Some _ => false
      end
  end.

(** [primitive.NewObjectID] *)
Definition NewObjectID : M ObjectID :=
  let* n := gets objectIDCounter in
  do* modify (set_objectIDCounter (S n)) in
  ret (objectIDs w n).

(** [collection.InsertOne(ctx, doc)] *)
Definition collection_InsertOne (collection : Collection) (ctx : Z)
    (doc : AuditLog) : M error :=
  let* st := gets store in
  let '(st', err) := InsertOne w ctx collection doc st in
  do* modify (set_store st') in
  ret err.

Definition Second : Z := 1000000000.

(** [LogAudit] *)
Definition LogAudit (adminID action targetID : string) : M unit :=
  let* collection := config.GetCollection "oms_audit_logs" in
  let ctx := (5 * Second)%Z in
  let* id := NewObjectID in
  let* now := time_Now w in
  let log := mkAuditLog id adminID action targetID now in
  let* err := collection_InsertOne collection ctx log in
  match err with
  | Some e => println "Failed to log audit:" e
  | None => ret tt
  end.

End WithOracle.
End utils.

(* ================================================================== *)
(** * Package middleware *)
(* ================================================================== *)

(** What a handler sees of [*fiber.Ctx]: the request headers and the locals. *)
Record Ctx : Type := mkCtx {
  reqHeaders : gmap string string;
  Locals : gmap string iface
}.

(** How a handler ends: it has written a JSON response, or it has passed the
    request on with [c.Next()]. *)
Inductive Handled : Type :=
| Response (status : Z) (body : gmap string iface)
| Next (c : Ctx).

Definition StatusUnauthorized : Z := 401.

(** [c.Get(key)] *)
Definition ctx_Get (c : Ctx) (key : string) : string :=
  default "" (reqHeaders c !! key).

(** [c.Locals(key, value)] *)
Definition ctx_Locals (key : string) (value : iface) (c : Ctx) : Ctx :=
  mkCtx (reqHeaders c) (<[key := value]> (Locals c)).

(** [fmt.Println] *)
Definition fmt_Println (line : string) : M unit :=
  modify (fun s => set_stdout (stdout s ++ [line]) s).

(** The first [AuthMiddleware] of the source: user and organization only. *)
Module middleware0.
Section WithOracle.
Variable w : Oracle.
Variable lib : jwt.Library.

Definition AuthMiddleware (c : Ctx) : M Handled :=
  let tokenString := ctx_Get c "Authorization" in
  if String.eqb tokenString "" then
    ret (Response StatusUnauthorized (<["error" := IString "Unauthorized"]> ∅))
  else
    let* r := jwt.ParseWithClaims w lib tokenString utils.keyFunc in
    match r with
    | inr (_, err) =>
        do* fmt_Println err in
        ret (Response StatusUnauthorized
               (<["error" := IString "Invalid token"]> ∅))
    | inl token =>
        let claims := jwt.Claims token in
        let* userID := assertString (index claims "user_id") in
        let* organizationID := assertString (index claims "organization_id") in
        let c := ctx_Locals "user_id" (IString userID) c in
        let c := ctx_Locals "organization_id" (IString organizationID) c in
        ret (Next c)
    end.

End WithOracle.
End middleware0.

(** The second [AuthMiddleware]: it also passes the role on. *)
Module middleware.
Section WithOracle.
Variable w : Oracle.
Variable lib : jwt.Library.

Definition AuthMiddleware (c : Ctx) : M Handled :=
  let tokenString := ctx_Get c "Authorization" in
  if String.eqb tokenString "" then
    ret (Response StatusUnauthorized (<["error" := IString "Unauthorized"]> ∅))
  else
    let* r := jwt.ParseWithClaims w lib tokenString utils.keyFunc in
    match r with
    | inr (_, err) =>
        do* fmt_Println err in
        ret (Response StatusUnauthorized
               (<["error" := IString "Invalid token"]> ∅))
    | inl token =>
        let claims := jwt.Claims token in
        let* userID := assertString (index claims "user_id") in
        let* organizationID := assertString (index claims "organization_id") in
        let '(role, _) := assertStringOk (index claims "role") in
        let c := ctx_Locals "user_id" (IString userID) c in
        let c := ctx_Locals "organization_id" (IString organizationID) c in
        let c := ctx_Locals "role" (IString role) c in
        ret (Next c)
    end.

End WithOracle.
End middleware.

(* ================================================================== *)
(** * Package config: the database connection (config/database.go) *)
(* ================================================================== *)

Definition set_DB (v : option MongoClient) (s : State) : State :=
  mkState (environ s) (Config s) (once s) v (objectIDCounter s) (store s)
    (stderr s) (stdout s).

(** The [options.ClientOptions] that [ConnectDB] builds; durations are in
    nanoseconds. *)
Record ClientOptions : Type := mkClientOptions {
  URI : string;
  ConnectTimeout : Z;
  ServerSelectionTimeout : Z;
  SocketTimeout : Z;
  MaxPoolSize : Z;
  MinPoolSize : Z;
  MaxConnIdleTime : Z
}.

(** A [*mongo.Database] handle. *)
Record Database : Type := mkDatabase {
  dbClient : MongoClient;
  dbName : string
}.

(** A [*mongo.Cursor]: what [cursor.All] decodes, or its error. *)
Record Cursor : Type := mkCursor { All : list AuditLog + string }.

(** What the MongoDB driver answers; a context is given by its timeout. *)
Record Driver : Type := mkDriver {
  (* mongo.Connect(ctx, clientOptions) *)
  Connect : Z -> ClientOptions -> MongoClient + string;
  (* client.Ping(ctx, nil) *)
  Ping : Z -> MongoClient -> error;
  (* client.Disconnect(ctx) *)
  Disconnect : Z -> MongoClient -> error;
  (* collection.Find(ctx, filter) *)
  Find : Z -> Collection -> gmap string iface -> Store -> Cursor + string
}.

Module database.
Section WithDriver.
Variable d : Driver.

(** [ConnectDB] *)
Definition ConnectDB : M unit :=
  let* c := gets Config in
  do* (match c with
       | None =>
           log.Fatal
             "❌ Configuration not loaded. Call LoadEnv() first before ConnectDB()"
       | Some _ => ret tt
       end) in
  let* mongoURI := config.GetMongoURI in
  let* dbName := config.GetDBName in
  do* (if String.eqb mongoURI "" then
         log.Fatal
           "❌ MongoDB URI is required. Please set MONGO_URI environment variable or configure Secret Manager"
       else ret tt) in
  do* log.Printf ("🔗 Connecting to MongoDB database: " ++ dbName) in
  let clientOptions :=
    mkClientOptions mongoURI (10 * utils.Second) (5 * utils.Second)
      (30 * utils.Second) 10 2 (30 * utils.Second) in
  match Connect d (10 * utils.Second) clientOptions with
  | inr err => log.Fatalf ("❌ Failed to create MongoDB client: " ++ err)
  | inl client =>
      match Ping d (5 * utils.Second) client with
      | Some err => log.Fatalf ("❌ Failed to connect to MongoDB: " ++ err)
      | None =>
          do* modify (set_DB (Some client)) in
          let* secretManager := config.IsSecretManagerEnabled in
          let configMode :=
            if secretManager then "Secret Manager (cached)"
            else "environment variables" in
          do* fmt_Println ("✅ Connected to MongoDB database: " ++ dbName
                           ++ " (using " ++ configMode ++ ")") in
          log.Println "🚀 Database connection pool configured and ready"
      end
  end.

(** [DisconnectDB] *)
Definition DisconnectDB : M unit :=
  let* db := gets DB in
  match db with
  | Some client =>
      do* (match Disconnect d (5 * utils.Second) client with
           | Some err =>
               log.Printf ("⚠️  Error disconnecting from MongoDB: " ++ err)
           | None => log.Println "✅ Disconnected from MongoDB"
           end) in
      modify (set_DB None)
  | None => ret tt
  end.

(** [GetDatabase] *)
Definition GetDatabase : M Database :=
  let* db := gets DB in
  match db with
  | None => log.Fatal "❌ Database not connected. Call ConnectDB() first"
  | Some client =>
      let* dbName := config.GetDBName in
      ret (mkDatabase client dbName)
  end.

(** [HealthCheckDB] *)
Definition HealthCheckDB : M error :=
  let* db := gets DB in
  match db with
  | None => ret (Some "database not connected")
  | Some client => ret (Ping d (3 * utils.Second) client)
  end.

End WithDriver.
End database.

(* ================================================================== *)
(** * Package utils: reading the audit trail (utils/logging.go) *)
(* ================================================================== *)

Module auditlog.
Section WithDriver.
Variable d : Driver.

(** [GetAuditLogs]: a nil slice is the empty list. *)
Definition GetAuditLogs (filter : gmap string iface)
  : M (list AuditLog * error) :=
  let* collection := config.GetCollection "oms_audit_logs" in
  let ctx := (10 * utils.Second)%Z in
  let* st := gets store in
  match Find d ctx collection filter st with
  | inr err => ret ([], Some err)
  | inl cursor =>
      match All cursor with
      | inr err => ret ([], Some err)
      | inl logs => ret (logs, nil)
      end
  end.

End WithDriver.
End auditlog.

(* ================================================================== *)
(** * Package utils: helpers (utils/helpers.go) *)
(* ================================================================== *)

Module helpers.

(** [strings.Index(s, substr)]: where [substr] first occurs in [s]; [None]
    is -1. *)
Fixpoint Index (s substr : string) : option nat :=
  if String.prefix substr s then Some 0
  else
    match s with
    | EmptyString => None
    | String _ rest => S <$> Index rest substr
    end.

(** The loop of [strings.Split(s, sep)] for a separator that is not empty:
    cut at the first occurrence, go on behind it. Every round drops at least
    one byte of [s], so its length is fuel enough. *)
Fixpoint genSplit (fuel : nat) (s sep : string) : list string :=
  match fuel with
  | O => [s]
  | S fuel =>
      match Index s sep with
      | None => [s]
      | Some m =>
          let behind := (m + String.length sep)%nat in
          String.substring 0 m s
          :: genSplit fuel
               (String.substring behind (String.length s - behind) s) sep
      end
  end.

Definition Split (s sep : string) : list string :=
  genSplit (String.length s) s sep.

(** [ExtractDomain] *)
Definition ExtractDomain (email : string) : string :=
  let parts := Split email "@" in
  if negb (length parts =? 2)%nat then ""
  else nth 1 parts "".

(** [Contains] *)
Fixpoint Contains (slice : list string) (item : string) : bool :=
  match slice with
  | [] => false
  | s :: rest => if String.eqb s item then true else Contains rest item
  end.

(** [reverseHexTable] of encoding/hex: the value of a hexadecimal digit of
    either case. *)
Definition fromHexChar (c : ascii) : option Z :=
  let n := base64.byteZ c in
  if (48 <=? n)%Z && (n <=? 57)%Z then Some (n - 48)%Z
  else if (97 <=? n)%Z && (n <=? 102)%Z then Some (n - 87)%Z
  else if (65 <=? n)%Z && (n <=? 70)%Z then Some (n - 55)%Z
  else None.

(** [hex.Decode]: two digits make a byte; [None] for an error. *)
Fixpoint hexDecode (src : list ascii) : option (list Z) :=
  match src with
  | [] => Some []
  | [_] => None
  | p :: q :: rest =>
      a ← fromHexChar p;
      b ← fromHexChar q;
      bytes ← hexDecode rest;
      Some (Z.lor (Z.shiftl a 4) b :: bytes)
  end.

(** The twelve bytes of an [ObjectID], as the number they are read as. *)
Definition ofBytes (bytes : list Z) : ObjectID :=
  Z.to_N (fold_left (fun acc b => acc * 256 + b)%Z bytes 0%Z).

Definition NilObjectID : ObjectID := 0%N.

(** [primitive.ObjectIDFromHex] *)
Definition ObjectIDFromHex (s : string) : ObjectID * error :=
  if negb (String.length s =? 24)%nat then
    (NilObjectID, Some "the provided hex string is not a valid ObjectID")
  else
    match hexDecode (list_ascii_of_string s) with
    | None => (NilObjectID, Some "encoding/hex: invalid byte")
    | Some bytes => (ofBytes bytes, nil)
    end.

(** [ToObjectID] *)
Definition ToObjectID (id : string) : ObjectID :=
  let '(objID, err) := ObjectIDFromHex id in
  match err with
  | Some _ => NilObjectID
  | None => objID
  end.

End helpers.

(* ================================================================== *)
(** * Package utils: the verification token (utils/email.go) *)
(* ================================================================== *)

Module email.

Definition encodeURL : string :=
  "ABCDEFGHIJKLMNOPQRSTUVWXYZabcdefghijklmnopqrstuvwxyz0123456789-_".

(** [base64.URLEncoding] *)
Definition URLEncoding : base64.Encoding := base64.NewEncoding encodeURL.

(** [GenerateEmailVerificationToken]. [read] is what [rand.Read] writes into
    a buffer of the length given; its error is dropped by the source, and a
    buffer it has not filled keeps its zero bytes. *)
Definition GenerateEmailVerificationToken (read : nat -> list ascii)
  : string :=
  let b := repeat "000"%char 32 in
  let b := bcrypt.copyAt b 0 (read 32%nat) in
  base64.EncodeToString URLEncoding (string_of_list_ascii b).

End email.

(* ================================================================== *)
(** * Package middleware: the role gates *)
(* ================================================================== *)

Definition StatusForbidden : Z := 403.
Definition StatusBadRequest : Z := 400.
Definition StatusInternalServerError : Z := 500.

(** [c.Locals(key)]: the value stored, nil when there is none. *)
Definition ctx_Local (c : Ctx) (key : string) : iface :=
  index (Locals c) key.

Module roles.

(** The handler [AdminOnly()] returns. *)
Definition AdminOnly (c : Ctx) : M Handled :=
  let '(role, ok) := assertStringOk (ctx_Local c "role") in
  if negb ok
     || (negb (String.eqb role "admin")
         && negb (String.eqb role "super_admin")) then
    ret (Response StatusForbidden
           (<["error" := IString "Admin privileges required"]> ∅))
  else ret (Next c).

(** The handler [SuperAdminOnly()] returns. *)
Definition SuperAdminOnly (c : Ctx) : M Handled :=
  let '(role, ok) := assertStringOk (ctx_Local c "role") in
  if negb ok || negb (String.eqb role "super_admin") then
    ret (Response StatusForbidden
           (<["error" := IString "Super admin privileges required"]> ∅))
  else ret (Next c).

End roles.

(* ================================================================== *)
(** * Package controllers and package routes *)
(* ================================================================== *)

(** What a request is answered with: [c.Status(status).JSON(fiber.Map{...})]
    or [c.JSON(logs)]. *)
Inductive Reply : Type :=
| StatusJSON (status : Z) (body : gmap string iface)
| JSON (logs : list AuditLog).

Module controllers.
Section WithDriver.
Variable d : Driver.

(** [c.Params(key)]: the route parameters of the request are an argument of
    the handlers. *)
Definition ctx_Params (params : gmap string string) (key : string) : string :=
  default "" (params !! key).

(** [GetAuditLogs] *)
Definition GetAuditLogs (params : gmap string string) (c : Ctx) : M Reply :=
  let* '(logs, err) := auditlog.GetAuditLogs d ∅ in
  match err with
  | Some _ =>
      ret (StatusJSON StatusInternalServerError
             (<["error" := IString "Failed to fetch audit logs"]> ∅))
  | None => ret (JSON logs)
  end.

(** [GetAdminAuditLogs] *)
Definition GetAdminAuditLogs (params : gmap string string) (c : Ctx)
  : M Reply :=
  let adminID := ctx_Params params "adminId" in
  if String.eqb adminID "" then
    ret (StatusJSON StatusBadRequest
           (<["error" := IString "Admin ID is required"]> ∅))
  else
    let* '(logs, err) :=
      auditlog.GetAuditLogs d (<["admin_id" := IString adminID]> ∅) in
    match err with
    | Some _ =>
        ret (StatusJSON StatusInternalServerError
               (<["error" := IString "Failed to fetch admin audit logs"]> ∅))
    | None => ret (JSON logs)
    end.

(** [GetResourceAuditLogs] *)
Definition GetResourceAuditLogs (params : gmap string string) (c : Ctx)
  : M Reply :=
  let targetID := ctx_Params params "targetId" in
  if String.eqb targetID "" then
    ret (StatusJSON StatusBadRequest
           (<["error" := IString "Target/Resource ID is required"]> ∅))
  else
    let* '(logs, err) :=
      auditlog.GetAuditLogs d (<["target_id" := IString targetID]> ∅) in
    match err with
    | Some _ =>
        ret (StatusJSON StatusInternalServerError
               (<["error" :=
                    IString "Failed to fetch resource audit logs"]> ∅))
    | None => ret (JSON logs)
    end.

End WithDriver.
End controllers.

Module routes.
Section WithOracle.
Variable w : Oracle.
Variable lib : jwt.Library.
Variable d : Driver.

(** A handler of a group runs after the handlers of the group, each of which
    answers the request itself or hands it on with [c.Next()]. *)
Definition group (middlewares : list (Ctx -> M Handled))
    (handler : gmap string string -> Ctx -> M Reply)
    (params : gmap string string) : Ctx -> M Reply :=
  fold_right
    (fun (m : Ctx -> M Handled) (next : Ctx -> M Reply) (c : Ctx) =>
       let* h := m c in
       match h with
       | Response status body => ret (StatusJSON status body)
       | Next c => next c
       end)
    (handler params) middlewares.

(** [SetupAuditRoutes]: the GET routes it registers, by their path. *)
Definition SetupAuditRoutes
  : list (string * (gmap string string -> Ctx -> M Reply)) :=
  let auditGroup :=
    group [middleware.AuthMiddleware w lib; roles.AdminOnly] in
  [ ("/audit/logs", auditGroup (controllers.GetAuditLogs d));
    ("/audit/admin/:adminId", auditGroup (controllers.GetAdminAuditLogs d));
    ("/audit/resource/:targetId",
     auditGroup (controllers.GetResourceAuditLogs d)) ].

End WithOracle.
End routes.

(* ================================================================== *)
(** * The vocabulary of the statements *)
(* ================================================================== *)

Abbreviation Std := base64.StdEncoding.

(** The value [os.Getenv] reads for [key] in state [s]. *)
Definition getenv (s : State) (key : string) : string :=
  default "" (environ s !! key).

(** The state of a process that has loaded nothing yet. *)
Definition startState (env : gmap string string) : State :=
  mkState env None false None 0 ∅ [] [].

(** The state an outcome ends in. *)
Definition stateOf {A} (o : Outcome A) : State :=
  match o with Ret _ s | Exit _ s | Panic _ s => s end.

(** Everything of the state but the log. *)
Definition logsOnly (s s' : State) : Prop :=
  environ s' = environ s /\ Config s' = Config s /\ once s' = once s /\
  DB s' = DB s /\ objectIDCounter s' = objectIDCounter s /\
  store s' = store s /\ stdout s' = stdout s.

(** Everything of the state but the environment and the log. *)
Definition sameMemory (s s' : State) : Prop :=
  Config s' = Config s /\ once s' = once s /\ DB s' = DB s /\
  objectIDCounter s' = objectIDCounter s /\ store s' = store s /\
  stdout s' = stdout s.

(** The mode the specification gives for [auto]. *)
Definition specAutoMode (s : State) : ConfigMode :=
  if negb (String.eqb (getenv s "GOOGLE_CLOUD_PROJECT") "")
     || String.eqb (getenv s "USE_SECRET_MANAGER") "true"
  then ModeSecretManager else ModeBasic.

(** A secret is unresolved: the store fails for it and, when falling back is
    allowed, its environment variable is empty as well. *)
Definition unresolved (w : Oracle) (options : ConfigOptions.t) (s : State)
    (projectID secretKey envKey : string) : Prop :=
  snd (config.fetchSecretFromManager w projectID secretKey) <> nil /\
  (ConfigOptions.FallbackToEnv options = true -> getenv s envKey = "").

(** What [getSecretOrEnv] returns, as a function of the environment. *)
Definition secretOrEnv (w : Oracle) (options : ConfigOptions.t) (s : State)
    (projectID secretKey envKey : string) : string * error :=
  match config.fetchSecretFromManager w projectID secretKey with
  | (value, None) => (value, nil)
  | (_, Some e) =>
      if negb (ConfigOptions.FallbackToEnv options) then ("", Some e)
      else if String.eqb (getenv s envKey) "" then
        ("", Some ("both secret " ++ secretKey ++ " and environment variable "
                   ++ envKey ++ " are empty"))
      else (getenv s envKey, nil)
  end.

(** The configuration after the loop: each entry's value assigned in turn. *)
Definition assignAll (w : Oracle) (options : ConfigOptions.t)
    (s : State) (projectID : string)
    (entries : list (string * string)) (config : AppConfig) : AppConfig :=
  fold_left
    (fun c '(k, e) =>
       config.assignSecret k (fst (secretOrEnv w options s projectID k e)) c)
    entries config.

(** The project the secrets are read from. *)
Definition secretProject (options : ConfigOptions.t) (s : State) : string :=
  if String.eqb (ConfigOptions.SecretManagerProject options) ""
  then getenv s "GOOGLE_CLOUD_PROJECT"
  else ConfigOptions.SecretManagerProject options.

(** A run of loads, each with the oracle and the options of its call. *)
Fixpoint loadAll (calls : list (Oracle * ConfigOptions.t)) : M unit :=
  match calls with
  | [] => ret tt
  | (w, options) :: rest =>
      do* config.LoadEnvWithOptions w options in loadAll rest
  end.

(** The entry [LogAudit] builds in state [s]. *)
Definition auditEntry (w : Oracle) (s : State)
    (adminID action targetID : string) : AuditLog :=
  mkAuditLog (objectIDs w (objectIDCounter s)) adminID action targetID
    (mkTime (clock w) Local).

(** A request whose only header is [Authorization]. *)
Definition requestWith (tokenString : string) : Ctx :=
  mkCtx (<["Authorization" := tokenString]> ∅) ∅.

(** The response that rejects a request. *)
Definition isRejection (h : Outcome Handled) : Prop :=
  exists body s, h = Ret (Response StatusUnauthorized body) s.

(** The string [s] with its character at index [i] replaced by [c]. *)
Definition replaceAt (i : nat) (c : ascii) (s : string) : string :=
  string_of_list_ascii (<[i := c]> (list_ascii_of_string s)).

(** The four sextets of three bytes, and the three bytes of four sextets. *)
Definition sextets (B0 B1 B2 : Z) : Z * Z * Z * Z :=
  (let val := B0 * 65536 + B1 * 256 + B2 in
  (val / 262144 mod 64, val / 4096 mod 64, val / 64 mod 64, val mod 64))%Z.

Definition octets (d0 d1 d2 d3 : Z) : Z * Z * Z :=
  (let val := d0 * 262144 + d1 * 4096 + d2 * 64 + d3 in
  (val / 65536 mod 256, val / 256 mod 256, val mod 256))%Z.

(** A character of the alphabet. *)
Definition inAlphabet (c : ascii) : bool :=
  negb (base64.decodeMap Std c =? 255)%Z.

(** Four characters for three bytes, and back. *)
Definition encodeQ (b0 b1 b2 : ascii) : list ascii :=
  let '(d0, d1, d2, d3) :=
    sextets (base64.byteZ b0) (base64.byteZ b1) (base64.byteZ b2) in
  [base64.encodeAt Std d0; base64.encodeAt Std d1; base64.encodeAt Std d2;
   base64.encodeAt Std d3].

Definition decodeQ (c0 c1 c2 c3 : ascii) : list ascii :=
  let '(B0, B1, B2) :=
    octets (base64.decodeMap Std c0) (base64.decodeMap Std c1)
      (base64.decodeMap Std c2) (base64.decodeMap Std c3) in
  [base64.Zbyte B0; base64.Zbyte B1; base64.Zbyte B2].

(** The bytes of a run of whole quanta. *)
Fixpoint decodeAll (l : list ascii) : list ascii :=
  match l with
  | c0 :: c1 :: c2 :: c3 :: rest => (decodeQ c0 c1 c2 c3 ++ decodeAll rest)%list
  | _ => []
  end.

(** A run of [n] whole quanta of the alphabet. *)
Definition quanta (n : nat) (chars : list ascii) : Prop :=
  length chars = (4 * n)%nat /\ Forall (fun c => inAlphabet c = true) chars.

(** The array [Hash] has filled before it copies the digest, for a hash with
    a minor version. *)
Definition header (major minor : ascii) (cost : Z) (salt : list ascii)
  : list ascii :=
  bcrypt.copyAt
    (bcrypt.copyAt
       (bcrypt.copyAt
          (bcrypt.copyAt
             (bcrypt.copyAt
                (bcrypt.copyAt
                   (bcrypt.copyAt (repeat "000"%char 60) 0 ["$"%char])
                   1 [major])
                2 [minor])
             3 ["$"%char])
          4 (bcrypt.format02d cost))
       6 ["$"%char])
    7 salt.

(** The first 29 bytes of a hash: version, cost and salt. *)
Definition prefix29 (major minor : ascii) (salt : list ascii) : list ascii :=
  ("$" :: major :: minor :: "$" :: "1" :: "0" :: "$" :: salt)%char.

(* ------------------------------------------------------------------ *)
(** ** For the rest of the packages *)
(* ------------------------------------------------------------------ *)

(** What [GetEnv key fallback] returns in state [s]. *)
Definition envOr (s : State) (key fallback : string) : string :=
  if String.eqb (getenv s key) "" then fallback else getenv s key.

(** The mode a load works in: the mode of the options, detected when that is
    [auto]. *)
Definition effectiveMode (options : ConfigOptions.t) (s : State)
  : ConfigMode :=
  if String.eqb (ConfigOptions.Mode options) ModeAuto then specAutoMode s
  else ConfigOptions.Mode options.

(** The environment of the process once a load that starts in [s] has looked
    for [.env]: in a development environment the variables of the file that
    the process does not have are added. *)
Definition loadEnviron (w : Oracle) (s : State) : gmap string string :=
  if String.eqb (envOr s "APP_ENV" "development") "development" then
    match dotenvFile w with
    | inl vars => environ s ∪ vars
    | inr _ => environ s
    end
  else environ s.

Definition afterDotenv (w : Oracle) (s : State) : State :=
  set_environ (loadEnviron w s) s.

(** The field of [AppConfig] a logical secret is assigned to. *)
Definition secretField (secretKey : string) (c : AppConfig) : string :=
  if String.eqb secretKey "mongo-uri" then MongoURI c
  else if String.eqb secretKey "db-name" then DBName c
  else if String.eqb secretKey "jwt-secret" then JWTSecret c
  else if String.eqb secretKey "nats-url" then NATSURL c
  else "".

(** The last line written to standard error. *)
Definition lastLog (s : State) : option string := last (stderr s).

(** The configuration the second half of a load starts from. *)
Definition firstConfig (w : Oracle) (options : ConfigOptions.t) (s : State)
  : AppConfig :=
  mkAppConfig (effectiveMode options s) (envOr s "APP_ENV" "development")
    "" "" "" "" "" "" (envOr s "PORT" "8080") ConfigVersion
    (mkTime (clock w) Local).

(** The value a logical secret is stored as: an empty database name is
    replaced by the default. *)
Definition withDefault (secretKey value : string) : string :=
  if String.eqb secretKey "db-name" && String.eqb value ""
  then "mrexperiences_service" else value.

(** The rule for [AllowedOrigins]. *)
Definition originsFor (allowed appEnv : string) : string :=
  if String.eqb allowed "" then config.getDefaultAllowedOrigins appEnv
  else allowed.

(** The token string decodes to [t], its signature verifies against
    [JWT_SECRET] and its registered claims are valid: [ParseWithClaims]
    returns it with no error. *)
Definition goodToken (w : Oracle) (lib : jwt.Library) (s : State)
    (tokenString : string) (t : jwt.Token) : Prop :=
  exists part0 part1 part2,
    jwt.ParseUnverified lib tokenString = inl (t, (part0, part1, part2)) /\
    jwt.Verify (jwt.Method t) (part0 ++ "." ++ part1) part2
      (getenv s "JWT_SECRET") = nil /\
    jwt.MapClaimsValid lib (jwt.unixNow w) (jwt.Claims t) = nil.

(** The JSON body [{"error": message}]. *)
Definition errorBody (message : string) : gmap string iface :=
  <["error" := IString message]> ∅.

(** What [utils.GetAuditLogs] makes of the driver's answer. *)
Definition queryResult (d : Driver) (coll : Collection)
    (filter : gmap string iface) (st : Store) : list AuditLog * error :=
  match Find d 10000000000 coll filter st with
  | inr err => ([], Some err)
  | inl cursor =>
      match All cursor with
      | inr err => ([], Some err)
      | inl logs => (logs, nil)
      end
  end.

(** The library reads back the claim set [claims] it signed with [key], at
    the time of [w]: the string [SignedString] made of the HS256 token
    decodes to a token whose signature verifies with the same key, whose
    registered claims are valid (it has not expired), and whose claim set
    has the string claims of the original and no claim the original
    lacks. *)
Definition readsBack (w : Oracle) (lib : jwt.Library) (key : string)
    (claims : gmap string iface) : Prop :=
  forall signed,
    jwt.SignedString lib
      (jwt.NewWithClaims (jwt.SigningMethodHS256 lib) claims) key
    = (signed, nil) ->
    exists t part0 part1 part2,
      jwt.ParseUnverified lib signed = inl (t, (part0, part1, part2)) /\
      jwt.Verify (jwt.Method t) (part0 ++ "." ++ part1) part2 key = nil /\
      jwt.MapClaimsValid lib (jwt.unixNow w) (jwt.Claims t) = nil /\
      (forall k v, claims !! k = Some (IString v) ->
                   jwt.Claims t !! k = Some (IString v)) /\
      (forall k, claims !! k = None -> jwt.Claims t !! k = None).

(** How many [@] a string holds. *)
Fixpoint atSigns (s : string) : nat :=
  match s with
  | EmptyString => 0
  | String c rest => (if Ascii.eqb c "@" then 1 else 0) + atSigns rest
  end.

(** The number a string of hexadecimal digits denotes, digit by digit. *)
Definition hexDigitValue (acc : Z) (c : ascii) : Z :=
  (acc * 16 + default 0 (helpers.fromHexChar c))%Z.

Definition hexValue (s : string) : Z :=
  fold_left hexDigitValue (list_ascii_of_string s) 0%Z.

(** Every character is a hexadecimal digit, of either case. *)
Definition allHex (s : string) : bool :=
  forallb (fun c => bool_decide (helpers.fromHexChar c <> None))
    (list_ascii_of_string s).

(** A character that needs no escaping in a URL: a letter, a digit, [-] or
    [_]. *)
Definition urlSafe (c : ascii) : bool :=
  let n := base64.byteZ c in
  ((65 <=? n) && (n <=? 90) || (97 <=? n) && (n <=? 122)
   || (48 <=? n) && (n <=? 57) || (n =? 45) || (n =? 95))%Z.

(** The 32 bytes the verification token encodes: what [rand.Read] wrote,
    zero where it wrote nothing. *)
Definition tokenBuffer (read : nat -> list ascii) : list ascii :=
  bcrypt.copyAt (repeat "000"%char 32) 0 (read 32).

(* ================================================================== *)
(** * Sample worlds *)
(* ================================================================== *)

(** A store that keeps what it is given. *)
Definition keepingInsertOne (ctx : Z) (coll : Collection) (doc : AuditLog)
    (st : Store) : Store * error :=
  let key := (collDatabase coll, collName coll) in
  (<[key := (default [] (st !! key) ++ [doc])%list]> st, nil).

(** A secret store that knows one secret of project [demo]; no [.env] file. *)
Definition sampleOracle : Oracle :=
  mkOracle 1700000000000000000 3600
    (inr "open .env: no such file or directory")
    None
    (fun name =>
       if String.eqb name "projects/demo/secrets/jwt-secret/versions/latest"
       then inl "s3cret" else inr "rpc error: code = NotFound")
    [ ("nats-url", "NATS_URL"); ("mongo-uri", "MONGO_URI");
      ("jwt-secret", "JWT_SECRET"); ("db-name", "DB_NAME") ]
    (fun n => N.of_nat n)
    keepingInsertOne.

Definition sampleEnv : gmap string string :=
  <["MONGO_URI" := "mongodb://localhost:27017"]> (
  <["APP_ENV" := "production"]> ∅).

Definition secretOptions : ConfigOptions.t :=
  ConfigOptions.mk ModeSecretManager true "demo" ["jwt-secret"] [] true.

Definition basicOptions : ConfigOptions.t :=
  ConfigOptions.mk ModeBasic false "" [] [] true.

Definition autoOptions : ConfigOptions.t :=
  ConfigOptions.mk ModeAuto false "" [] [] true.

(** The state after the sample load in basic mode. *)
Definition loadedState : State :=
  stateOf (config.LoadEnvWithOptions sampleOracle basicOptions
             (startState sampleEnv)).

(** A store that refuses every insertion. *)
Definition refusingInsertOne (ctx : Z) (coll : Collection) (doc : AuditLog)
    (st : Store) : Store * error :=
  (st, Some "context deadline exceeded").

Definition downOracle : Oracle :=
  mkOracle (clock sampleOracle) (localZoneOffset sampleOracle)
    (dotenvFile sampleOracle) (secretmanagerNewClient sampleOracle)
    (AccessSecretVersion sampleOracle) (secretMapOrder sampleOracle)
    (objectIDs sampleOracle) refusingInsertOne.

(** A process that has loaded its configuration and connected. *)
Definition connectedState : State :=
  mkState (environ loadedState) (Config loadedState) (once loadedState)
    (Some (mkMongoClient "mongodb://localhost:27017")) 7 ∅
    (stderr loadedState) (stdout loadedState).

(** A toy signing method: a signature verifies when it is the key itself. *)
Definition sampleHS256 : jwt.SigningMethod :=
  jwt.mkSigningMethod "HS256"
    (fun signingString signature key =>
       if String.eqb signature key then nil else Some "signature is invalid")
    (fun signingString key => (key, nil)).

Definition sampleToken (claims : gmap string iface) (raw : string)
  : jwt.Token :=
  jwt.mkToken raw sampleHS256
    (<["typ" := IString "JWT"]> (<["alg" := IString "HS256"]> ∅)) claims ""
    false.

(** A toy library: a token is [hdr.<claims>.<signature>], with four claim
    sets it knows by name; a claim set with an [exp] is expired. *)
Definition sampleLib : jwt.Library :=
  jwt.mkLibrary
    (fun tokenString =>
       let known (name : string) (claims : gmap string iface) (rest : string) :=
         if String.prefix ("hdr." ++ name ++ ".") tokenString then
           Some (inl (sampleToken claims tokenString,
                      ("hdr", name,
                       String.substring (String.length name + 5)
                         (String.length tokenString) tokenString)))
         else None in
       default (inr (None, "token contains an invalid number of segments"))
         (known "refresh"
            (<["type" := IString "refresh"]> (<["user_id" := IString "u1"]> ∅))
            tokenString
          ∪ known "access"
              (<["type" := IString "access"]> (
               <["user_id" := IString "u1"]> (
               <["organization_id" := IString "o1"]> ∅))) tokenString
          ∪ known "nouser" (<["type" := IString "access"]> ∅) tokenString
          ∪ known "expired" (<["exp" := IInt64 1]> ∅) tokenString))
    (fun now claims =>
       match claims !! "exp" with
       | Some _ => Some "token is expired"
       | None => nil
       end)
    sampleHS256
    (fun t => ("hdr.claims", nil)).

Definition secretEnv : gmap string string := <["JWT_SECRET" := "s3cret"]> ∅.

(** A toy digest function and a fixed random source. *)
Definition samplePrimitives : bcrypt.Primitives :=
  bcrypt.mkPrimitives None (fun n => ascii_of_nat (n * 17))
    (fun password cost salt =>
       inl (firstn 31 (list_ascii_of_string password ++ salt ++ salt))%list).

(* ------------------------------------------------------------------ *)
(** ** For the rest of the packages *)
(* ------------------------------------------------------------------ *)

(** The sample oracle with a [.env] file that sets a port and a database. *)
Definition dotenvOracle : Oracle :=
  mkOracle (clock sampleOracle) (localZoneOffset sampleOracle)
    (inl (<["PORT" := "9090"]> (
          <["MONGO_URI" := "mongodb://db.local:27017"]> (
          <["JWT_SECRET" := "from-dotenv"]> ∅))))
    (secretmanagerNewClient sampleOracle)
    (AccessSecretVersion sampleOracle) (secretMapOrder sampleOracle)
    (objectIDs sampleOracle) (InsertOne sampleOracle).

(** A development machine: nothing is set but the signing secret. *)
Definition devEnv : gmap string string := <["JWT_SECRET" := "dev"]> ∅.
(** The entries of the audit collection a store holds. *)
Definition auditEntries (coll : Collection) (st : Store) : list AuditLog :=
  default [] (st !! (collDatabase coll, collName coll)).

(** The string field of an entry a filter names, by the [bson] tags of
    [models.AuditLog]. *)
Definition bsonField (key : string) (doc : AuditLog) : option string :=
  if String.eqb key "admin_id" then Some (AdminID doc)
  else if String.eqb key "action" then Some (Action doc)
  else if String.eqb key "target_id" then Some (TargetID doc)
  else None.

(** An entry matches a filter when each field the filter names holds the
    string given. *)
Definition fieldIs (doc : AuditLog) (key : string) (value : iface) : bool :=
  match value, bsonField key doc with
  | IString x, Some y => String.eqb x y
  | _, _ => false
  end.

Definition matches (filter : gmap string iface) (doc : AuditLog) : bool :=
  forallb (fun '(key, value) => fieldIs doc key value) (map_to_list filter).

(** A driver whose server is reachable and whose [Find] returns the entries
    of the collection that match, in the order they were inserted. *)
Definition sampleDriver : Driver :=
  mkDriver
    (fun ctx opts => inl (mkMongoClient (URI opts)))
    (fun ctx client => nil)
    (fun ctx client => nil)
    (fun ctx coll filter st =>
       inl (mkCursor (inl (List.filter (matches filter) (auditEntries coll st))))).
(** A toy library that signs and reads back: the signing string of a token
    is [hdr.] and the value of its [type] claim, [plain] when it has none;
    a signature is the key. It knows the claim sets that [utils] makes for
    the user [u1] of the organization [o1] with the role [admin] at the
    time of the sample oracle. *)
Definition pairLib : jwt.Library :=
  jwt.mkLibrary
    (fun tokenString =>
       let known (name : string) (claims : gmap string iface) :=
         if String.prefix ("hdr." ++ name ++ ".") tokenString then
           Some (inl (sampleToken claims tokenString,
                      ("hdr", name,
                       String.substring (String.length name + 5)
                         (String.length tokenString) tokenString)))
         else None in
       default (inr (None, "token contains an invalid number of segments"))
         (known "refresh" (utils.refreshTokenClaims sampleOracle "u1")
          ∪ known "access"
              (utils.accessTokenClaims sampleOracle "u1" "o1" "admin")
          ∪ known "plain"
              (<["user_id" := IString "u1"]> (
               <["role" := IString "admin"]> (
               <["exp" :=
                   IInt64 (jwt.unixNow sampleOracle + 72 * 3600)]> ∅)))))
    (fun now claims => nil)
    sampleHS256
    (fun t =>
       ("hdr." ++ match jwt.Claims t !! "type" with
                  | Some (IString name) => name
                  | _ => "plain"
                  end, nil)).

(** A process that serves requests: connected, with a signing secret. *)
Definition servingState : State :=
  set_environ (<["JWT_SECRET" := "s3cret"]> (environ connectedState))
    connectedState.

(* ================================================================== *)
(** * Lemmas and theorems *)
(* ================================================================== *)



Lemma logsOnly_refl s : logsOnly s s.
Proof. repeat split. Qed.

Lemma logsOnly_trans s1 s2 s3 : logsOnly s1 s2 -> logsOnly s2 s3 -> logsOnly s1 s3.
Proof.
  unfold logsOnly. intros (?&?&?&?&?&?&?) (?&?&?&?&?&?&?).
  repeat split; congruence.
Qed.

Lemma logsOnly_stderr s l : logsOnly s (set_stderr l s).
Proof. repeat split. Qed.

Lemma getenv_logsOnly s s' k : logsOnly s s' -> getenv s' k = getenv s k.
Proof. intros (H & _). unfold getenv. now rewrite H. Qed.

Lemma Println_eq line s :
  log.Println line s = Ret tt (set_stderr (stderr s ++ [line]) s).
Proof. reflexivity. Qed.

Lemma GetEnv_eq key fallback s :
  config.GetEnv key fallback s
  = Ret (if String.eqb (getenv s key) "" then fallback else getenv s key) s.
Proof.
  unfold config.GetEnv, bind, os_Getenv, gets, getenv.
  destruct (String.eqb _ ""); reflexivity.
Qed.

Lemma bind_Ret {A B} (m : M A) (k : A -> M B) s a s' :
  m s = Ret a s' -> bind m k s = k a s'.
Proof. unfold bind. now intros ->. Qed.

Lemma GetEnv_empty key s : config.GetEnv key "" s = Ret (getenv s key) s.
Proof.
  rewrite GetEnv_eq. destruct (String.eqb (getenv s key) "") eqn:E; [|reflexivity].
  apply String.eqb_eq in E. now rewrite E.
Qed.

Lemma bind_bind {A B C} (m : M A) (f : A -> M B) (k : B -> M C) s :
  bind (bind m f) k s = bind m (fun a => bind (f a) k) s.
Proof. unfold bind. destruct (m s); reflexivity. Qed.

Lemma bind_ret {A B} (a : A) (k : A -> M B) s : bind (ret a) k s = k a s.
Proof. reflexivity. Qed.

Ltac mstep :=
  unfold log.Printf;
  first
    [ rewrite (bind_Ret _ _ _ _ _ (GetEnv_empty _ _))
    | rewrite (bind_Ret _ _ _ _ _ (GetEnv_eq _ _ _))
    | rewrite (bind_Ret _ _ _ _ _ (Println_eq _ _)) ];
  cbv beta.

Lemma detectConfigMode_eq s :
  exists s', config.detectConfigMode s = Ret (specAutoMode s) s' /\ logsOnly s s'.
Proof.
  unfold config.detectConfigMode, specAutoMode.
  mstep.
  destruct (String.eqb (getenv s "GOOGLE_CLOUD_PROJECT") "") eqn:E1; cbn [negb orb].
  - mstep.
    destruct (String.eqb (getenv s "USE_SECRET_MANAGER") "true") eqn:E3;
      eexists; (split; [reflexivity | apply logsOnly_stderr]).
  - eexists; split; [reflexivity | apply logsOnly_stderr].
Qed.

Lemma logsOnly_sameMemory s s' : logsOnly s s' -> sameMemory s s'.
Proof. intros (?&?&?&?&?&?&?). repeat split; assumption. Qed.

Lemma sameMemory_trans s1 s2 s3 :
  sameMemory s1 s2 -> sameMemory s2 s3 -> sameMemory s1 s3.
Proof.
  unfold sameMemory. intros (?&?&?&?&?&?) (?&?&?&?&?&?).
  repeat split; congruence.
Qed.

Section Loader.
Variable w : Oracle.

Lemma godotenv_step (appEnv : string) s :
  exists s1,
    (if String.eqb appEnv "development" then
       bind (godotenv_Load w) (fun err =>
         match err with
         | Some _ =>
             log.Println
               "⚠️  Warning: .env file not found, using system environment variables"
         | None => log.Println "✅ Loaded .env file for development"
         end)
     else ret tt) s = Ret tt s1 /\ sameMemory s s1.
Proof.
  destruct (String.eqb appEnv "development").
  - unfold godotenv_Load. destruct (dotenvFile w) as [vars | e];
      eexists; (split; [reflexivity | repeat split]).
  - eexists; split; [reflexivity | repeat split].
Qed.

Lemma newConfig_eq options s :
  exists config s1,
    config.newConfig w options s = Ret config s1 /\
    Mode config = (if String.eqb (ConfigOptions.Mode options) ModeAuto
                   then specAutoMode s else ConfigOptions.Mode options) /\
    sameMemory s s1.
Proof.
  unfold config.newConfig.
  mstep. set (s0 := set_stderr _ s). mstep. mstep.
  unfold time_Now. rewrite (bind_Ret _ _ _ _ _ eq_refl). cbv beta.
  cbn [Mode].
  destruct (String.eqb (ConfigOptions.Mode options) ModeAuto) eqn:Ea.
  - destruct (detectConfigMode_eq s0) as (s' & Hd & Hl).
    rewrite bind_bind, (bind_Ret _ _ _ _ _ Hd). cbv beta.
    rewrite bind_ret.
    match goal with |- context [String.eqb ?a "development"] =>
      destruct (godotenv_step a s') as (s1 & Hg & Hm) end.
    rewrite (bind_Ret _ _ _ _ _ Hg).
    do 2 eexists. split; [reflexivity|]. split; [reflexivity|].
    eapply sameMemory_trans; [|exact Hm].
    apply logsOnly_sameMemory.
    eapply logsOnly_trans; [apply logsOnly_stderr | exact Hl].
  - rewrite bind_ret.
    match goal with |- context [String.eqb ?a "development"] =>
      destruct (godotenv_step a s0) as (s1 & Hg & Hm) end.
    rewrite (bind_Ret _ _ _ _ _ Hg).
    do 2 eexists. split; [reflexivity|]. split; [reflexivity|].
    eapply sameMemory_trans; [|exact Hm].
    apply logsOnly_sameMemory. apply logsOnly_stderr.
Qed.

End Loader.

Section Basic.
Variable w : Oracle.

Lemma loadBasicConfig_eq config s :
  exists c' s',
    config.loadBasicConfig config s = Ret (c', nil) s' /\ logsOnly s s' /\
    Mode c' = Mode config /\ AppEnv c' = AppEnv config /\
    AllowedOrigins c'
    = (if String.eqb (getenv s "ALLOWED_ORIGINS") ""
       then config.getDefaultAllowedOrigins (AppEnv config)
       else getenv s "ALLOWED_ORIGINS").
Proof.
  unfold config.loadBasicConfig.
  mstep. set (s0 := set_stderr _ s). do 5 mstep.
  change (getenv s0 "ALLOWED_ORIGINS") with (getenv s "ALLOWED_ORIGINS").
  destruct (String.eqb (getenv s "ALLOWED_ORIGINS") "");
    do 2 eexists; (split; [reflexivity|]); (split; [repeat split|]);
    repeat split.
Qed.

(** In basic mode the second half of the load returns, with the
    configuration [loadBasicConfig] made. *)
Lemma loadAndAssign_basic options config s :
  Mode config = ModeBasic ->
  exists c' s',
    config.loadAndAssign w options config s = Ret tt s' /\
    Config s' = Some c' /\ environ s' = environ s /\ once s' = once s /\
    Mode c' = ModeBasic /\ AppEnv c' = AppEnv config /\
    AllowedOrigins c'
    = (if String.eqb (getenv s "ALLOWED_ORIGINS") ""
       then config.getDefaultAllowedOrigins (AppEnv config)
       else getenv s "ALLOWED_ORIGINS").
Proof.
  intros Hm. unfold config.loadAndAssign. rewrite Hm.
  change (String.eqb ModeBasic ModeSecretManager) with false.
  change (String.eqb ModeBasic ModeBasic) with true. cbv iota.
  destruct (loadBasicConfig_eq config s) as (c' & s' & Hl & Hf & Hm' & Ha & Ho).
  rewrite (bind_Ret _ _ _ _ _ Hl). cbv beta iota.
  destruct Hf as (He & Hc & Hon & _).
  do 2 eexists. split; [reflexivity|]. cbn.
  repeat split; try assumption. congruence.
Qed.

End Basic.

(* ------------------------------------------------------------------ *)
(** ** The one-shot guard *)
(* ------------------------------------------------------------------ *)

Lemma LoadEnvWithOptions_done w options s :
  once s = true -> config.LoadEnvWithOptions w options s = Ret tt s.
Proof.
  intros H. unfold config.LoadEnvWithOptions, config.once_Do, bind, gets.
  now rewrite H.
Qed.

Lemma LoadEnvWithOptions_sets_once w options s s' :
  config.LoadEnvWithOptions w options s = Ret tt s' -> once s' = true.
Proof.
  unfold config.LoadEnvWithOptions, config.once_Do.
  unfold bind at 1. unfold gets. destruct (once s) eqn:E.
  - intros [= <-]. exact E.
  - unfold bind at 1.
    destruct (bind (config.newConfig w options) _ s); try discriminate.
    intros [= <-]. reflexivity.
Qed.

(* ------------------------------------------------------------------ *)
(** ** Secret Manager mode *)
(* ------------------------------------------------------------------ *)

Section SecretManager.
Variable w : Oracle.
Variable options : ConfigOptions.t.

Lemma getSecretOrEnv_eq s projectID secretKey envKey :
  exists s',
    config.getSecretOrEnv w projectID secretKey envKey ""
      (ConfigOptions.FallbackToEnv options) s
    = Ret (secretOrEnv w options s projectID secretKey envKey) s' /\ logsOnly s s'.
Proof.
  unfold config.getSecretOrEnv, secretOrEnv.
  destruct (config.fetchSecretFromManager w projectID secretKey) as [value [e|]].
  - destruct (ConfigOptions.FallbackToEnv options); cbn [negb].
    + mstep. set (s0 := set_stderr _ s). mstep.
      change (getenv s0 envKey) with (getenv s envKey).
      destruct (String.eqb (getenv s envKey) "");
        eexists; (split; [reflexivity | apply logsOnly_stderr]).
    + eexists; split; [reflexivity | apply logsOnly_refl].
  - eexists; split; [reflexivity | apply logsOnly_refl].
Qed.

Lemma secretOrEnv_logsOnly s s' p k e :
  logsOnly s s' ->
  secretOrEnv w options s' p k e = secretOrEnv w options s p k e.
Proof.
  intros H. unfold secretOrEnv. now rewrite (getenv_logsOnly _ _ _ H).
Qed.

Lemma unresolved_error s p k e :
  unresolved w options s p k e <->
  exists err, secretOrEnv w options s p k e = ("", Some err).
Proof.
  unfold unresolved, secretOrEnv.
  destruct (config.fetchSecretFromManager w p k) as [value [err|]]; cbn [snd].
  - destruct (ConfigOptions.FallbackToEnv options); cbn [negb].
    + destruct (String.eqb (getenv s e) "") eqn:E.
      * apply String.eqb_eq in E. split; [eauto|]. intros _. split; [discriminate|auto].
      * apply String.eqb_neq in E. split.
        -- intros [_ H]. destruct (E (H eq_refl)).
        -- intros [? [=]].
    + split; [eauto|]. intros _. split; discriminate.
  - split; [intros [H _]; now destruct H | intros [? [=]]].
Qed.

Lemma resolved_value s p k e :
  ~ unresolved w options s p k e -> snd (secretOrEnv w options s p k e) = nil.
Proof.
  intros H. destruct (secretOrEnv w options s p k e) as [v [err|]] eqn:E; [|reflexivity].
  destruct H. apply unresolved_error.
  revert E. unfold secretOrEnv.
  destruct (config.fetchSecretFromManager w p k) as [value [e0|]].
  - destruct (negb _); [intros [= <- <-]; eauto|].
    destruct (String.eqb _ ""); intros [= <- <-]; eauto.
  - intros [=].
Qed.

Lemma assignSecret_ProjectID k v c :
  ProjectID (config.assignSecret k v c) = ProjectID c.
Proof.
  unfold config.assignSecret.
  repeat (match goal with |- context [if ?b then _ else _] => destruct b end;
          try reflexivity).
Qed.

Lemma assignSecret_Mode k v c : Mode (config.assignSecret k v c) = Mode c.
Proof.
  unfold config.assignSecret.
  repeat (match goal with |- context [if ?b then _ else _] => destruct b end;
          try reflexivity).
Qed.

Lemma assignSecret_AppEnv k v c : AppEnv (config.assignSecret k v c) = AppEnv c.
Proof.
  unfold config.assignSecret.
  repeat (match goal with |- context [if ?b then _ else _] => destruct b end;
          try reflexivity).
Qed.

(** The loop fails when a required secret is unresolved. *)
Lemma rangeSecretMap_fails entries : forall config s,
  (exists k e, In (k, e) entries /\
     config.contains (ConfigOptions.RequiredSecrets options) k = true /\
     unresolved w options s (ProjectID config) k e) ->
  exists c' err s',
    config.rangeSecretMap w options entries config s = Ret (c', Some err) s' /\
    logsOnly s s'.
Proof.
  induction entries as [|[k0 e0] rest IH]; intros config s (k & e & Hin & Hreq & Hun).
  - destruct Hin.
  - cbn [config.rangeSecretMap].
    destruct (getSecretOrEnv_eq s (ProjectID config) k0 e0) as (s1 & Hg & Hl).
    rewrite (bind_Ret _ _ _ _ _ Hg). cbv beta.
    destruct (secretOrEnv w options s (ProjectID config) k0 e0) as [v [err|]] eqn:E.
    + destruct (config.contains _ k0) eqn:Hc.
      * do 3 eexists. split; [reflexivity | exact Hl].
      * mstep.
        destruct Hin as [[= -> ->] | Hin]; [congruence|].
        destruct (IH (config.assignSecret k0 "" config) (set_stderr
                   (stderr s1 ++ ["⚠️  Optional secret " ++ k0
                                  ++ " not available: " ++ err]) s1))
          as (c' & err' & s' & Hr & Hl').
        { exists k, e. split; [exact Hin|]. split; [exact Hreq|].
          rewrite assignSecret_ProjectID. destruct Hun as [Hu1 Hu2].
          split; [exact Hu1|]. intros Hf. rewrite <- (Hu2 Hf).
          apply getenv_logsOnly.
          eapply logsOnly_trans; [exact Hl | apply logsOnly_stderr]. }
        do 3 eexists. split; [exact Hr|].
        eapply logsOnly_trans; [exact Hl|].
        eapply logsOnly_trans; [apply logsOnly_stderr | exact Hl'].
    + destruct Hin as [[= -> ->] | Hin].
      { apply unresolved_error in Hun. destruct Hun as [? Hun]. congruence. }
      destruct (IH (config.assignSecret k0 v config) s1)
        as (c' & err' & s' & Hr & Hl').
      { exists k, e. split; [exact Hin|]. split; [exact Hreq|].
        rewrite assignSecret_ProjectID. destruct Hun as [Hu1 Hu2].
        split; [exact Hu1|]. intros Hf. rewrite <- (Hu2 Hf).
        apply getenv_logsOnly. exact Hl. }
      do 3 eexists. split; [exact Hr|].
      eapply logsOnly_trans; [exact Hl | exact Hl'].
Qed.

(** The loop succeeds when no required secret is unresolved, and assigns
    every entry's value: the empty string for an unresolved w options one. *)
Lemma rangeSecretMap_succeeds entries : forall config s0 s,
  logsOnly s0 s ->
  (forall k e, In (k, e) entries ->
     config.contains (ConfigOptions.RequiredSecrets options) k = true ->
     ~ unresolved w options s0 (ProjectID config) k e) ->
  exists s',
    config.rangeSecretMap w options entries config s
    = Ret (assignAll w options s0 (ProjectID config) entries config, nil) s' /\
    logsOnly s s'.
Proof.
  induction entries as [|[k0 e0] rest IH]; intros config s0 s Hs H.
  - eexists. split; [reflexivity | apply logsOnly_refl].
  - cbn [config.rangeSecretMap].
    destruct (getSecretOrEnv_eq s (ProjectID config) k0 e0) as (s1 & Hg & Hl).
    rewrite (bind_Ret _ _ _ _ _ Hg). cbv beta.
    rewrite (secretOrEnv_logsOnly _ _ _ _ _ Hs).
    unfold assignAll. cbn [fold_left].
    destruct (secretOrEnv w options s0 (ProjectID config) k0 e0) as [v [err|]] eqn:E.
    + assert (Hu : unresolved w options s0 (ProjectID config) k0 e0).
      { apply unresolved_error. revert E. unfold secretOrEnv.
        destruct (config.fetchSecretFromManager w _ k0) as [value [e1|]].
        - destruct (negb _); [intros [= <- <-]; eauto|].
          destruct (String.eqb _ ""); intros [= <- <-]; eauto.
        - intros [=]. }
      destruct (config.contains _ k0) eqn:Hc.
      { destruct (H k0 e0 (or_introl eq_refl) Hc Hu). }
      mstep. apply unresolved_error in Hu. destruct Hu as [err' Hu].
      rewrite E in Hu. injection Hu as -> _. cbn [fst].
      match goal with |- context [config.rangeSecretMap w options rest ?c ?st] =>
        destruct (IH c s0 st) as (s' & Hr & Hl') end.
      { eapply logsOnly_trans; [exact Hs|].
        eapply logsOnly_trans; [exact Hl | apply logsOnly_stderr]. }
      { intros k e Hin Hreq. rewrite assignSecret_ProjectID.
        apply H; [right; exact Hin | exact Hreq]. }
      rewrite assignSecret_ProjectID in Hr.
      eexists. split; [exact Hr|].
      eapply logsOnly_trans; [exact Hl|].
      eapply logsOnly_trans; [apply logsOnly_stderr | exact Hl'].
    + cbn [fst].
      destruct (IH (config.assignSecret k0 v config) s0 s1) as (s' & Hr & Hl').
      { eapply logsOnly_trans; [exact Hs | exact Hl]. }
      { intros k e Hin Hreq. rewrite assignSecret_ProjectID.
        apply H; [right; exact Hin | exact Hreq]. }
      rewrite assignSecret_ProjectID in Hr.
      eexists. split; [exact Hr|].
      eapply logsOnly_trans; [exact Hl | exact Hl'].
Qed.

End SecretManager.

Section SecretFields.
Variable w : Oracle.
Variable options : ConfigOptions.t.

Lemma assignAll_untouched (g : AppConfig -> string) (kg : string) s p :
  (forall k v c, k <> kg -> g (config.assignSecret k v c) = g c) ->
  forall entries c,
    ~ In kg (map fst entries) -> g (assignAll w options s p entries c) = g c.
Proof.
  intros Hother. unfold assignAll.
  induction entries as [|[k e] rest IH]; intros c Hn; [reflexivity|].
  cbn [fold_left]. rewrite IH.
  - apply Hother. intros ->. apply Hn. now left.
  - intros Hin. apply Hn. now right.
Qed.

Lemma assignAll_field (g : AppConfig -> string) (kg : string)
    (F : string -> string) s p :
  (forall k v c, k <> kg -> g (config.assignSecret k v c) = g c) ->
  (forall v c, g (config.assignSecret kg v c) = F v) ->
  forall entries c e,
    List.NoDup (map fst entries) -> In (kg, e) entries ->
    g (assignAll w options s p entries c)
    = F (fst (secretOrEnv w options s p kg e)).
Proof.
  intros Hother Hself.
  induction entries as [|[k0 e0] rest IH]; intros c e Hnd Hin; [destruct Hin|].
  cbn [map fst] in Hnd. apply List.NoDup_cons_iff in Hnd. destruct Hnd as [Hn Hnd].
  destruct Hin as [[= -> ->] | Hin].
  - change (assignAll w options s p ((kg, e) :: rest) c)
      with (assignAll w options s p rest
              (config.assignSecret kg (fst (secretOrEnv w options s p kg e)) c)).
    rewrite (assignAll_untouched g kg s p Hother rest _ Hn). apply Hself.
  - change (assignAll w options s p ((k0, e0) :: rest) c)
      with (assignAll w options s p rest
              (config.assignSecret k0 (fst (secretOrEnv w options s p k0 e0)) c)).
    apply IH; assumption.
Qed.

Ltac assign_cases :=
  unfold config.assignSecret;
  repeat match goal with
         | |- context [String.eqb ?a ?b] =>
             let E := fresh "E" in
             destruct (String.eqb a b) eqn:E;
             [apply String.eqb_eq in E; try congruence
             |apply String.eqb_neq in E]
         end;
  try reflexivity; try congruence.

Lemma assignAll_MongoURI s p entries c e :
  List.NoDup (map fst entries) -> In ("mongo-uri", e) entries ->
  MongoURI (assignAll w options s p entries c)
  = fst (secretOrEnv w options s p "mongo-uri" e).
Proof.
  apply (assignAll_field MongoURI "mongo-uri" (fun v => v)).
  - intros k v c0 Hk. assign_cases.
  - intros v c0. reflexivity.
Qed.

Lemma assignAll_JWTSecret s p entries c e :
  List.NoDup (map fst entries) -> In ("jwt-secret", e) entries ->
  JWTSecret (assignAll w options s p entries c)
  = fst (secretOrEnv w options s p "jwt-secret" e).
Proof.
  apply (assignAll_field JWTSecret "jwt-secret" (fun v => v)).
  - intros k v c0 Hk. assign_cases.
  - intros v c0. reflexivity.
Qed.

Lemma assignAll_NATSURL s p entries c e :
  List.NoDup (map fst entries) -> In ("nats-url", e) entries ->
  NATSURL (assignAll w options s p entries c)
  = fst (secretOrEnv w options s p "nats-url" e).
Proof.
  apply (assignAll_field NATSURL "nats-url" (fun v => v)).
  - intros k v c0 Hk. assign_cases.
  - intros v c0. reflexivity.
Qed.

Lemma assignAll_DBName s p entries c e :
  List.NoDup (map fst entries) -> In ("db-name", e) entries ->
  DBName (assignAll w options s p entries c)
  = (if String.eqb (fst (secretOrEnv w options s p "db-name" e)) ""
     then "mrexperiences_service"
     else fst (secretOrEnv w options s p "db-name" e)).
Proof.
  apply (assignAll_field DBName "db-name"
           (fun v => if String.eqb v "" then "mrexperiences_service" else v)).
  - intros k v c0 Hk. assign_cases.
  - intros v c0. unfold config.assignSecret. cbn.
    destruct (String.eqb v ""); reflexivity.
Qed.

Lemma assignAll_frame s p entries c :
  Mode (assignAll w options s p entries c) = Mode c /\
  AppEnv (assignAll w options s p entries c) = AppEnv c /\
  ProjectID (assignAll w options s p entries c) = ProjectID c.
Proof.
  unfold assignAll. revert c.
  induction entries as [|[k e] rest IH]; intros c; [repeat split|].
  cbn [fold_left]. destruct (IH (config.assignSecret k
     (fst (secretOrEnv w options s p k e)) c)) as (H1 & H2 & H3).
  rewrite H1, H2, H3, assignSecret_Mode, assignSecret_AppEnv,
    assignSecret_ProjectID.
  repeat split.
Qed.

Lemma secretMap_keys_NoDup : List.NoDup (map fst config.secretMap).
Proof.
  cbn. repeat (apply List.NoDup_cons; [cbn; intuition discriminate|]).
  apply List.NoDup_nil.
Qed.

Lemma order_NoDup :
  Permutation (secretMapOrder w) config.secretMap ->
  List.NoDup (map fst (secretMapOrder w)).
Proof.
  intros H. eapply Permutation.Permutation_NoDup.
  - apply Permutation_sym, Permutation_map, H.
  - apply secretMap_keys_NoDup.
Qed.

End SecretFields.

Section SecretLoader.
Variable w : Oracle.
Variable options : ConfigOptions.t.

Lemma unresolved_logsOnly s s' p k e :
  logsOnly s s' ->
  unresolved w options s p k e -> unresolved w options s' p k e.
Proof.
  intros Hl [H1 H2]. split; [exact H1|].
  intros Hf. rewrite (getenv_logsOnly _ _ _ Hl). auto.
Qed.

Lemma loadSecretsFromManager_fails config s :
  ProjectID config = "" \/
  (exists k e, In (k, e) (secretMapOrder w) /\
     config.contains (ConfigOptions.RequiredSecrets options) k = true /\
     unresolved w options s (ProjectID config) k e) ->
  exists c' err s',
    config.loadSecretsFromManager w config options s = Ret (c', Some err) s' /\
    logsOnly s s'.
Proof.
  intros H. unfold config.loadSecretsFromManager. mstep.
  set (s0 := set_stderr _ s).
  destruct (String.eqb (ProjectID config) "") eqn:E.
  { do 3 eexists. split; [reflexivity | apply logsOnly_stderr]. }
  destruct H as [H | (k & e & Hin & Hreq & Hun)].
  { rewrite H in E. discriminate. }
  destruct (rangeSecretMap_fails w options (secretMapOrder w) config s0)
    as (c' & err & s' & Hr & Hl).
  { exists k, e. split; [exact Hin|]. split; [exact Hreq|].
    eapply unresolved_logsOnly; [apply logsOnly_stderr | exact Hun]. }
  rewrite (bind_Ret _ _ _ _ _ Hr). cbv beta iota.
  do 3 eexists. split; [reflexivity|].
  eapply logsOnly_trans; [apply logsOnly_stderr | exact Hl].
Qed.

Lemma loadSecretsFromManager_succeeds config s :
  ProjectID config <> "" ->
  (forall k e, In (k, e) (secretMapOrder w) ->
     config.contains (ConfigOptions.RequiredSecrets options) k = true ->
     ~ unresolved w options s (ProjectID config) k e) ->
  exists c' s',
    config.loadSecretsFromManager w config options s = Ret (c', nil) s' /\
    logsOnly s s' /\
    let loaded :=
      assignAll w options s (ProjectID config) (secretMapOrder w) config in
    MongoURI c' = MongoURI loaded /\ DBName c' = DBName loaded /\
    JWTSecret c' = JWTSecret loaded /\ NATSURL c' = NATSURL loaded /\
    Mode c' = Mode config /\ AppEnv c' = AppEnv config /\
    AllowedOrigins c'
    = (if String.eqb (getenv s "ALLOWED_ORIGINS") ""
       then config.getDefaultAllowedOrigins (AppEnv config)
       else getenv s "ALLOWED_ORIGINS").
Proof.
  intros Hp H. unfold config.loadSecretsFromManager. mstep.
  set (s0 := set_stderr _ s).
  destruct (String.eqb (ProjectID config) "") eqn:E.
  { apply String.eqb_eq in E. contradiction. }
  destruct (rangeSecretMap_succeeds w options (secretMapOrder w) config s s0)
    as (s1 & Hr & Hl); [apply logsOnly_stderr | exact H |].
  rewrite (bind_Ret _ _ _ _ _ Hr). cbv beta iota zeta delta [nil]. mstep.
  assert (Hl1 : logsOnly s s1)
    by (eapply logsOnly_trans; [apply logsOnly_stderr | exact Hl]).
  rewrite (getenv_logsOnly _ _ _ Hl1).
  destruct (assignAll_frame w options s (ProjectID config) (secretMapOrder w)
              config) as (Hm & Ha & _).
  destruct (String.eqb (getenv s "ALLOWED_ORIGINS") ""); cbn [negb];
    do 2 eexists; (split; [reflexivity|]);
    (split; [eapply logsOnly_trans; [exact Hl1 | apply logsOnly_stderr]|]).
  all: cbn; rewrite ?Hm, ?Ha; repeat split.
Qed.

Lemma loadAndAssign_project config s :
  Mode config = ModeSecretManager ->
  config.loadAndAssign w options config s
  = bind (config.loadSecretsFromManager w
            (set_ProjectID (secretProject options s) config) options)
      (fun '(config, err) =>
         match err with
         | Some e => log.Fatalf ("❌ Failed to load configuration: " ++ e)
         | None =>
             do* modify (set_Config (Some config)) in
             log.Printf ("✅ Configuration loaded successfully (mode: "
                         ++ Mode config ++ ", env: " ++ AppEnv config ++ ")")
         end) s.
Proof.
  intros Hm. unfold config.loadAndAssign, secretProject. rewrite Hm.
  change (String.eqb ModeSecretManager ModeSecretManager) with true. cbv iota.
  cbn [ProjectID set_ProjectID].
  destruct (String.eqb (ConfigOptions.SecretManagerProject options) "") eqn:E.
  - rewrite !bind_bind. mstep. rewrite bind_ret. reflexivity.
  - rewrite bind_bind, bind_ret. reflexivity.
Qed.

Lemma loadAndAssign_secret_fails config s :
  Mode config = ModeSecretManager ->
  secretProject options s = "" \/
  (exists k e, In (k, e) (secretMapOrder w) /\
     config.contains (ConfigOptions.RequiredSecrets options) k = true /\
     unresolved w options s (secretProject options s) k e) ->
  exists s', config.loadAndAssign w options config s = Exit 1 s' /\
             logsOnly s s'.
Proof.
  intros Hm H. rewrite (loadAndAssign_project config s Hm).
  destruct (loadSecretsFromManager_fails
              (set_ProjectID (secretProject options s) config) s H)
    as (c' & err & s' & Hr & Hl).
  rewrite (bind_Ret _ _ _ _ _ Hr). cbv beta iota.
  eexists. split; [reflexivity|].
  eapply logsOnly_trans; [exact Hl | apply logsOnly_stderr].
Qed.

Lemma loadAndAssign_secret_succeeds config s :
  Mode config = ModeSecretManager ->
  secretProject options s <> "" ->
  (forall k e, In (k, e) (secretMapOrder w) ->
     config.contains (ConfigOptions.RequiredSecrets options) k = true ->
     ~ unresolved w options s (secretProject options s) k e) ->
  exists c' s',
    config.loadAndAssign w options config s = Ret tt s' /\
    Config s' = Some c' /\ environ s' = environ s /\ once s' = once s /\
    let loaded :=
      assignAll w options s (secretProject options s) (secretMapOrder w)
        (set_ProjectID (secretProject options s) config) in
    MongoURI c' = MongoURI loaded /\ DBName c' = DBName loaded /\
    JWTSecret c' = JWTSecret loaded /\ NATSURL c' = NATSURL loaded /\
    Mode c' = ModeSecretManager /\ AppEnv c' = AppEnv config /\
    AllowedOrigins c'
    = (if String.eqb (getenv s "ALLOWED_ORIGINS") ""
       then config.getDefaultAllowedOrigins (AppEnv config)
       else getenv s "ALLOWED_ORIGINS").
Proof.
  intros Hm Hp H. rewrite (loadAndAssign_project config s Hm).
  destruct (loadSecretsFromManager_succeeds
              (set_ProjectID (secretProject options s) config) s Hp H)
    as (c' & s' & Hr & Hl & H1 & H2 & H3 & H4 & H5 & H6 & H7).
  rewrite (bind_Ret _ _ _ _ _ Hr). cbv beta iota.
  destruct Hl as (He & Hc & Ho & _).
  do 2 eexists. split; [reflexivity|]. cbn.
  split; [reflexivity|]. split; [exact He|]. split; [exact Ho|].
  cbn in H1, H2, H3, H4, H5, H6, H7.
  repeat split; try assumption. congruence.
Qed.

End SecretLoader.

(* ------------------------------------------------------------------ *)
(** ** The claims about the configuration loader *)
(* ------------------------------------------------------------------ *)

Lemma LoadEnvWithOptions_fresh w options s config s1 :
  once s = false ->
  config.newConfig w options s = Ret config s1 ->
  config.LoadEnvWithOptions w options s
  = bind (config.loadAndAssign w options config)
      (fun _ => modify (set_once true)) s1.
Proof.
  intros Ho Hn. unfold config.LoadEnvWithOptions, config.once_Do.
  unfold bind at 1. unfold gets. rewrite Ho.
  rewrite bind_bind. rewrite (bind_Ret _ _ _ _ _ Hn). reflexivity.
Qed.

Lemma newConfig_sameMemory w options s config s1 :
  config.newConfig w options s = Ret config s1 -> sameMemory s s1.
Proof.
  intros H. destruct (newConfig_eq w options s) as (c & s' & Hn & _ & Hm).
  rewrite Hn in H. injection H as -> ->. exact Hm.
Qed.

Lemma secretMap_order w k e :
  Permutation (secretMapOrder w) config.secretMap ->
  In (k, e) config.secretMap -> In (k, e) (secretMapOrder w).
Proof. intros H. apply Permutation_in, Permutation_sym, H. Qed.

(** C1 (amended). In secret-manager mode, with [s1] the state in which the
    secrets are read: when a secret listed in [RequiredSecrets] can be
    resolved neither from the secret store nor (with [FallbackToEnv]) from
    its environment variable, loading exits fatally and [Config] stays as it
    was; when no required secret is unresolved and the project id is not
    empty, loading returns, and an unresolved optional secret leaves
    [MongoURI], [JWTSecret] and [NATSURL] empty, while [DBName] gets its
    default [mrexperiences_service]. *)
Theorem C1_unresolved_secrets w options s config s1 :
  once s = false ->
  config.newConfig w options s = Ret config s1 ->
  Mode config = ModeSecretManager ->
  Permutation (secretMapOrder w) config.secretMap ->
  let project := secretProject options s1 in
  let unres k e := unresolved w options s1 project k e in
  let required k :=
    config.contains (ConfigOptions.RequiredSecrets options) k = true in
  ((exists k e, In (k, e) config.secretMap /\ required k /\ unres k e) ->
   exists s', config.LoadEnvWithOptions w options s = Exit 1 s' /\
              Config s' = Config s)
  /\
  (project <> "" ->
   (forall k e, In (k, e) config.secretMap -> unres k e -> ~ required k) ->
   exists c s',
     config.LoadEnvWithOptions w options s = Ret tt s' /\
     Config s' = Some c /\
     (unres "mongo-uri" "MONGO_URI" -> MongoURI c = "") /\
     (unres "db-name" "DB_NAME" -> DBName c = "mrexperiences_service") /\
     (unres "jwt-secret" "JWT_SECRET" -> JWTSecret c = "") /\
     (unres "nats-url" "NATS_URL" -> NATSURL c = "")).
Proof.
  intros Ho Hn Hm Hperm project unres required.
  rewrite (LoadEnvWithOptions_fresh w options s config s1 Ho Hn).
  pose proof (newConfig_sameMemory _ _ _ _ _ Hn) as (Hc & _).
  split.
  - intros (k & e & Hin & Hreq & Hun).
    destruct (loadAndAssign_secret_fails w options config s1 Hm)
      as (s' & Hr & Hl).
    { right. exists k, e. split; [|split; assumption].
      apply secretMap_order; assumption. }
    unfold bind. rewrite Hr. eexists. split; [reflexivity|].
    destruct Hl as (_ & Hc' & _). congruence.
  - intros Hp Hopt.
    destruct (loadAndAssign_secret_succeeds w options config s1 Hm Hp)
      as (c & s' & Hr & Hcfg & _ & _ & H1 & H2 & H3 & H4 & _).
    { intros k e Hin Hreq Hun. apply (Hopt k e); try assumption.
      eapply Permutation_in; [exact Hperm | exact Hin]. }
    unfold bind. rewrite Hr. exists c. eexists. split; [reflexivity|].
    split; [exact Hcfg|].
    pose proof (order_NoDup w Hperm) as Hnd.
    assert (Hval : forall k e, unres k e ->
              fst (secretOrEnv w options s1 project k e) = "").
    { intros k e Hu. apply unresolved_error in Hu. destruct Hu as [err ->].
      reflexivity. }
    repeat split; intros Hu.
    + rewrite H1, (assignAll_MongoURI w options s1 project _ _ "MONGO_URI" Hnd).
      * apply Hval, Hu.
      * apply secretMap_order; [exact Hperm | cbn; tauto].
    + rewrite H2, (assignAll_DBName w options s1 project _ _ "DB_NAME" Hnd).
      * rewrite (Hval _ _ Hu). reflexivity.
      * apply secretMap_order; [exact Hperm | cbn; tauto].
    + rewrite H3, (assignAll_JWTSecret w options s1 project _ _ "JWT_SECRET" Hnd).
      * apply Hval, Hu.
      * apply secretMap_order; [exact Hperm | cbn; tauto].
    + rewrite H4, (assignAll_NATSURL w options s1 project _ _ "NATS_URL" Hnd).
      * apply Hval, Hu.
      * apply secretMap_order; [exact Hperm | cbn; tauto].
Qed.

(** The sample load: [jwt-secret] comes from the store, [mongo-uri] from the
    environment, [db-name] and [nats-url] are unresolved and optional. *)
Lemma C1_unresolved_secrets_witness :
  exists c s',
    config.LoadEnvWithOptions sampleOracle secretOptions (startState sampleEnv)
    = Ret tt s' /\
    Config s' = Some c /\
    DBName c = "mrexperiences_service" /\ NATSURL c = "".
Proof.
  destruct (newConfig_eq sampleOracle secretOptions (startState sampleEnv))
    as (config & s1 & Hn & _).
  assert (Hv := Hn). vm_compute in Hv. injection Hv as Hc Hs. subst config s1.
  destruct (C1_unresolved_secrets sampleOracle secretOptions
              (startState sampleEnv) _ _ eq_refl Hn)
    as [_ H].
  - vm_compute. reflexivity.
  - refine (bool_decide_unpack _ _). vm_compute. exact I.
  - destruct H as (c & s' & Hr & Hc & _ & Hdb & _ & Hnats).
    + vm_compute. discriminate.
    + intros k e Hin [Hstore Henv] Hreq.
      cbn in Hin.
      destruct Hin as [[= <- <-]|[[= <- <-]|[[= <- <-]|[[= <- <-]|[]]]]];
        vm_compute in Hreq; try discriminate.
      apply Hstore. vm_compute. reflexivity.
    + exists c, s'. split; [exact Hr|]. split; [exact Hc|]. split.
      * apply Hdb. split; [vm_compute; discriminate|].
        intros _. vm_compute. reflexivity.
      * apply Hnats. split; [vm_compute; discriminate|].
        intros _. vm_compute. reflexivity.
Defined.

(** C1, as stated, fails for [db-name]: unresolved and optional, it does not
    leave [DBName] empty. *)
Lemma C1_db_name_gets_default :
  exists c s',
    config.LoadEnvWithOptions sampleOracle secretOptions (startState sampleEnv)
    = Ret tt s' /\
    Config s' = Some c /\
    snd (config.fetchSecretFromManager sampleOracle "demo" "db-name") <> nil /\
    getenv s' "DB_NAME" = "" /\
    config.contains (ConfigOptions.RequiredSecrets secretOptions) "db-name"
    = false /\
    DBName c <> "".
Proof.
  do 2 eexists. split; [vm_compute; reflexivity|].
  split; [reflexivity|].
  split; [vm_compute; discriminate|].
  split; [vm_compute; reflexivity|].
  split; [reflexivity|].
  vm_compute. discriminate.
Qed.

Lemma loadAll_done calls : forall s, once s = true -> loadAll calls s = Ret tt s.
Proof.
  induction calls as [|[w o] rest IH]; intros s H; [reflexivity|].
  cbn [loadAll]. rewrite (bind_Ret _ _ _ _ _ (LoadEnvWithOptions_done w o s H)).
  apply IH, H.
Qed.

(** C2. Once a call of [LoadEnvWithOptions] has completed, every later call
    of it or of [LoadEnv], whatever the options and whatever the outside
    world answers, returns with the state, and so [Config], unchanged; the
    same holds for any run of later calls. *)
Theorem C2_load_is_one_shot w options s s' :
  config.LoadEnvWithOptions w options s = Ret tt s' ->
  (forall w' options', config.LoadEnvWithOptions w' options' s' = Ret tt s') /\
  (forall w', config.LoadEnv w' s' = Ret tt s') /\
  (forall calls, loadAll calls s' = Ret tt s').
Proof.
  intros H. apply LoadEnvWithOptions_sets_once in H.
  split; [|split].
  - intros w' options'. apply LoadEnvWithOptions_done, H.
  - intros w'. apply LoadEnvWithOptions_done, H.
  - intros calls. apply loadAll_done, H.
Qed.

Lemma C2_load_is_one_shot_witness :
  config.LoadEnvWithOptions sampleOracle secretOptions loadedState
  = Ret tt loadedState /\
  Config loadedState <> None.
Proof.
  split.
  - apply (C2_load_is_one_shot sampleOracle basicOptions
             (startState sampleEnv) loadedState).
    vm_compute. reflexivity.
  - vm_compute. discriminate.
Defined.

Section Totality.
Variable w : Oracle.
Variable options : ConfigOptions.t.

Lemma rangeSecretMap_total entries : forall config s,
  exists c' err s',
    config.rangeSecretMap w options entries config s = Ret (c', err) s' /\
    logsOnly s s' /\ Mode c' = Mode config /\ AppEnv c' = AppEnv config.
Proof.
  induction entries as [|[k0 e0] rest IH]; intros config s.
  - do 3 eexists. split; [reflexivity|]. split; [apply logsOnly_refl|].
    split; reflexivity.
  - cbn [config.rangeSecretMap].
    destruct (getSecretOrEnv_eq w options s (ProjectID config) k0 e0)
      as (s1 & Hg & Hl).
    rewrite (bind_Ret _ _ _ _ _ Hg). cbv beta.
    destruct (secretOrEnv w options s (ProjectID config) k0 e0) as [v [err|]].
    + destruct (config.contains _ k0).
      * do 3 eexists. split; [reflexivity|]. split; [exact Hl|].
        split; reflexivity.
      * mstep.
        match goal with |- context [config.rangeSecretMap w options rest ?c ?st] =>
          destruct (IH c st) as (c' & err' & s' & Hr & Hl' & Hm & Ha) end.
        do 3 eexists. split; [exact Hr|].
        split; [eapply logsOnly_trans; [exact Hl|];
                eapply logsOnly_trans; [apply logsOnly_stderr | exact Hl']|].
        rewrite Hm, Ha, assignSecret_Mode, assignSecret_AppEnv.
        split; reflexivity.
    + destruct (IH (config.assignSecret k0 v config) s1)
        as (c' & err' & s' & Hr & Hl' & Hm & Ha).
      do 3 eexists. split; [exact Hr|].
      split; [eapply logsOnly_trans; [exact Hl | exact Hl']|].
      rewrite Hm, Ha, assignSecret_Mode, assignSecret_AppEnv.
      split; reflexivity.
Qed.

Lemma loadSecretsFromManager_total config s :
  exists c' err s',
    config.loadSecretsFromManager w config options s = Ret (c', err) s' /\
    logsOnly s s' /\ Mode c' = Mode config /\ AppEnv c' = AppEnv config.
Proof.
  unfold config.loadSecretsFromManager. mstep. set (s0 := set_stderr _ s).
  destruct (String.eqb (ProjectID config) "").
  { do 3 eexists. split; [reflexivity|]. split; [apply logsOnly_stderr|].
    split; reflexivity. }
  destruct (rangeSecretMap_total (secretMapOrder w) config s0)
    as (c' & err & s1 & Hr & Hl & Hm & Ha).
  rewrite (bind_Ret _ _ _ _ _ Hr). cbv beta iota zeta.
  assert (Hl1 : logsOnly s s1)
    by (eapply logsOnly_trans; [apply logsOnly_stderr | exact Hl]).
  destruct err as [e|].
  { do 3 eexists. split; [reflexivity|]. split; [exact Hl1|].
    split; assumption. }
  mstep.
  destruct (negb (String.eqb (getenv s1 "ALLOWED_ORIGINS") ""));
    do 3 eexists; (split; [reflexivity|]);
    (split; [eapply logsOnly_trans; [exact Hl1 | apply logsOnly_stderr]|]);
    cbn; split; assumption.
Qed.

(** The second half of the load either assigns a configuration of the mode
    it was given or ends the process, leaving [Config] alone. *)
Lemma loadAndAssign_total config s :
  (exists c' s',
     config.loadAndAssign w options config s = Ret tt s' /\
     Config s' = Some c' /\ Mode c' = Mode config /\ once s' = once s /\
     environ s' = environ s) \/
  (exists s', config.loadAndAssign w options config s = Exit 1 s' /\
              logsOnly s s').
Proof.
  assert (Hfin : forall (c' : AppConfig) (err : error) s1,
    logsOnly s s1 -> Mode c' = Mode config ->
    (exists c2 s',
       match err with
       | Some e => log.Fatalf ("❌ Failed to load configuration: " ++ e)
       | None =>
           do* modify (set_Config (Some c')) in
           log.Printf ("✅ Configuration loaded successfully (mode: "
                       ++ Mode c' ++ ", env: " ++ AppEnv c' ++ ")")
       end s1 = Ret tt s' /\
       Config s' = Some c2 /\ Mode c2 = Mode config /\ once s' = once s /\
       environ s' = environ s) \/
    (exists s',
       match err with
       | Some e => log.Fatalf ("❌ Failed to load configuration: " ++ e)
       | None =>
           do* modify (set_Config (Some c')) in
           log.Printf ("✅ Configuration loaded successfully (mode: "
                       ++ Mode c' ++ ", env: " ++ AppEnv c' ++ ")")
       end s1 = Exit 1 s' /\ logsOnly s s')).
  { intros c' err s1 (He & Hc & Ho & Hrest) Hm. destruct err as [e|].
    - right. eexists. split; [reflexivity|].
      eapply logsOnly_trans; [|apply logsOnly_stderr].
      split; [exact He|]. split; [exact Hc|]. split; [exact Ho|]. exact Hrest.
    - left. exists c'. eexists. split; [reflexivity|]. cbn.
      repeat split; assumption. }
  unfold config.loadAndAssign.
  destruct (String.eqb (Mode config) ModeSecretManager) eqn:E1.
  - rewrite !bind_bind.
    assert (Hp : exists c0 s0,
      (if String.eqb (ProjectID (set_ProjectID
             (ConfigOptions.SecretManagerProject options) config)) ""
       then bind (config.GetEnv "GOOGLE_CLOUD_PROJECT" "")
              (fun projectID => ret (set_ProjectID projectID
                 (set_ProjectID (ConfigOptions.SecretManagerProject options)
                    config)))
       else ret (set_ProjectID (ConfigOptions.SecretManagerProject options)
                   config)) s = Ret c0 s0 /\ s0 = s /\ Mode c0 = Mode config).
    { destruct (String.eqb _ "").
      - mstep. do 2 eexists. split; [reflexivity|]. split; reflexivity.
      - do 2 eexists. split; [reflexivity|]. split; reflexivity. }
    destruct Hp as (c0 & s0 & Hp & -> & Hm0).
    rewrite (bind_Ret _ _ _ _ _ Hp). cbv beta.
    destruct (loadSecretsFromManager_total c0 s)
      as (c' & err & s1 & Hr & Hl & Hm & _).
    rewrite (bind_Ret _ _ _ _ _ Hr). cbv beta iota.
    apply Hfin; [exact Hl | congruence].
  - destruct (String.eqb (Mode config) ModeBasic) eqn:E2.
    + destruct (loadBasicConfig_eq config s) as (c' & s1 & Hr & Hl & Hm & _).
      rewrite (bind_Ret _ _ _ _ _ Hr). cbv beta iota.
      apply Hfin; [exact Hl | exact Hm].
    + rewrite bind_ret.
      exact (Hfin config (Some ("unsupported config mode: " ++ Mode config)) s
               (logsOnly_refl s) eq_refl).
Qed.

(** A load either completes or ends the process; it does not panic, and a
    fatal exit leaves [Config] as it was. *)
Lemma LoadEnvWithOptions_outcome s :
  (exists s', config.LoadEnvWithOptions w options s = Ret tt s') \/
  (exists s', config.LoadEnvWithOptions w options s = Exit 1 s' /\
              Config s' = Config s).
Proof.
  destruct (once s) eqn:Ho.
  { left. eexists. apply LoadEnvWithOptions_done, Ho. }
  destruct (newConfig_eq w options s) as (config & s1 & Hn & Hmode & Hmem).
  rewrite (LoadEnvWithOptions_fresh w options s config s1 Ho Hn).
  destruct (loadAndAssign_total config s1)
    as [(c' & s' & Hr & _) | (s' & Hr & Hl)].
  - left. unfold bind. rewrite Hr. eexists. reflexivity.
  - right. unfold bind. rewrite Hr. eexists. split; [reflexivity|].
    destruct Hl as (_ & Hc & _). destruct Hmem as (Hc' & _). congruence.
Qed.

End Totality.

(** C3. With mode [auto] the mode is detected from the environment the
    process starts the load with: [detectConfigMode] answers
    [secret_manager] when [GOOGLE_CLOUD_PROJECT] is not empty or
    [USE_SECRET_MANAGER] is [true], and [basic] otherwise; that answer is the
    mode of the configuration under construction, and of [Config] when the
    load completes. *)
Theorem C3_auto_mode_detection w options s :
  (exists s1, config.detectConfigMode s = Ret (specAutoMode s) s1) /\
  (ConfigOptions.Mode options = ModeAuto ->
   (exists config s1,
      config.newConfig w options s = Ret config s1 /\
      Mode config = specAutoMode s) /\
   (forall s', once s = false ->
      config.LoadEnvWithOptions w options s = Ret tt s' ->
      exists c, Config s' = Some c /\ Mode c = specAutoMode s)).
Proof.
  split.
  - destruct (detectConfigMode_eq s) as (s1 & H & _). exists s1. exact H.
  - intros Ha.
    destruct (newConfig_eq w options s) as (config & s1 & Hn & Hmode & Hmem).
    rewrite Ha in Hmode. change (String.eqb ModeAuto ModeAuto) with true in Hmode.
    split.
    + exists config, s1. split; [exact Hn | exact Hmode].
    + intros s' Ho Hr.
      rewrite (LoadEnvWithOptions_fresh w options s config s1 Ho Hn) in Hr.
      destruct (loadAndAssign_total w options config s1)
        as [(c' & s2 & Hl & Hc & Hm & _) | (s2 & Hl & _)];
        unfold bind in Hr; rewrite Hl in Hr; [|discriminate].
      injection Hr as <-. exists c'. split; [exact Hc|].
      rewrite Hm. exact Hmode.
Qed.

Lemma C3_auto_mode_detection_witness :
  exists c,
    Config (stateOf (config.LoadEnvWithOptions sampleOracle autoOptions
                       (startState (<["USE_SECRET_MANAGER" := "true"]>
                                      (<["GOOGLE_CLOUD_PROJECT" := "demo"]>
                                         sampleEnv)))))
    = Some c /\ Mode c = ModeSecretManager.
Proof.
  destruct (C3_auto_mode_detection sampleOracle autoOptions
              (startState (<["USE_SECRET_MANAGER" := "true"]>
                             (<["GOOGLE_CLOUD_PROJECT" := "demo"]>
                                sampleEnv)))) as [_ H].
  destruct (H eq_refl) as [_ H2].
  destruct (H2 (stateOf (config.LoadEnvWithOptions sampleOracle autoOptions
                           (startState (<["USE_SECRET_MANAGER" := "true"]>
                                          (<["GOOGLE_CLOUD_PROJECT" := "demo"]>
                                             sampleEnv))))) eq_refl)
    as (c & Hc & Hm).
  - vm_compute. reflexivity.
  - exists c. split; [exact Hc|]. rewrite Hm. vm_compute. reflexivity.
Defined.

(** C4. In basic mode the loaded [AllowedOrigins] follows the environment
    name when [ALLOWED_ORIGINS] is unset or empty (the production domain for
    [production], the staging domain for [staging], the localhost pair for
    anything else), and is the value of [ALLOWED_ORIGINS] when that is not
    empty. It holds of [loadBasicConfig] on the environment it reads, and of
    the [Config] a completed basic-mode load leaves, where the environment
    is the one the process has after the load (in a development environment
    it includes the variables taken from [.env]). *)
Theorem C4_basic_allowed_origins w options s :
  let rule (allowed appEnv origins : string) : Prop :=
    (allowed = "" ->
       (appEnv = "production" ->
        origins = "https://your-production-domain.com") /\
       (appEnv = "staging" -> origins = "https://staging.your-domain.com") /\
       (appEnv <> "production" -> appEnv <> "staging" ->
        origins = "http://localhost:5173,http://127.0.0.1:5173")) /\
    (allowed <> "" -> origins = allowed) in
  (forall config,
     exists c' s',
       config.loadBasicConfig config s = Ret (c', nil) s' /\
       AppEnv c' = AppEnv config /\
       rule (getenv s "ALLOWED_ORIGINS") (AppEnv c') (AllowedOrigins c')) /\
  (forall s' c,
     once s = false ->
     config.LoadEnvWithOptions w options s = Ret tt s' ->
     Config s' = Some c -> Mode c = ModeBasic ->
     rule (getenv s' "ALLOWED_ORIGINS") (AppEnv c) (AllowedOrigins c)).
Proof.
  intros rule.
  assert (Hrule : forall allowed appEnv,
            rule allowed appEnv
              (if String.eqb allowed ""
               then config.getDefaultAllowedOrigins appEnv else allowed)).
  { intros allowed appEnv. unfold rule, config.getDefaultAllowedOrigins.
    destruct (String.eqb allowed "") eqn:E.
    - apply String.eqb_eq in E. split; [|intros H; contradiction].
      intros _. repeat split.
      + intros ->. reflexivity.
      + intros ->. reflexivity.
      + intros H1 H2. apply String.eqb_neq in H1, H2. now rewrite H1, H2.
    - apply String.eqb_neq in E. split; [intros H; contradiction|].
      intros _. reflexivity. }
  split.
  - intros config.
    destruct (loadBasicConfig_eq config s) as (c' & s' & Hl & _ & _ & Ha & Ho).
    exists c', s'. split; [exact Hl|]. split; [exact Ha|].
    rewrite Ho, Ha. apply Hrule.
  - intros s' c Hon Hr Hc Hm.
    destruct (newConfig_eq w options s) as (config & s1 & Hn & _ & _).
    rewrite (LoadEnvWithOptions_fresh w options s config s1 Hon Hn) in Hr.
    assert (Hmode : Mode config = ModeBasic).
    { destruct (loadAndAssign_total w options config s1)
        as [(c' & s2 & Hl & Hc' & Hm' & _) | (s2 & Hl & _)];
        unfold bind in Hr; rewrite Hl in Hr; [|discriminate].
      injection Hr as <-. cbn in Hc. congruence. }
    destruct (loadAndAssign_basic w options config s1 Hmode)
      as (c' & s2 & Hl & Hc' & He & _ & _ & Ha & Ho).
    unfold bind in Hr. rewrite Hl in Hr. injection Hr as <-.
    cbn in Hc. rewrite Hc' in Hc. injection Hc as <-.
    assert (Hg : getenv (set_once true s2) "ALLOWED_ORIGINS"
                 = getenv s1 "ALLOWED_ORIGINS")
      by (unfold getenv; cbn; now rewrite He).
    rewrite Hg, Ho, Ha. apply Hrule.
Qed.

Lemma C4_basic_allowed_origins_witness :
  exists c,
    Config loadedState = Some c /\ AppEnv c = "production" /\
    AllowedOrigins c = "https://your-production-domain.com".
Proof.
  destruct (C4_basic_allowed_origins sampleOracle basicOptions
              (startState sampleEnv)) as [_ H].
  assert (Hc : exists c, Config loadedState = Some c /\ AppEnv c = "production"
                         /\ Mode c = ModeBasic).
  { vm_compute. eexists. repeat split. }
  destruct Hc as (c & Hc & He & Hm). exists c.
  split; [exact Hc|]. split; [exact He|].
  destruct (H loadedState c eq_refl) as [Hunset _]; try assumption.
  - vm_compute. reflexivity.
  - apply Hunset; [vm_compute; reflexivity | exact He].
Defined.

(** C5 (amended). Before the configuration is loaded ([Config] is nil) the
    accessors [GetMongoURI], [GetDBName], [GetJWTSecret], [GetNATSURL],
    [GetAllowedOrigins], [GetPort], [GetAppEnv] and [GetConfig] end the
    process with [log.Fatal]; [GetConfigMode] returns [basic] and
    [IsSecretManagerEnabled] returns false. *)
Theorem C5_accessors_before_load s :
  Config s = None ->
  let aborted := set_stderr (stderr s ++ [config.notLoaded]) s in
  config.GetMongoURI s = Exit 1 aborted /\
  config.GetDBName s = Exit 1 aborted /\
  config.GetJWTSecret s = Exit 1 aborted /\
  config.GetNATSURL s = Exit 1 aborted /\
  config.GetAllowedOrigins s = Exit 1 aborted /\
  config.GetPort s = Exit 1 aborted /\
  config.GetAppEnv s = Exit 1 aborted /\
  config.GetConfig s = Exit 1 aborted /\
  config.GetConfigMode s = Ret ModeBasic s /\
  config.IsSecretManagerEnabled s = Ret false s.
Proof.
  intros H aborted.
  unfold config.GetMongoURI, config.GetDBName, config.GetJWTSecret,
    config.GetNATSURL, config.GetAllowedOrigins, config.GetPort,
    config.GetAppEnv, config.GetConfig, config.IsSecretManagerEnabled,
    config.GetConfigMode, bind, gets.
  rewrite H. repeat split.
Qed.

Lemma C5_accessors_before_load_witness :
  config.GetJWTSecret (startState sampleEnv)
  = Exit 1 (set_stderr [config.notLoaded] (startState sampleEnv)) /\
  config.GetConfigMode (startState sampleEnv)
  = Ret ModeBasic (startState sampleEnv).
Proof.
  destruct (C5_accessors_before_load (startState sampleEnv) eq_refl)
    as (_ & _ & H3 & _ & _ & _ & _ & _ & H9 & _).
  split; [exact H3 | exact H9].
Defined.

(** C5, as stated, fails for [GetConfigMode] and [IsSecretManagerEnabled]:
    with [Config] nil they return a value. *)
Lemma C5_GetConfigMode_returns_before_load :
  Config (startState ∅) = None /\
  config.GetConfigMode (startState ∅) = Ret ModeBasic (startState ∅) /\
  config.IsSecretManagerEnabled (startState ∅) = Ret false (startState ∅).
Proof. repeat split. Qed.

(* ------------------------------------------------------------------ *)
(** ** The audit trail *)
(* ------------------------------------------------------------------ *)

Lemma GetCollection_eq s client cfg name :
  DB s = Some client -> Config s = Some cfg ->
  config.GetCollection name s = Ret (mkCollection client (DBName cfg) name) s.
Proof.
  intros Hd Hc. unfold config.GetCollection, config.GetDBName, bind, gets.
  rewrite Hd, Hc. reflexivity.
Qed.

(** [LogAudit], run: one identifier taken, one insertion tried, one line
    printed when the insertion failed. *)
Lemma LogAudit_eq w adminID action targetID s client cfg :
  DB s = Some client -> Config s = Some cfg ->
  let entry := auditEntry w s adminID action targetID in
  let collection := mkCollection client (DBName cfg) "oms_audit_logs" in
  let r := InsertOne w 5000000000 collection entry (store s) in
  let s1 := set_store (fst r) (set_objectIDCounter (S (objectIDCounter s)) s) in
  utils.LogAudit w adminID action targetID s
  = Ret tt (match snd r with
            | Some e =>
                set_stderr (stderr s ++ ["Failed to log audit: " ++ e]) s1
            | None => s1
            end).
Proof.
  intros Hd Hc entry collection r s1. unfold utils.LogAudit.
  rewrite (bind_Ret _ _ _ _ _ (GetCollection_eq s client cfg _ Hd Hc)).
  cbv beta zeta. unfold utils.NewObjectID.
  rewrite bind_bind. unfold gets at 1. unfold bind at 1.
  rewrite bind_bind. unfold modify at 1. unfold bind at 1.
  rewrite bind_ret. unfold time_Now. rewrite bind_ret.
  unfold utils.collection_InsertOne. rewrite bind_bind.
  unfold gets at 1. unfold bind at 1. cbn [store set_objectIDCounter].
  change (utils.Second) with 1000000000%Z.
  change (5 * 1000000000)%Z with 5000000000%Z.
  fold (auditEntry w s adminID action targetID). fold entry. fold collection.
  fold r. destruct r as [st' err] eqn:Er. cbn [fst snd] in *.
  rewrite bind_bind. unfold modify at 1. unfold bind at 1. rewrite bind_ret.
  destruct err as [e|]; reflexivity.
Qed.




(** C7. With the database connected and the configuration loaded, so that an
    insertion is tried, [LogAudit] returns normally whatever the store
    answers; when the insertion fails, the error is printed on standard error
    and nothing else of the process changes: [Config], [DB], the environment,
    the one-shot guard and standard output stay as they were. *)
Theorem C7_audit_failure_is_swallowed w adminID action targetID s client cfg :
  DB s = Some client -> Config s = Some cfg ->
  let entry := auditEntry w s adminID action targetID in
  let collection := mkCollection client (DBName cfg) "oms_audit_logs" in
  (exists s', utils.LogAudit w adminID action targetID s = Ret tt s') /\
  (forall e,
     snd (InsertOne w 5000000000 collection entry (store s)) = Some e ->
     exists s',
       utils.LogAudit w adminID action targetID s = Ret tt s' /\
       stderr s' = (stderr s ++ [("Failed to log audit: " ++ e)%string])%list /\
       Config s' = Config s /\ DB s' = DB s /\ environ s' = environ s /\
       once s' = once s /\ stdout s' = stdout s).
Proof.
  intros Hd Hc entry collection.
  pose proof (LogAudit_eq w adminID action targetID s client cfg Hd Hc) as H.
  cbv zeta in H. fold entry collection in H.
  split.
  - eexists. exact H.
  - intros e He. rewrite He in H. eexists. split; [exact H|]. repeat split.
Qed.

Lemma C7_audit_failure_is_swallowed_witness :
  exists s',
    utils.LogAudit downOracle "admin1" "delete_user" "user42" connectedState
    = Ret tt s' /\
    stderr s'
    = (stderr connectedState
       ++ ["Failed to log audit: context deadline exceeded"])%list.
Proof.
  destruct (C7_audit_failure_is_swallowed downOracle "admin1" "delete_user"
              "user42" connectedState
              (mkMongoClient "mongodb://localhost:27017")
              (default (mkAppConfig "" "" "" "" "" "" "" "" "" ""
                          (mkTime 0 Local)) (Config connectedState)))
    as [_ H].
  - reflexivity.
  - vm_compute. reflexivity.
  - destruct (H "context deadline exceeded" eq_refl) as (s' & Hr & He & _).
    exists s'. split; [exact Hr | exact He].
Defined.

(* ------------------------------------------------------------------ *)
(** ** Tokens *)
(* ------------------------------------------------------------------ *)

Section Tokens.
Variable w : Oracle.
Variable lib : jwt.Library.

(** [ParseWithClaims] with the key function of the source accepts a token
    exactly when it decodes, its signature verifies against [JWT_SECRET] and
    its registered claims are valid. *)
Lemma ParseWithClaims_eq tokenString s :
  jwt.ParseWithClaims w lib tokenString utils.keyFunc s
  = Ret
      (match jwt.ParseUnverified lib tokenString with
       | inr (token, err) => inr (token, err)
       | inl (token, (part0, part1, part2)) =>
           let token' :=
             jwt.mkToken (jwt.Raw token) (jwt.Method token) (jwt.Header token)
               (jwt.Claims token) part2 (jwt.Valid token) in
           match jwt.Verify (jwt.Method token) (part0 ++ "." ++ part1) part2
                   (getenv s "JWT_SECRET") with
           | Some e => inr (Some token', e)
           | None =>
               match jwt.MapClaimsValid lib (jwt.unixNow w) (jwt.Claims token)
               with
               | Some e => inr (Some token', e)
               | None =>
                   inl (jwt.mkToken (jwt.Raw token) (jwt.Method token)
                          (jwt.Header token) (jwt.Claims token) part2 true)
               end
           end
       end) s.
Proof.
  unfold jwt.ParseWithClaims.
  destruct (jwt.ParseUnverified lib tokenString)
    as [[token [[part0 part1] part2]] | [token err]]; [|reflexivity].
  unfold utils.keyFunc. rewrite bind_bind. unfold os_Getenv, gets.
  unfold bind at 1. rewrite bind_ret. cbv beta iota.
  cbn [jwt.Method jwt.Signature jwt.Claims].
  fold (getenv s "JWT_SECRET").
  destruct (jwt.Verify _ _ _ _); [reflexivity|].
  destruct (jwt.MapClaimsValid _ _ _); reflexivity.
Qed.

Lemma neqString_false v lit :
  neqString v lit = false <-> v = IString lit.
Proof.
  destruct v; cbn; try (split; [discriminate | intros [=]]).
  rewrite negb_false_iff, String.eqb_eq. split; [now intros -> | now intros [= ->]].
Qed.

Lemma index_IString (m : gmap string iface) key v :
  index m key = IString v <-> m !! key = Some (IString v).
Proof.
  unfold index. destruct (m !! key) as [x|]; cbn.
  - split; [now intros -> | now intros [= ->]].
  - split; [discriminate | discriminate].
Qed.

(** C8. [VerifyRefreshToken] accepts a token only if it decodes, its
    signature verifies against the secret the code is configured with (the
    [JWT_SECRET] variable of the environment) and its [type] claim is the
    string [refresh]; a token whose signature verifies but whose [type] is
    anything else, or is missing, is answered with an error and no claims, a
    token made of the access claims of [GenerateTokenPair] among them, and so
    is every token whose signature does not verify. No call changes the
    state. *)
Theorem C8_refresh_token_verification tokenString s :
  let key := getenv s "JWT_SECRET" in
  let verifies (t : jwt.Token) (parts : string * string * string) : Prop :=
    let '(part0, part1, part2) := parts in
    jwt.Verify (jwt.Method t) (part0 ++ "." ++ part1) part2 key = nil in
  let rejected : Prop :=
    exists err,
      utils.VerifyRefreshToken w lib tokenString s
      = Ret (None, None, Some err) s in
  (forall token claims err s',
     utils.VerifyRefreshToken w lib tokenString s
     = Ret (Some token, claims, err) s' ->
     exists t parts,
       jwt.ParseUnverified lib tokenString = inl (t, parts) /\
       verifies t parts /\
       jwt.Claims t !! "type" = Some (IString "refresh") /\
       claims = Some (jwt.Claims t) /\ err = nil /\ s' = s) /\
  (forall t parts,
     jwt.ParseUnverified lib tokenString = inl (t, parts) ->
     verifies t parts ->
     jwt.Claims t !! "type" <> Some (IString "refresh") -> rejected) /\
  (forall t parts userID organizationID role,
     jwt.ParseUnverified lib tokenString = inl (t, parts) ->
     jwt.Claims t = utils.accessTokenClaims w userID organizationID role ->
     rejected) /\
  (forall t parts,
     jwt.ParseUnverified lib tokenString = inl (t, parts) ->
     ~ verifies t parts -> rejected).
Proof.
  intros key verifies rejected.
  assert (Hrun : utils.VerifyRefreshToken w lib tokenString s
    = Ret
      (match jwt.ParseUnverified lib tokenString with
       | inr (_, err) => (None, None, Some err)
       | inl (token, (part0, part1, part2)) =>
           match jwt.Verify (jwt.Method token) (part0 ++ "." ++ part1) part2 key
           with
           | Some e => (None, None, Some e)
           | None =>
               match jwt.MapClaimsValid lib (jwt.unixNow w) (jwt.Claims token)
               with
               | Some e => (None, None, Some e)
               | None =>
                   if neqString (index (jwt.Claims token) "type") "refresh"
                   then (None, None, Some "not a refresh token")
                   else (Some (jwt.mkToken (jwt.Raw token) (jwt.Method token)
                                 (jwt.Header token) (jwt.Claims token) part2
                                 true),
                         Some (jwt.Claims token), nil)
               end
           end
       end) s).
  { unfold utils.VerifyRefreshToken, jwt.Parse.
    rewrite (bind_Ret _ _ _ _ _ (ParseWithClaims_eq tokenString s)).
    cbv beta. fold key.
    destruct (jwt.ParseUnverified lib tokenString)
      as [[token [[part0 part1] part2]] | [token err]]; [|reflexivity].
    cbv zeta.
    destruct (jwt.Verify _ _ _ _); [reflexivity|].
    destruct (jwt.MapClaimsValid _ _ _); [reflexivity|].
    cbn [jwt.Valid jwt.Claims negb].
    destruct (neqString _ _); reflexivity. }
  assert (Hother : forall t parts,
            jwt.ParseUnverified lib tokenString = inl (t, parts) ->
            jwt.Claims t !! "type" <> Some (IString "refresh") -> rejected).
  { intros t [[part0 part1] part2] Hp Hty. unfold rejected.
    rewrite Hrun, Hp.
    destruct (jwt.Verify _ _ _ _); [eauto|].
    destruct (jwt.MapClaimsValid _ _ _); [eauto|].
    destruct (neqString _ _) eqn:E; [eauto|].
    apply neqString_false, index_IString in E. contradiction. }
  split; [|split; [|split]].
  - intros token claims err s'. rewrite Hrun.
    destruct (jwt.ParseUnverified lib tokenString)
      as [[t [[part0 part1] part2]] | [t e]]; [|intros [=]].
    destruct (jwt.Verify _ _ _ _) eqn:Ev; [intros [=]|].
    destruct (jwt.MapClaimsValid _ _ _); [intros [=]|].
    destruct (neqString _ _) eqn:E; intros [= <- <- <- <-].
    exists t, (part0, part1, part2). split; [reflexivity|].
    split; [exact Ev|].
    split; [apply index_IString, neqString_false, E|]. repeat split.
  - intros t parts Hp _ Hty. exact (Hother t parts Hp Hty).
  - intros t parts userID organizationID role Hp Hc.
    apply (Hother t parts Hp). rewrite Hc. unfold utils.accessTokenClaims.
    rewrite lookup_insert_ne by discriminate.
    rewrite lookup_insert_ne by discriminate.
    rewrite lookup_insert_ne by discriminate.
    rewrite lookup_insert_eq. intros [=].
  - intros t [[part0 part1] part2] Hp Hv. unfold rejected.
    rewrite Hrun, Hp. unfold verifies in Hv.
    destruct (jwt.Verify _ _ _ _); [eauto|]. now destruct Hv.
Qed.

End Tokens.

Lemma C8_refresh_token_verification_witness :
  (exists token claims,
     utils.VerifyRefreshToken sampleOracle sampleLib "hdr.refresh.s3cret"
       (startState secretEnv)
     = Ret (Some token, Some claims, nil) (startState secretEnv)) /\
  (exists err,
     utils.VerifyRefreshToken sampleOracle sampleLib "hdr.access.s3cret"
       (startState secretEnv)
     = Ret (None, None, Some err) (startState secretEnv)) /\
  (exists err,
     utils.VerifyRefreshToken sampleOracle sampleLib "hdr.refresh.forged"
       (startState secretEnv)
     = Ret (None, None, Some err) (startState secretEnv)).
Proof.
  split; [|split].
  - do 2 eexists. vm_compute. reflexivity.
  - destruct (C8_refresh_token_verification sampleOracle sampleLib
                "hdr.access.s3cret" (startState secretEnv))
      as (_ & H & _).
    eapply H.
    + vm_compute. reflexivity.
    + vm_compute. reflexivity.
    + vm_compute. discriminate.
  - destruct (C8_refresh_token_verification sampleOracle sampleLib
                "hdr.refresh.forged" (startState secretEnv))
      as (_ & _ & _ & H).
    eapply H.
    + vm_compute. reflexivity.
    + vm_compute. discriminate.
Defined.

(* ------------------------------------------------------------------ *)
(** ** The authentication middleware *)
(* ------------------------------------------------------------------ *)

Section Middleware.
Variable w : Oracle.
Variable lib : jwt.Library.

Lemma assertString_panics v :
  (forall x, v <> IString x) ->
  forall s, exists msg, assertString v s = Panic msg s.
Proof.
  intros H s. destruct v; try (eexists; reflexivity).
  destruct (H s0 eq_refl).
Qed.

(** C10 (amended). When the token of the [Authorization] header decodes, its
    signature verifies against [JWT_SECRET] and its registered claims are
    valid, so that [ParseWithClaims] returns no error, but [user_id] or
    [organization_id] is missing from the claims or is not a string, both
    versions of [AuthMiddleware] panic in the type assertion: no response is
    written, the 401 rejection included. *)
Theorem C10_unchecked_claims_panic (c : Ctx) s t part0 part1 part2 :
  let tokenString := ctx_Get c "Authorization" in
  tokenString <> "" ->
  jwt.ParseUnverified lib tokenString = inl (t, (part0, part1, part2)) ->
  jwt.Verify (jwt.Method t) (part0 ++ "." ++ part1) part2
    (getenv s "JWT_SECRET") = nil ->
  jwt.MapClaimsValid lib (jwt.unixNow w) (jwt.Claims t) = nil ->
  (forall x, index (jwt.Claims t) "user_id" <> IString x) \/
  (forall x, index (jwt.Claims t) "organization_id" <> IString x) ->
  (exists msg, middleware0.AuthMiddleware w lib c s = Panic msg s) /\
  (exists msg, middleware.AuthMiddleware w lib c s = Panic msg s) /\
  ~ isRejection (middleware0.AuthMiddleware w lib c s) /\
  ~ isRejection (middleware.AuthMiddleware w lib c s).
Proof.
  intros tokenString Hne Hp Hv Hc Hmiss.
  assert (H0 : exists msg, middleware0.AuthMiddleware w lib c s = Panic msg s).
  { unfold middleware0.AuthMiddleware. fold tokenString.
    apply String.eqb_neq in Hne. rewrite Hne.
    rewrite (bind_Ret _ _ _ _ _ (ParseWithClaims_eq w lib tokenString s)).
    cbv beta. rewrite Hp. cbv beta iota zeta. rewrite Hv, Hc.
    cbv beta iota delta [nil]. cbn [jwt.Claims].
    destruct Hmiss as [Hu | Ho].
    - destruct (assertString_panics _ Hu s) as [msg Hm].
      exists msg. unfold bind. now rewrite Hm.
    - destruct (index (jwt.Claims t) "user_id") eqn:Eu;
        try (eexists; reflexivity).
      destruct (assertString_panics _ Ho s) as [msg Hm].
      exists msg. unfold bind at 1. cbn [assertString ret].
      unfold bind. now rewrite Hm. }
  assert (H1 : exists msg, middleware.AuthMiddleware w lib c s = Panic msg s).
  { unfold middleware.AuthMiddleware. fold tokenString.
    apply String.eqb_neq in Hne. rewrite Hne.
    rewrite (bind_Ret _ _ _ _ _ (ParseWithClaims_eq w lib tokenString s)).
    cbv beta. rewrite Hp. cbv beta iota zeta. rewrite Hv, Hc.
    cbv beta iota delta [nil]. cbn [jwt.Claims].
    destruct Hmiss as [Hu | Ho].
    - destruct (assertString_panics _ Hu s) as [msg Hm].
      exists msg. unfold bind. now rewrite Hm.
    - destruct (index (jwt.Claims t) "user_id") eqn:Eu;
        try (eexists; reflexivity).
      destruct (assertString_panics _ Ho s) as [msg Hm].
      exists msg. unfold bind at 1. cbn [assertString ret].
      unfold bind. now rewrite Hm. }
  split; [exact H0|]. split; [exact H1|].
  split.
  - destruct H0 as [msg ->]. intros (body & s' & [=]).
  - destruct H1 as [msg ->]. intros (body & s' & [=]).
Qed.

End Middleware.

Lemma C10_unchecked_claims_panic_witness :
  middleware.AuthMiddleware sampleOracle sampleLib
    (requestWith "hdr.nouser.s3cret") (startState secretEnv)
  = Panic "interface conversion: interface {} is nil, not string"
      (startState secretEnv).
Proof.
  destruct (C10_unchecked_claims_panic sampleOracle sampleLib
              (requestWith "hdr.nouser.s3cret") (startState secretEnv)
              (sampleToken (<["type" := IString "access"]> ∅)
                 "hdr.nouser.s3cret")
              "hdr" "nouser" "s3cret")
    as (_ & [msg H] & _).
  - vm_compute. discriminate.
  - vm_compute. reflexivity.
  - vm_compute. reflexivity.
  - vm_compute. reflexivity.
  - left. intros x. vm_compute. discriminate.
  - rewrite H. vm_compute in H. injection H as <-. reflexivity.
Defined.

(** C10, as stated, fails for a token whose signature verifies but whose
    registered claims are not valid (it has expired): the middleware answers
    it with the 401 rejection although it has no [user_id]. *)
Lemma C10_expired_token_is_rejected :
  exists t part0 part1 part2,
    jwt.ParseUnverified sampleLib "hdr.expired.s3cret"
    = inl (t, (part0, part1, part2)) /\
    jwt.Verify (jwt.Method t) (part0 ++ "." ++ part1) part2
      (getenv (startState secretEnv) "JWT_SECRET") = nil /\
    index (jwt.Claims t) "user_id" = INil /\
    middleware.AuthMiddleware sampleOracle sampleLib
      (requestWith "hdr.expired.s3cret") (startState secretEnv)
    = Ret (Response 401 (<["error" := IString "Invalid token"]> ∅))
        (set_stdout ["token is expired"] (startState secretEnv)) /\
    middleware0.AuthMiddleware sampleOracle sampleLib
      (requestWith "hdr.expired.s3cret") (startState secretEnv)
    = Ret (Response 401 (<["error" := IString "Invalid token"]> ∅))
        (set_stdout ["token is expired"] (startState secretEnv)).
Proof.
  do 4 eexists. split; [vm_compute; reflexivity|].
  split; [vm_compute; reflexivity|].
  split; [vm_compute; reflexivity|].
  split; vm_compute; reflexivity.
Qed.

(* ------------------------------------------------------------------ *)
(** ** base64: sextets and bytes *)
(* ------------------------------------------------------------------ *)

Section Base64Arith.
Local Open Scope Z_scope.

Lemma byteZ_range c : 0 <= base64.byteZ c < 256.
Proof.
  unfold base64.byteZ. pose proof (N_ascii_bounded c) as H. lia.
Qed.

Lemma Zbyte_byteZ c : base64.Zbyte (base64.byteZ c) = c.
Proof.
  unfold base64.Zbyte. pose proof (byteZ_range c) as H.
  rewrite Z.mod_small by lia. unfold base64.byteZ.
  rewrite N2Z.id. apply ascii_N_embedding.
Qed.

Lemma byteZ_Zbyte z : base64.byteZ (base64.Zbyte z) = z mod 256.
Proof.
  unfold base64.byteZ, base64.Zbyte.
  pose proof (Z.mod_pos_bound z 256 eq_refl) as H.
  rewrite N_ascii_embedding.
  - apply Z2N.id. lia.
  - apply N2Z.inj_lt. rewrite Z2N.id by lia. cbn. lia.
Qed.

(** Joining a value shifted left with a value that fits below it adds. *)
Lemma lor_shiftl_add a b k :
  0 <= a -> 0 <= k -> 0 <= b < 2 ^ k -> Z.lor (Z.shiftl a k) b = a * 2 ^ k + b.
Proof.
  intros Ha Hk Hb.
  rewrite <- Z.shiftl_mul_pow2 by lia.
  rewrite <- Z.lxor_lor, <- Z.add_nocarry_lxor; try reflexivity.
  all: apply Z.bits_inj'; intros n Hn; rewrite Z.land_spec, Z.bits_0.
  all: destruct (Z.lt_ge_cases n k) as [Hlt | Hge].
  all: try (rewrite Z.shiftl_spec_low by lia; reflexivity).
  all: destruct (Z.eq_dec b 0) as [-> | Hb0];
    [rewrite Z.bits_0; apply andb_false_r|].
  all: rewrite (Z.bits_above_log2 b n), andb_false_r; try lia; try reflexivity.
  all: assert (Z.log2 b < k) by (apply Z.log2_lt_pow2; lia); lia.
Qed.

Lemma land_63 x : 0 <= x -> Z.land x 63 = x mod 64.
Proof. intros H. change 63 with (Z.ones 6). apply Z.land_ones. lia. Qed.

Lemma val3 B0 B1 B2 :
  0 <= B0 < 256 -> 0 <= B1 < 256 -> 0 <= B2 < 256 ->
  Z.lor (Z.lor (Z.shiftl B0 16) (Z.shiftl B1 8)) B2
  = B0 * 65536 + B1 * 256 + B2.
Proof.
  intros H0 H1 H2.
  rewrite (Z.shiftl_mul_pow2 B1 8) by lia.
  rewrite (lor_shiftl_add B0 (B1 * 2 ^ 8) 16) by lia.
  replace (B0 * 2 ^ 16 + B1 * 2 ^ 8) with (Z.shiftl (B0 * 256 + B1) 8)
    by (rewrite Z.shiftl_mul_pow2 by lia; lia).
  rewrite lor_shiftl_add by lia. lia.
Qed.

Lemma val4 d0 d1 d2 d3 :
  0 <= d0 < 64 -> 0 <= d1 < 64 -> 0 <= d2 < 64 -> 0 <= d3 < 64 ->
  Z.lor (Z.lor (Z.lor (Z.shiftl d0 18) (Z.shiftl d1 12)) (Z.shiftl d2 6)) d3
  = d0 * 262144 + d1 * 4096 + d2 * 64 + d3.
Proof.
  intros H0 H1 H2 H3.
  rewrite (Z.shiftl_mul_pow2 d1 12), (Z.shiftl_mul_pow2 d2 6) by lia.
  rewrite (lor_shiftl_add d0 (d1 * 2 ^ 12) 18) by lia.
  replace (d0 * 2 ^ 18 + d1 * 2 ^ 12) with (Z.shiftl (d0 * 64 + d1) 12)
    by (rewrite Z.shiftl_mul_pow2 by lia; lia).
  rewrite (lor_shiftl_add (d0 * 64 + d1) (d2 * 2 ^ 6) 12) by lia.
  replace ((d0 * 64 + d1) * 2 ^ 12 + d2 * 2 ^ 6)
    with (Z.shiftl (d0 * 4096 + d1 * 64 + d2) 6)
    by (rewrite Z.shiftl_mul_pow2 by lia; lia).
  rewrite lor_shiftl_add by lia. lia.
Qed.

Lemma sextets_range B0 B1 B2 d0 d1 d2 d3 :
  sextets B0 B1 B2 = (d0, d1, d2, d3) ->
  0 <= d0 < 64 /\ 0 <= d1 < 64 /\ 0 <= d2 < 64 /\ 0 <= d3 < 64.
Proof.
  unfold sextets. intros [= <- <- <- <-].
  repeat split; apply Z.mod_pos_bound; lia.
Qed.

Lemma octets_sextets B0 B1 B2 :
  0 <= B0 < 256 -> 0 <= B1 < 256 -> 0 <= B2 < 256 ->
  let '(d0, d1, d2, d3) := sextets B0 B1 B2 in
  octets d0 d1 d2 d3 = (B0, B1, B2).
Proof.
  intros H0 H1 H2. unfold sextets, octets.
  set (val := B0 * 65536 + B1 * 256 + B2).
  assert (Hv : val / 262144 mod 64 * 262144 + val / 4096 mod 64 * 4096
               + val / 64 mod 64 * 64 + val mod 64 = val).
  { assert (0 <= val < 16777216) by lia.
    Z.div_mod_to_equations. lia. }
  rewrite Hv. unfold val. f_equal; [f_equal|]; Z.div_mod_to_equations; lia.
Qed.

Lemma sextets_octets d0 d1 d2 d3 :
  0 <= d0 < 64 -> 0 <= d1 < 64 -> 0 <= d2 < 64 -> 0 <= d3 < 64 ->
  let '(B0, B1, B2) := octets d0 d1 d2 d3 in
  sextets B0 B1 B2 = (d0, d1, d2, d3).
Proof.
  intros H0 H1 H2 H3. unfold sextets, octets.
  set (val := d0 * 262144 + d1 * 4096 + d2 * 64 + d3).
  assert (Hv : val / 65536 mod 256 * 65536 + val / 256 mod 256 * 256
               + val mod 256 = val).
  { assert (0 <= val < 16777216) by lia.
    Z.div_mod_to_equations. lia. }
  rewrite Hv. unfold val.
  f_equal; [f_equal; [f_equal|]|]; Z.div_mod_to_equations; lia.
Qed.

End Base64Arith.

(* ------------------------------------------------------------------ *)
(** ** base64: the standard alphabet, quantum by quantum *)
(* ------------------------------------------------------------------ *)

Section Alphabet.
Local Open Scope Z_scope.

Lemma sextet_table :
  forallb (fun n =>
             let c := base64.encodeAt Std (Z.of_nat n) in
             (base64.decodeMap Std c =? Z.of_nat n) && negb (base64.isNewline c)
             && negb (base64.isPad Std c))
    (seq 0 64) = true.
Proof. vm_compute. reflexivity. Qed.

Lemma char_table :
  forallb (fun n =>
             let c := ascii_of_nat n in
             let d := base64.decodeMap Std c in
             (d =? 255)
             || ((0 <=? d) && (d <? 64) && Ascii.eqb (base64.encodeAt Std d) c))
    (seq 0 256) = true.
Proof. vm_compute. reflexivity. Qed.

Lemma sextet_char d :
  0 <= d < 64 ->
  let c := base64.encodeAt Std d in
  base64.decodeMap Std c = d /\ base64.isNewline c = false /\
  base64.isPad Std c = false /\ inAlphabet c = true.
Proof.
  intros Hd c.
  pose proof (proj1 (forallb_forall _ _) sextet_table (Z.to_nat d)) as H.
  cbv beta zeta in H. rewrite Z2Nat.id in H by lia. fold c in H.
  assert (Hin : In (Z.to_nat d) (seq 0 64)) by (apply in_seq; lia).
  apply H in Hin. apply andb_true_iff in Hin. destruct Hin as [Hin Hp].
  apply andb_true_iff in Hin. destruct Hin as [Hm Hn].
  apply Z.eqb_eq in Hm. apply negb_true_iff in Hn, Hp.
  repeat split; try assumption.
  unfold inAlphabet. rewrite Hm. apply negb_true_iff, Z.eqb_neq. lia.
Qed.

Lemma char_sextet c :
  inAlphabet c = true ->
  0 <= base64.decodeMap Std c < 64 /\
  base64.encodeAt Std (base64.decodeMap Std c) = c.
Proof.
  intros Hc.
  pose proof (proj1 (forallb_forall _ _) char_table (nat_of_ascii c)) as H.
  cbv beta zeta in H. rewrite ascii_nat_embedding in H.
  assert (Hin : In (nat_of_ascii c) (seq 0 256)).
  { apply in_seq. pose proof (nat_ascii_bounded c). lia. }
  apply H in Hin. unfold inAlphabet in Hc. apply negb_true_iff in Hc.
  rewrite Hc in Hin. cbn [orb] in Hin.
  apply andb_true_iff in Hin. destruct Hin as [Hin He].
  apply andb_true_iff in Hin. destruct Hin as [H0 H1].
  apply Z.leb_le in H0. apply Z.ltb_lt in H1. apply Ascii.eqb_eq in He.
  repeat split; assumption.
Qed.

Lemma Encode_cons3 b0 b1 b2 rest :
  base64.Encode Std (b0 :: b1 :: b2 :: rest)
  = (encodeQ b0 b1 b2 ++ base64.Encode Std rest)%list.
Proof.
  cbn [base64.Encode]. unfold encodeQ, sextets.
  pose proof (byteZ_range b0). pose proof (byteZ_range b1).
  pose proof (byteZ_range b2).
  rewrite val3 by assumption.
  set (val := base64.byteZ b0 * 65536 + base64.byteZ b1 * 256 + base64.byteZ b2).
  assert (0 <= val) by (unfold val; lia).
  rewrite !land_63, !Z.shiftr_div_pow2 by
    (try apply Z.shiftr_nonneg; lia).
  reflexivity.
Qed.

Lemma quantumBytes4 d0 d1 d2 d3 :
  0 <= d0 < 64 -> 0 <= d1 < 64 -> 0 <= d2 < 64 -> 0 <= d3 < 64 ->
  base64.quantumBytes Std [d0; d1; d2; d3] 4
  = Some (let '(B0, B1, B2) := octets d0 d1 d2 d3 in
          [base64.Zbyte B0; base64.Zbyte B1; base64.Zbyte B2]).
Proof.
  intros H0 H1 H2 H3. unfold base64.quantumBytes. cbn [nth].
  rewrite val4 by assumption. unfold octets.
  set (val := d0 * 262144 + d1 * 4096 + d2 * 64 + d3).
  assert (0 <= val) by (unfold val; lia).
  rewrite !Z.shiftr_div_pow2 by lia.
  unfold base64.Zbyte. rewrite !Z.mod_mod by lia. reflexivity.
Qed.

Lemma decodeQuantum_alphabet c0 c1 c2 c3 rest :
  inAlphabet c0 = true -> inAlphabet c1 = true -> inAlphabet c2 = true ->
  inAlphabet c3 = true ->
  base64.decodeQuantum Std (c0 :: c1 :: c2 :: c3 :: rest) 0 []
  = Some (decodeQ c0 c1 c2 c3, rest).
Proof.
  intros H0 H1 H2 H3.
  destruct (char_sextet c0 H0) as [R0 _]. destruct (char_sextet c1 H1) as [R1 _].
  destruct (char_sextet c2 H2) as [R2 _]. destruct (char_sextet c3 H3) as [R3 _].
  unfold inAlphabet in *.
  cbn [base64.decodeQuantum]. rewrite H0. cbn [base64.decodeQuantum app].
  rewrite H1. cbn [base64.decodeQuantum app]. rewrite H2.
  cbn [base64.decodeQuantum app]. rewrite H3.
  rewrite quantumBytes4 by assumption. unfold decodeQ.
  destruct (octets _ _ _ _) as [[B0 B1] B2]. reflexivity.
Qed.

Lemma decodeQ_encodeQ b0 b1 b2 :
  match encodeQ b0 b1 b2 with
  | [c0; c1; c2; c3] =>
      decodeQ c0 c1 c2 c3 = [b0; b1; b2] /\
      inAlphabet c0 = true /\ inAlphabet c1 = true /\ inAlphabet c2 = true /\
      inAlphabet c3 = true
  | _ => False
  end.
Proof.
  unfold encodeQ.
  pose proof (byteZ_range b0) as Hb0. pose proof (byteZ_range b1) as Hb1.
  pose proof (byteZ_range b2) as Hb2.
  pose proof (octets_sextets _ _ _ Hb0 Hb1 Hb2) as Ho.
  destruct (sextets _ _ _) as [[[d0 d1] d2] d3] eqn:Es.
  destruct (sextets_range _ _ _ _ _ _ _ Es) as (R0 & R1 & R2 & R3).
  destruct (sextet_char d0 R0) as (M0 & _ & _ & A0).
  destruct (sextet_char d1 R1) as (M1 & _ & _ & A1).
  destruct (sextet_char d2 R2) as (M2 & _ & _ & A2).
  destruct (sextet_char d3 R3) as (M3 & _ & _ & A3).
  cbv zeta in M0, M1, M2, M3, A0, A1, A2, A3.
  split; [|repeat split; assumption].
  unfold decodeQ. rewrite M0, M1, M2, M3, Ho.
  now rewrite !Zbyte_byteZ.
Qed.

Lemma encodeQ_decodeQ c0 c1 c2 c3 :
  inAlphabet c0 = true -> inAlphabet c1 = true -> inAlphabet c2 = true ->
  inAlphabet c3 = true ->
  match decodeQ c0 c1 c2 c3 with
  | [b0; b1; b2] => encodeQ b0 b1 b2 = [c0; c1; c2; c3]
  | _ => False
  end.
Proof.
  intros H0 H1 H2 H3.
  destruct (char_sextet c0 H0) as [R0 E0]. destruct (char_sextet c1 H1) as [R1 E1].
  destruct (char_sextet c2 H2) as [R2 E2]. destruct (char_sextet c3 H3) as [R3 E3].
  unfold decodeQ.
  pose proof (sextets_octets _ _ _ _ R0 R1 R2 R3) as Hs.
  destruct (octets _ _ _ _) as [[B0 B1] B2] eqn:Eo.
  assert (HB : 0 <= B0 < 256 /\ 0 <= B1 < 256 /\ 0 <= B2 < 256).
  { unfold octets in Eo. injection Eo as <- <- <-.
    repeat split; apply Z.mod_pos_bound; lia. }
  destruct HB as (HB0 & HB1 & HB2).
  unfold encodeQ. rewrite !byteZ_Zbyte, !Z.mod_small by lia.
  rewrite Hs, E0, E1, E2, E3. reflexivity.
Qed.

End Alphabet.

(* ------------------------------------------------------------------ *)
(** ** base64: runs of whole quanta *)
(* ------------------------------------------------------------------ *)

Lemma quanta_cons n chars :
  quanta (S n) chars ->
  exists c0 c1 c2 c3 rest,
    chars = c0 :: c1 :: c2 :: c3 :: rest /\ quanta n rest /\
    inAlphabet c0 = true /\ inAlphabet c1 = true /\ inAlphabet c2 = true /\
    inAlphabet c3 = true.
Proof.
  intros [Hl Hf].
  destruct chars as [|c0 [|c1 [|c2 [|c3 rest]]]]; cbn in Hl; try lia.
  exists c0, c1, c2, c3, rest. split; [reflexivity|].
  apply Forall_cons in Hf. destruct Hf as [H0 Hf].
  apply Forall_cons in Hf. destruct Hf as [H1 Hf].
  apply Forall_cons in Hf. destruct Hf as [H2 Hf].
  apply Forall_cons in Hf. destruct Hf as [H3 Hf].
  repeat split; try assumption. lia.
Qed.

Lemma Decode_quanta n : forall chars fuel,
  quanta n chars -> length chars <= fuel ->
  base64.Decode Std fuel chars = Some (decodeAll chars).
Proof.
  induction n as [|n IH]; intros chars fuel Hq Hfuel.
  - destruct Hq as [Hl _]. destruct chars; [|cbn in Hl; lia].
    destruct fuel; reflexivity.
  - destruct (quanta_cons n chars Hq)
      as (c0 & c1 & c2 & c3 & rest & -> & Hrest & H0 & H1 & H2 & H3).
    destruct fuel as [|fuel]; [cbn in Hfuel; lia|].
    cbn [base64.Decode].
    rewrite (decodeQuantum_alphabet c0 c1 c2 c3 rest H0 H1 H2 H3).
    cbn [mbind option_bind]. rewrite (IH rest fuel Hrest) by (cbn in Hfuel; lia).
    reflexivity.
Qed.

Lemma length_decodeAll n : forall chars,
  quanta n chars -> length (decodeAll chars) = (3 * n)%nat.
Proof.
  induction n as [|n IH]; intros chars Hq.
  - destruct Hq as [Hl _]. destruct chars; [reflexivity | cbn in Hl; lia].
  - destruct (quanta_cons n chars Hq)
      as (c0 & c1 & c2 & c3 & rest & -> & Hrest & H0 & H1 & H2 & H3).
    cbn [decodeAll]. rewrite length_app, (IH rest Hrest).
    pose proof (encodeQ_decodeQ c0 c1 c2 c3 H0 H1 H2 H3) as He.
    destruct (decodeQ c0 c1 c2 c3) as [|b0 [|b1 [|b2 [|]]]]; try contradiction.
    cbn. lia.
Qed.

Lemma Encode_decodeAll n : forall chars,
  quanta n chars -> base64.Encode Std (decodeAll chars) = chars.
Proof.
  induction n as [|n IH]; intros chars Hq.
  - destruct Hq as [Hl _]. destruct chars; [reflexivity | cbn in Hl; lia].
  - destruct (quanta_cons n chars Hq)
      as (c0 & c1 & c2 & c3 & rest & -> & Hrest & H0 & H1 & H2 & H3).
    cbn [decodeAll].
    pose proof (encodeQ_decodeQ c0 c1 c2 c3 H0 H1 H2 H3) as He.
    destruct (decodeQ c0 c1 c2 c3) as [|b0 [|b1 [|b2 [|]]]]; try contradiction.
    cbn [app]. rewrite Encode_cons3, He, (IH rest Hrest). reflexivity.
Qed.

(** The encoding of [3 n] bytes is a run of [n] quanta that decodes to
    them. *)
Lemma Encode_quanta n : forall bytes,
  length bytes = (3 * n)%nat ->
  quanta n (base64.Encode Std bytes) /\
  decodeAll (base64.Encode Std bytes) = bytes.
Proof.
  induction n as [|n IH]; intros bytes Hl.
  - destruct bytes; [|cbn in Hl; lia]. repeat split. constructor.
  - destruct bytes as [|b0 [|b1 [|b2 rest]]]; cbn in Hl; try lia.
    destruct (IH rest) as [[Hlen Hall] Hdec]; [lia|].
    rewrite Encode_cons3.
    pose proof (decodeQ_encodeQ b0 b1 b2) as Hq.
    destruct (encodeQ b0 b1 b2) as [|c0 [|c1 [|c2 [|c3 [|]]]]];
      try contradiction.
    destruct Hq as (Hd & H0 & H1 & H2 & H3).
    cbn [app decodeAll]. rewrite Hd, Hdec.
    repeat split; [cbn; lia|].
    repeat (apply Forall_cons; split; [assumption|]). exact Hall.
Qed.

Lemma Decode_Encode n bytes fuel :
  length bytes = (3 * n)%nat -> 4 * n <= fuel ->
  base64.Decode Std fuel (base64.Encode Std bytes) = Some bytes.
Proof.
  intros Hl Hfuel. destruct (Encode_quanta n bytes Hl) as [Hq Hd].
  rewrite (Decode_quanta n _ fuel Hq), Hd; [reflexivity|].
  destruct Hq as [-> _]. exact Hfuel.
Qed.

Lemma length_string_of_list l :
  String.length (string_of_list_ascii l) = length l.
Proof. induction l; cbn; congruence. Qed.

Lemma length_list_of_string s :
  length (list_ascii_of_string s) = String.length s.
Proof. induction s; cbn; congruence. Qed.

(** [DecodeString] undoes [EncodeToString] on a string of [3 n] bytes. *)
Lemma DecodeString_EncodeToString n s :
  String.length s = (3 * n)%nat ->
  base64.DecodeString Std (base64.EncodeToString Std s) = Some s.
Proof.
  intros Hl. unfold base64.DecodeString, base64.EncodeToString.
  rewrite list_ascii_of_string_of_list_ascii, length_string_of_list.
  assert (Hb : length (list_ascii_of_string s) = (3 * n)%nat)
    by (rewrite length_list_of_string; exact Hl).
  destruct (Encode_quanta n _ Hb) as [[Hlen _] _].
  rewrite (Decode_Encode n _ _ Hb) by lia.
  cbn. now rewrite string_of_list_ascii_of_string.
Qed.

(* ------------------------------------------------------------------ *)
(** ** bcrypt: the layout of a hash *)
(* ------------------------------------------------------------------ *)

Lemma length_copyAt arr n src :
  n <= length arr -> length (bcrypt.copyAt arr n src) = length arr.
Proof.
  intros H. unfold bcrypt.copyAt.
  rewrite !length_app, !length_firstn, length_skipn. lia.
Qed.

Lemma skipn_copyAt arr n src :
  n <= length arr ->
  skipn n (bcrypt.copyAt arr n src)
  = (firstn (Nat.min (length arr - n) (length src)) src
     ++ skipn (n + Nat.min (length arr - n) (length src)) arr)%list.
Proof.
  intros H. unfold bcrypt.copyAt.
  rewrite skipn_app, length_firstn, Nat.min_l by lia.
  rewrite Nat.sub_diag. cbn [skipn].
  rewrite skipn_all2 by (rewrite length_firstn; lia). reflexivity.
Qed.

Lemma firstn_copyAt arr n src :
  n <= length arr -> firstn n (bcrypt.copyAt arr n src) = firstn n arr.
Proof.
  intros H. unfold bcrypt.copyAt.
  rewrite firstn_app, length_firstn, Nat.min_l by lia.
  rewrite Nat.sub_diag. cbn [firstn]. rewrite app_nil_r.
  apply firstn_all2. rewrite length_firstn. lia.
Qed.

(** Copying a field of the right width puts it in place. *)
Lemma copyAt_exact arr n src :
  length arr = n + length src ->
  bcrypt.copyAt arr n src = (firstn n arr ++ src)%list.
Proof.
  intros H. unfold bcrypt.copyAt.
  replace (length arr - n) with (length src) by lia.
  rewrite Nat.min_id, firstn_all.
  rewrite skipn_all2 by lia. now rewrite app_nil_r.
Qed.

Lemma Hash_header p :
  bcrypt.minor p <> "000"%char ->
  bcrypt.Hash p
  = firstn 60
      (bcrypt.copyAt
         (header (bcrypt.major p) (bcrypt.minor p) (bcrypt.cost p)
            (bcrypt.salt p))
         29 (bcrypt.hash p)).
Proof.
  intros H. unfold bcrypt.Hash, header.
  apply Ascii.eqb_neq in H. rewrite H. reflexivity.
Qed.

Lemma header_layout major minor salt :
  length salt = 22 ->
  header major minor 10 salt
  = (prefix29 major minor salt ++ repeat "000"%char 31)%list.
Proof.
  intros Hl. unfold header.
  match goal with |- bcrypt.copyAt ?a 7 salt = _ =>
    let a' := eval vm_compute in a in change a with a' end.
  unfold bcrypt.copyAt. rewrite Hl. cbn [length Nat.sub Nat.min Nat.add].
  rewrite (@firstn_all2 _ _ salt) by lia. reflexivity.
Qed.

(** A hash with a minor version, cost 10 and a salt of 22 characters is its
    prefix followed by the 31 bytes of the digest field. *)
Lemma Hash_layout h salt major minor :
  length salt = 22 -> minor <> "000"%char ->
  let p := bcrypt.mkHashed h salt 10 major minor in
  bcrypt.Hash p = (prefix29 major minor salt ++ skipn 29 (bcrypt.Hash p))%list /\
  length (skipn 29 (bcrypt.Hash p)) = 31 /\
  skipn 29 (bcrypt.Hash p)
  = (firstn (Nat.min 31 (length h)) h
     ++ skipn (Nat.min 31 (length h)) (repeat "000"%char 31))%list.
Proof.
  intros Hl Hm p.
  assert (Hh : length (header major minor 10 salt) = 60).
  { rewrite (header_layout _ _ _ Hl). unfold prefix29.
    rewrite length_app. cbn. rewrite Hl. reflexivity. }
  assert (HH : bcrypt.Hash p = bcrypt.copyAt (header major minor 10 salt) 29 h).
  { rewrite (Hash_header p Hm). cbn [bcrypt.major bcrypt.minor bcrypt.cost
      bcrypt.salt bcrypt.hash p].
    apply firstn_all2. rewrite length_copyAt; lia. }
  assert (Hs : skipn 29 (bcrypt.Hash p)
               = (firstn (Nat.min 31 (length h)) h
                  ++ skipn (Nat.min 31 (length h)) (repeat "000"%char 31))%list).
  { rewrite HH, skipn_copyAt by lia. rewrite Hh.
    change (60 - 29) with 31. f_equal.
    rewrite (header_layout _ _ _ Hl).
    rewrite skipn_app.
    assert (Hp : length (prefix29 major minor salt) = 29)
      by (unfold prefix29; cbn; rewrite Hl; reflexivity).
    rewrite skipn_all2 by lia. rewrite Hp. cbn [app]. f_equal. lia. }
  split; [|split; [|exact Hs]].
  - rewrite <- (firstn_skipn 29 (bcrypt.Hash p)) at 1. f_equal.
    rewrite HH, firstn_copyAt by lia.
    rewrite (header_layout _ _ _ Hl), firstn_app.
    assert (Hp : length (prefix29 major minor salt) = 29)
      by (unfold prefix29; cbn; rewrite Hl; reflexivity).
    rewrite Hp, Nat.sub_diag. cbn [firstn]. rewrite app_nil_r.
    apply firstn_all2. lia.
  - rewrite Hs, length_app, length_firstn, length_skipn, repeat_length. lia.
Qed.

(** The digest field does not depend on the version. *)
Lemma digest_field_version h salt major minor major' minor' :
  length salt = 22 -> minor <> "000"%char -> minor' <> "000"%char ->
  skipn 29 (bcrypt.Hash (bcrypt.mkHashed h salt 10 major minor))
  = skipn 29 (bcrypt.Hash (bcrypt.mkHashed h salt 10 major' minor')).
Proof.
  intros Hl Hm Hm'.
  destruct (Hash_layout h salt major minor Hl Hm) as (_ & _ & ->).
  destruct (Hash_layout h salt major' minor' Hl Hm') as (_ & _ & ->).
  reflexivity.
Qed.

(** Parsing a well-formed hash: the fields, as they stand. *)
Lemma newFromHash_layout major minor salt field :
  length salt = 22 -> 30 <= length field ->
  (base64.byteZ major <= 50)%Z -> minor <> "$"%char ->
  bcrypt.newFromHash (prefix29 major minor salt ++ field)
  = inl (bcrypt.mkHashed field salt 10 major minor).
Proof.
  intros Hl Hf Hmaj Hmin. unfold bcrypt.newFromHash.
  assert (Hlen : (length (prefix29 major minor salt ++ field)
                  <? bcrypt.minHashSize)%nat = false).
  { apply Nat.ltb_ge. rewrite length_app. unfold prefix29, bcrypt.minHashSize.
    cbn [length]. lia. }
  rewrite Hlen. unfold prefix29. cbn [app].
  unfold bcrypt.decodeVersion. cbn [nth]. cbn [Ascii.eqb Bool.eqb negb andb].
  change (base64.byteZ bcrypt.majorVersion) with 50%Z.
  assert (Hv : (50 <? base64.byteZ major)%Z = false) by (apply Z.ltb_ge; lia).
  rewrite Hv. apply Ascii.eqb_neq in Hmin. rewrite Hmin. cbn [negb skipn].
  unfold bcrypt.decodeCost. cbn [firstn].
  change (bcrypt.Atoi ["1"%char; "0"%char]) with (@inl Z bcrypt.Error 10%Z).
  cbn [bcrypt.checkCost]. change (bcrypt.checkCost 10) with (@None bcrypt.Error).
  cbn [skipn]. unfold bcrypt.encodedSaltSize.
  change (skipn 0 (salt ++ field)) with (salt ++ field)%list.
  rewrite firstn_app, skipn_app, Hl, Nat.sub_diag. cbn [firstn skipn].
  rewrite firstn_all2, skipn_all2, app_nil_r by lia. reflexivity.
Qed.

Lemma bc_sextet_table :
  forallb (fun n =>
             negb (Ascii.eqb (base64.encodeAt bcrypt.bcEncoding (Z.of_nat n))
                     "="%char))
    (seq 0 64) = true.
Proof. vm_compute. reflexivity. Qed.

Lemma bc_not_pad x :
  (0 <= x)%Z ->
  Ascii.eqb (base64.encodeAt bcrypt.bcEncoding (Z.land x 63)) "="%char = false.
Proof.
  intros Hx. rewrite land_63 by exact Hx.
  pose proof (Z.mod_pos_bound x 64 eq_refl) as Hr.
  pose proof (proj1 (forallb_forall _ _) bc_sextet_table
                (Z.to_nat (x mod 64))) as H.
  cbv beta in H. rewrite Z2Nat.id in H by lia.
  apply negb_true_iff, H, in_seq. lia.
Qed.

Lemma stripPad_rev (L : list ascii) (c : ascii) :
  Ascii.eqb c "="%char = false ->
  rev (bcrypt.stripPad (rev (L ++ [c; "="%char; "="%char])))
  = (L ++ [c])%list.
Proof.
  intros H. rewrite rev_app_distr. cbn [rev app bcrypt.stripPad].
  change (Ascii.eqb "=" "=")%char with true. cbv iota. rewrite H.
  cbn [rev]. now rewrite rev_involutive.
Qed.

(** The encoding of [3 n + 1] bytes: [4 n + 2] characters and two pads. *)
Lemma bc_Encode_1 n : forall bytes,
  length bytes = (3 * n + 1)%nat ->
  exists L c,
    base64.Encode bcrypt.bcEncoding bytes
    = (L ++ [c; "="%char; "="%char])%list /\
    length L = (4 * n + 1)%nat /\ Ascii.eqb c "="%char = false.
Proof.
  induction n as [|n IH]; intros bytes Hl.
  - destruct bytes as [|b0 [|]]; try discriminate Hl.
    eexists [_], _. split; [reflexivity|]. split; [reflexivity|].
    apply bc_not_pad. apply Z.shiftr_nonneg, Z.shiftl_nonneg, byteZ_range.
  - destruct bytes as [|b0 [|b1 [|b2 rest]]]; cbn in Hl; try lia.
    destruct (IH rest) as (L & c & He & Hlen & Hc); [lia|].
    destruct rest as [|r0 rest']; [cbn in Hl; lia|].
    cbn [base64.Encode] in *. rewrite He.
    eexists (_ :: _ :: _ :: _ :: L), c.
    split; [reflexivity|]. split; [cbn; lia | exact Hc].
Qed.

(** The encoded salt has 22 characters. *)
Lemma length_salt (bytes : list ascii) :
  length bytes = 16 -> length (bcrypt.base64Encode bytes) = 22.
Proof.
  intros Hl. destruct (bc_Encode_1 5 bytes Hl) as (L & c & He & Hlen & Hc).
  unfold bcrypt.base64Encode. rewrite He, (stripPad_rev L c Hc).
  rewrite length_app, Hlen. reflexivity.
Qed.

Section Bcrypt.
Variable prim : bcrypt.Primitives.

(** What a successful [GenerateFromPassword] returns. *)
Lemma Generate_layout password hb :
  bcrypt.GenerateFromPassword prim password bcrypt.DefaultCost = inl hb ->
  exists salt h,
    length salt = 22 /\
    bcrypt.crypt prim password 10 salt = inl h /\
    hb = string_of_list_ascii
           (bcrypt.Hash (bcrypt.mkHashed h salt 10 "2"%char "a"%char)).
Proof.
  unfold bcrypt.GenerateFromPassword.
  destruct (72 <? String.length password)%nat; [intros H; discriminate H|].
  destruct (bcrypt.newFromPassword prim password bcrypt.DefaultCost) as [p|e] eqn:Ep;
    [|intros H; discriminate H].
  intros [= <-].
  unfold bcrypt.newFromPassword in Ep.
  change (bcrypt.DefaultCost <? bcrypt.MinCost)%Z with false in Ep.
  cbv iota in Ep.
  change (bcrypt.checkCost bcrypt.DefaultCost) with (@None bcrypt.Error) in Ep.
  cbv iota in Ep. destruct (bcrypt.randErr prim); [discriminate Ep|].
  cbv zeta in Ep.
  destruct (bcrypt.crypt prim password bcrypt.DefaultCost _) as [h|e] eqn:E;
    [|discriminate Ep].
  injection Ep as <-.
  eexists _, h. split; [|split; [exact E | reflexivity]].
  apply length_salt. rewrite length_map, length_seq. reflexivity.
Qed.

(** Comparing a well-formed hash: the password's digest is computed with the
    cost and salt of the hash, and compared with its digest field. *)
Lemma Compare_layout major minor salt field password h :
  length salt = 22 -> length field = 31 ->
  (base64.byteZ major <= 50)%Z -> minor <> "$"%char -> minor <> "000"%char ->
  bcrypt.crypt prim password 10 salt = inl h ->
  bcrypt.CompareHashAndPassword prim
    (string_of_list_ascii (prefix29 major minor salt ++ field)) password
  = if bool_decide
         (field = skipn 29 (bcrypt.Hash (bcrypt.mkHashed h salt 10 major minor)))
    then None else Some bcrypt.ErrMismatchedHashAndPassword.
Proof.
  intros Hl Hf Hmaj Hd Hz Hc. unfold bcrypt.CompareHashAndPassword.
  rewrite list_ascii_of_string_of_list_ascii.
  rewrite (newFromHash_layout major minor salt field Hl) by (try lia; assumption).
  cbn [bcrypt.cost bcrypt.salt bcrypt.major bcrypt.minor]. rewrite Hc.
  destruct (Hash_layout h salt major minor Hl Hz) as (Ho & _ & _).
  destruct (Hash_layout field salt major minor Hl Hz) as (Hp & _ & Hs).
  cbv zeta in Ho, Hp, Hs.
  assert (Hfield : skipn 29 (bcrypt.Hash (bcrypt.mkHashed field salt 10 major minor))
                   = field).
  { rewrite Hs, Hf. change (Nat.min 31 31) with 31.
    rewrite firstn_all2 by lia. cbn [skipn repeat]. apply app_nil_r. }
  rewrite Hfield in Hp.
  destruct (bool_decide (field = _)) eqn:Eb.
  - apply bool_decide_eq_true in Eb.
    rewrite bool_decide_true; [reflexivity|].
    rewrite Hp, Ho. f_equal. exact Eb.
  - apply bool_decide_eq_false in Eb.
    rewrite bool_decide_false; [reflexivity|].
    rewrite Hp, Ho. intros Heq. apply app_inv_head in Heq. contradiction.
Qed.

End Bcrypt.

(* ------------------------------------------------------------------ *)
(** ** Stored password hashes *)
(* ------------------------------------------------------------------ *)

Lemma decodeAll_app n : forall a b,
  quanta n a -> decodeAll (a ++ b) = (decodeAll a ++ decodeAll b)%list.
Proof.
  induction n as [|n IH]; intros a b Hq.
  - destruct Hq as [Hl _]. destruct a; [reflexivity | cbn in Hl; lia].
  - destruct (quanta_cons n a Hq)
      as (c0 & c1 & c2 & c3 & rest & -> & Hrest & _).
    cbn [app decodeAll]. rewrite (IH rest b Hrest). now rewrite app_assoc.
Qed.

Lemma quanta_split n m l :
  quanta (n + m) l -> quanta n (take (4 * n) l) /\ quanta m (drop (4 * n) l).
Proof.
  intros [Hl Hf]. split; split.
  - rewrite length_take. lia.
  - apply Forall_take, Hf.
  - rewrite length_drop. lia.
  - apply Forall_drop, Hf.
Qed.

Section StoredHash.
Variable prim : bcrypt.Primitives.

(** What a successful [HashPassword] returns: the encoding of a hash of
    version [2a] and cost 10 whose digest is the password's. *)
Lemma HashPassword_layout password h :
  utils.HashPassword prim password = (h, None) ->
  exists salt digest field,
    length salt = 22 /\ length field = 31 /\
    bcrypt.crypt prim password 10 salt = inl digest /\
    field = skipn 29 (bcrypt.Hash
                        (bcrypt.mkHashed digest salt 10 "2"%char "a"%char)) /\
    h = string_of_list_ascii
          (base64.Encode Std (prefix29 "2" "a" salt ++ field)).
Proof.
  unfold utils.HashPassword.
  destruct (bcrypt.GenerateFromPassword prim password bcrypt.DefaultCost)
    as [hb|e] eqn:Eg; [|intros H; discriminate H].
  intros [= <-].
  destruct (Generate_layout prim password hb Eg) as (salt & digest & Hl & Hc & ->).
  destruct (Hash_layout digest salt "2"%char "a"%char Hl) as (Hh & Hf & _);
    [discriminate|].
  cbv zeta in Hh, Hf.
  exists salt, digest, (skipn 29 (bcrypt.Hash
                          (bcrypt.mkHashed digest salt 10 "2"%char "a"%char))).
  split; [exact Hl|]. split; [exact Hf|]. split; [exact Hc|].
  split; [reflexivity|].
  unfold base64.EncodeToString. rewrite list_ascii_of_string_of_list_ascii.
  now rewrite <- Hh.
Qed.

Lemma length_prefix29 major minor salt field :
  length salt = 22 -> length field = 31 ->
  length (prefix29 major minor salt ++ field) = 60.
Proof.
  intros Hs Hf. rewrite length_app. unfold prefix29. cbn [length]. lia.
Qed.

(** Comparing the encoding of a well-formed hash. *)
Lemma ComparePasswords_layout major minor salt field password digest :
  length salt = 22 -> length field = 31 ->
  (base64.byteZ major <= 50)%Z -> minor <> "$"%char -> minor <> "000"%char ->
  bcrypt.crypt prim password 10 salt = inl digest ->
  utils.ComparePasswords prim
    (string_of_list_ascii
       (base64.Encode Std (prefix29 major minor salt ++ field))) password
  = bool_decide
      (field = skipn 29 (bcrypt.Hash
                           (bcrypt.mkHashed digest salt 10 major minor))).
Proof.
  intros Hs Hf Hmaj Hd Hz Hc. unfold utils.ComparePasswords.
  pose proof (length_prefix29 major minor salt field Hs Hf) as H60.
  unfold base64.DecodeString.
  rewrite list_ascii_of_string_of_list_ascii, length_string_of_list.
  destruct (Encode_quanta 20 _ H60) as [[Hlen _] _].
  rewrite (Decode_Encode 20 _ _ H60) by lia.
  cbn [fmap option_fmap option_map].
  rewrite (Compare_layout prim major minor salt field password digest)
    by assumption.
  destruct (bool_decide _); reflexivity.
Qed.

(** C9, first half: a stored hash verifies against its password. *)
Lemma ComparePasswords_HashPassword password h :
  utils.HashPassword prim password = (h, None) ->
  utils.ComparePasswords prim h password = true.
Proof.
  intros H.
  destruct (HashPassword_layout password h H)
    as (salt & digest & field & Hs & Hf & Hc & Hfield & ->).
  rewrite (ComparePasswords_layout "2" "a" salt field password digest)
    by (try assumption; try discriminate; vm_compute; discriminate).
  apply bool_decide_eq_true. exact Hfield.
Qed.

(** Every stored hash starts with [JDJh], the encoding of [$2a]; with [i]
    for [h] it is the encoding of the same hash with minor version [b], and
    still verifies. *)
Lemma minor_version_change password h :
  utils.HashPassword prim password = (h, None) ->
  list_ascii_of_string h !! 3 = Some "h"%char /\
  utils.ComparePasswords prim (replaceAt 3 "i" h) password = true.
Proof.
  intros H.
  destruct (HashPassword_layout password h H)
    as (salt & digest & field & Hs & Hf & Hc & Hfield & ->).
  rewrite list_ascii_of_string_of_list_ascii. unfold replaceAt.
  rewrite list_ascii_of_string_of_list_ascii.
  unfold prefix29 at 1 2. cbn [app]. rewrite Encode_cons3.
  change (encodeQ "$" "2" "a") with ["J"; "D"; "J"; "h"]%char.
  cbn [app]. split; [reflexivity|].
  cbn [insert list_insert].
  change ("J" :: "D" :: "J" :: "i" ::
            base64.Encode Std ("$" :: "1" :: "0" :: "$" :: salt ++ field))%char
    with (encodeQ "$" "2" "b"
            ++ base64.Encode Std ("$" :: "1" :: "0" :: "$" :: salt ++ field))%char%list.
  rewrite <- Encode_cons3.
  change ("$" :: "2" :: "b" :: "$" :: "1" :: "0" :: "$" :: salt ++ field)%char
    with (prefix29 "2" "b" salt ++ field)%list.
  rewrite (ComparePasswords_layout "2" "b" salt field password digest)
    by (try assumption; try discriminate; vm_compute; discriminate).
  apply bool_decide_eq_true. rewrite Hfield.
  apply digest_field_version; [exact Hs | discriminate | discriminate].
Qed.

(** A stored hash changed in one of its last 40 characters, to another
    character of the alphabet, no longer verifies: it decodes to the same
    version, cost and salt with another digest field. *)
Lemma digest_change password h i c :
  utils.HashPassword prim password = (h, None) ->
  40 <= i < 80 -> inAlphabet c = true ->
  list_ascii_of_string h !! i <> Some c ->
  utils.ComparePasswords prim (replaceAt i c h) password = false.
Proof.
  intros H Hi Hc Hne.
  destruct (HashPassword_layout password h H)
    as (salt & digest & field & Hs & Hf & Hcr & Hfield & ->).
  rewrite list_ascii_of_string_of_list_ascii in Hne. unfold replaceAt.
  rewrite list_ascii_of_string_of_list_ascii.
  set (bytes := (prefix29 "2" "a" salt ++ field)%list) in *.
  assert (H60 : length bytes = 60) by (apply length_prefix29; assumption).
  destruct (Encode_quanta 20 bytes H60) as [Hq Hdec].
  set (chars := base64.Encode Std bytes) in *.
  set (chars' := <[i := c]> chars).
  assert (Hq' : quanta 20 chars').
  { destruct Hq as [Hl Hall]. split.
    - unfold chars'. rewrite length_insert. exact Hl.
    - apply Forall_insert; assumption. }
  assert (Hdiff : chars' <> chars).
  { intros Heq. apply Hne. rewrite <- Heq. unfold chars'.
    apply list_lookup_insert_eq. destruct Hq as [Hl _]. lia. }
  set (bytes' := decodeAll chars').
  assert (He' : base64.Encode Std bytes' = chars')
    by (apply (Encode_decodeAll 20), Hq').
  assert (H60' : length bytes' = 60) by (apply (length_decodeAll 20), Hq').
  assert (Hbytes : bytes' <> bytes).
  { intros Heq. apply Hdiff. rewrite <- He', Heq. reflexivity. }
  assert (Hhead : take 30 bytes' = take 30 bytes).
  { destruct (quanta_split 10 10 chars Hq) as [Ha Hb].
    destruct (quanta_split 10 10 chars' Hq') as [Ha' Hb'].
    change (4 * 10) with 40 in *.
    assert (Ht : take 40 chars' = take 40 chars)
      by (unfold chars'; apply take_insert_ge; lia).
    unfold bytes'. rewrite <- Hdec.
    rewrite <- (take_drop 40 chars') at 1. rewrite <- (take_drop 40 chars) at 1.
    rewrite (decodeAll_app 10 _ _ Ha'), (decodeAll_app 10 _ _ Ha).
    rewrite !take_app_le by (rewrite (length_decodeAll 10); [lia | assumption]).
    now rewrite Ht. }
  assert (Hsplit : bytes' = (prefix29 "2" "a" salt ++ drop 29 bytes')%list).
  { rewrite <- (take_drop 29 bytes') at 1. f_equal.
    assert (Ht : take 29 bytes' = take 29 bytes).
    { change 29 with (Nat.min 29 30).
      rewrite <- (take_take bytes'), <- (take_take bytes).
      now rewrite Hhead. }
    rewrite Ht. unfold bytes. rewrite take_app_length'; [reflexivity|].
    unfold prefix29. cbn [length]. lia. }
  assert (Hf' : length (drop 29 bytes') = 31) by (rewrite length_drop; lia).
  fold chars'. rewrite <- He', Hsplit.
  rewrite (ComparePasswords_layout "2" "a" salt (drop 29 bytes') password digest)
    by (try assumption; try discriminate; vm_compute; discriminate).
  apply bool_decide_eq_false. rewrite <- Hfield. intros Heq.
  apply Hbytes. rewrite Hsplit, Heq. reflexivity.
Qed.

End StoredHash.

(** C9 (amended). When [HashPassword] succeeds, the hash it returns verifies
    against the password; replacing one of its last 40 characters (the
    digest) by another character of the base64 alphabet makes
    [ComparePasswords] false; replacing its fourth character [h] by [i]
    (which turns the bcrypt version [2a] into [2b]) leaves it true. *)
Theorem C9_stored_hash_verifies prim password h :
  utils.HashPassword prim password = (h, None) ->
  utils.ComparePasswords prim h password = true /\
  (forall i c,
     40 <= i < 80 -> inAlphabet c = true ->
     list_ascii_of_string h !! i <> Some c ->
     utils.ComparePasswords prim (replaceAt i c h) password = false) /\
  list_ascii_of_string h !! 3 = Some "h"%char /\
  utils.ComparePasswords prim (replaceAt 3 "i" h) password = true.
Proof.
  intros H. split; [|split].
  - apply ComparePasswords_HashPassword, H.
  - intros i c Hi Hc Hne. apply (digest_change prim password h i c H Hi Hc Hne).
  - apply minor_version_change, H.
Qed.

Lemma C9_stored_hash_verifies_witness :
  let h := fst (utils.HashPassword samplePrimitives "correct horse") in
  utils.ComparePasswords samplePrimitives h "correct horse" = true /\
  utils.ComparePasswords samplePrimitives (replaceAt 79 "A" h) "correct horse"
  = false.
Proof.
  intros h.
  destruct (C9_stored_hash_verifies samplePrimitives "correct horse" h)
    as (H1 & H2 & _).
  - vm_compute. reflexivity.
  - split; [exact H1|]. apply H2.
    + lia.
    + vm_compute. reflexivity.
    + vm_compute. discriminate.
Defined.

(** C9, as stated, fails: whatever the digest function and the password, the
    stored hash with its fourth character changed from [h] to [i] is another
    string that still verifies; and hashing does succeed, for the sample
    primitives. *)
Lemma C9_changed_hash_still_verifies :
  (forall prim password h,
     utils.HashPassword prim password = (h, None) ->
     list_ascii_of_string h !! 3 = Some "h"%char /\
     replaceAt 3 "i" h <> h /\
     utils.ComparePasswords prim (replaceAt 3 "i" h) password = true) /\
  (exists h,
     utils.HashPassword samplePrimitives "correct horse" = (h, None) /\
     utils.ComparePasswords samplePrimitives (replaceAt 3 "i" h)
       "correct horse" = true).
Proof.
  split.
  - intros prim password h H.
    destruct (minor_version_change prim password h H) as [H3 Hc].
    split; [exact H3|]. split; [|exact Hc].
    intros Heq. unfold replaceAt in Heq.
    apply (f_equal list_ascii_of_string) in Heq.
    rewrite list_ascii_of_string_of_list_ascii in Heq.
    apply (f_equal (fun l => l !! 3)) in Heq.
    rewrite list_lookup_insert_eq, H3 in Heq; [discriminate|].
    apply lookup_lt_Some in H3. exact H3.
  - eexists. split; [vm_compute; reflexivity|].
    vm_compute. reflexivity.
Qed.

(* ================================================================== *)
(** * The rest of the packages *)
(* ================================================================== *)

(* ------------------------------------------------------------------ *)
(** ** More of the configuration loader *)
(* ------------------------------------------------------------------ *)

Lemma getenv_environ s s' k : environ s' = environ s -> getenv s' k = getenv s k.
Proof. unfold getenv. now intros ->. Qed.

Lemma GetEnv_envOr key fallback s :
  config.GetEnv key fallback s = Ret (envOr s key fallback) s.
Proof. apply GetEnv_eq. Qed.

Section LoaderValues.
Variable w : Oracle.
Variable options : ConfigOptions.t.

(** The first half of a load, run: the configuration it starts from and the
    environment it leaves. *)
Lemma newConfig_value s :
  exists s1,
    config.newConfig w options s
    = Ret (mkAppConfig (effectiveMode options s)
             (envOr s "APP_ENV" "development") "" "" "" "" "" ""
             (envOr s "PORT" "8080") ConfigVersion (mkTime (clock w) Local))
        s1 /\
    sameMemory s s1 /\ environ s1 = loadEnviron w s.
Proof.
  unfold config.newConfig, effectiveMode, loadEnviron.
  mstep. set (s0 := set_stderr _ s).
  rewrite (bind_Ret _ _ _ _ _ (GetEnv_envOr _ _ _)). cbv beta.
  rewrite (bind_Ret _ _ _ _ _ (GetEnv_envOr _ _ _)). cbv beta.
  unfold time_Now. rewrite (bind_Ret _ _ _ _ _ eq_refl). cbv beta.
  cbn [Mode AppEnv].
  change (envOr s0 "APP_ENV" "development")
    with (envOr s "APP_ENV" "development").
  change (envOr s0 "PORT" "8080") with (envOr s "PORT" "8080").
  assert (Hdot : forall st, environ st = environ s ->
    sameMemory s st ->
    exists s1,
      (if String.eqb (envOr s "APP_ENV" "development") "development" then
         bind (godotenv_Load w) (fun err =>
           match err with
           | Some _ =>
               log.Println
                 "⚠️  Warning: .env file not found, using system environment variables"
           | None => log.Println "✅ Loaded .env file for development"
           end)
       else ret tt) st = Ret tt s1 /\
      sameMemory s s1 /\
      environ s1
      = (if String.eqb (envOr s "APP_ENV" "development") "development" then
           match dotenvFile w with
           | inl vars => environ s ∪ vars
           | inr _ => environ s
           end
         else environ s)).
  { intros st He Hm.
    destruct (String.eqb (envOr s "APP_ENV" "development") "development").
    - unfold godotenv_Load. destruct (dotenvFile w) as [vars | e];
        eexists; (split; [reflexivity|]); (split; [exact Hm|]); cbn;
        now rewrite ?He.
    - eexists. split; [reflexivity|]. split; [exact Hm | exact He]. }
  destruct (String.eqb (ConfigOptions.Mode options) ModeAuto) eqn:Ea.
  - destruct (detectConfigMode_eq s0) as (s' & Hd & Hl).
    rewrite bind_bind, (bind_Ret _ _ _ _ _ Hd). cbv beta.
    rewrite bind_ret. cbn [AppEnv set_Mode].
    destruct (Hdot s') as (s1 & Hg & Hm & He).
    { destruct Hl as (He & _). exact He. }
    { apply logsOnly_sameMemory.
      eapply logsOnly_trans; [apply logsOnly_stderr | exact Hl]. }
    rewrite (bind_Ret _ _ _ _ _ Hg).
    eexists. split; [reflexivity|]. split; assumption.
  - rewrite bind_ret. cbn [AppEnv].
    destruct (Hdot s0) as (s1 & Hg & Hm & He).
    { reflexivity. }
    { apply logsOnly_sameMemory, logsOnly_stderr. }
    rewrite (bind_Ret _ _ _ _ _ Hg).
    eexists. split; [reflexivity|]. split; assumption.
Qed.

End LoaderValues.

(** What the second half of a load leaves alone: a field [g] of the
    configuration that no assignment of the loader writes to. *)
Section Frame.
Variable w : Oracle.
Variable options : ConfigOptions.t.
Variable T : Type.
Variable g : AppConfig -> T.
Hypothesis g_MongoURI : forall v c, g (set_MongoURI v c) = g c.
Hypothesis g_DBName : forall v c, g (set_DBName v c) = g c.
Hypothesis g_JWTSecret : forall v c, g (set_JWTSecret v c) = g c.
Hypothesis g_NATSURL : forall v c, g (set_NATSURL v c) = g c.
Hypothesis g_AllowedOrigins : forall v c, g (set_AllowedOrigins v c) = g c.
Hypothesis g_ProjectID : forall v c, g (set_ProjectID v c) = g c.

Lemma assignSecret_frame k v c : g (config.assignSecret k v c) = g c.
Proof.
  unfold config.assignSecret.
  repeat (match goal with |- context [if ?b then _ else _] => destruct b end;
          rewrite ?g_MongoURI, ?g_DBName, ?g_JWTSecret, ?g_NATSURL;
          try reflexivity).
Qed.

Lemma rangeSecretMap_frame entries : forall config s c' err s',
  config.rangeSecretMap w options entries config s = Ret (c', err) s' ->
  g c' = g config.
Proof.
  induction entries as [|[k0 e0] rest IH]; intros config s c' err s'.
  - cbn. intros [= <- _ _]. reflexivity.
  - cbn [config.rangeSecretMap].
    destruct (getSecretOrEnv_eq w options s (ProjectID config) k0 e0)
      as (s1 & Hg & Hl).
    rewrite (bind_Ret _ _ _ _ _ Hg). cbv beta.
    destruct (secretOrEnv w options s (ProjectID config) k0 e0) as [v [e|]].
    + destruct (config.contains _ k0).
      * intros [= <- _ _]. reflexivity.
      * mstep. intros H. apply IH in H. now rewrite H, assignSecret_frame.
    + intros H. apply IH in H. now rewrite H, assignSecret_frame.
Qed.

Lemma loadSecretsFromManager_frame config s c' err s' :
  config.loadSecretsFromManager w config options s = Ret (c', err) s' ->
  g c' = g config.
Proof.
  unfold config.loadSecretsFromManager. mstep. set (s0 := set_stderr _ s).
  destruct (String.eqb (ProjectID config) "").
  { intros [= <- _ _]. reflexivity. }
  destruct (rangeSecretMap_total w options (secretMapOrder w) config s0)
    as (c1 & err1 & s1 & Hr & _).
  rewrite (bind_Ret _ _ _ _ _ Hr). cbv beta iota zeta.
  apply rangeSecretMap_frame in Hr.
  destruct err1 as [e|].
  { intros [= <- _ _]. exact Hr. }
  mstep.
  destruct (negb (String.eqb (getenv s1 "ALLOWED_ORIGINS") ""));
    intros [= <- _ _]; now rewrite ?g_AllowedOrigins.
Qed.

Lemma loadBasicConfig_frame config s c' err s' :
  config.loadBasicConfig config s = Ret (c', err) s' -> g c' = g config.
Proof.
  unfold config.loadBasicConfig.
  mstep. set (s0 := set_stderr _ s). do 5 mstep.
  destruct (negb (String.eqb (getenv s0 "ALLOWED_ORIGINS") ""));
    intros [= <- _ _];
    now rewrite ?g_AllowedOrigins, ?g_NATSURL, ?g_JWTSecret, ?g_DBName,
      ?g_MongoURI.
Qed.

Lemma loadAndAssign_frame config s s' :
  config.loadAndAssign w options config s = Ret tt s' ->
  exists c', Config s' = Some c' /\ g c' = g config.
Proof.
  assert (Hfin : forall (c' : AppConfig) (err : error) s1,
    g c' = g config ->
    match err with
    | Some e => log.Fatalf ("❌ Failed to load configuration: " ++ e)
    | None =>
        do* modify (set_Config (Some c')) in
        log.Printf ("✅ Configuration loaded successfully (mode: "
                    ++ Mode c' ++ ", env: " ++ AppEnv c' ++ ")")
    end s1 = Ret tt s' ->
    exists c2, Config s' = Some c2 /\ g c2 = g config).
  { intros c' err s1 Hg. destruct err as [e|]; [discriminate|].
    intros [= <-]. exists c'. split; [reflexivity | exact Hg]. }
  unfold config.loadAndAssign.
  destruct (String.eqb (Mode config) ModeSecretManager) eqn:E1.
  - rewrite !bind_bind.
    assert (Hp : exists c0,
      (if String.eqb (ProjectID (set_ProjectID
             (ConfigOptions.SecretManagerProject options) config)) ""
       then bind (config.GetEnv "GOOGLE_CLOUD_PROJECT" "")
              (fun projectID => ret (set_ProjectID projectID
                 (set_ProjectID (ConfigOptions.SecretManagerProject options)
                    config)))
       else ret (set_ProjectID (ConfigOptions.SecretManagerProject options)
                   config)) s = Ret c0 s /\ g c0 = g config).
    { destruct (String.eqb _ "").
      - mstep. eexists. split; [reflexivity|]. now rewrite !g_ProjectID.
      - eexists. split; [reflexivity|]. now rewrite !g_ProjectID. }
    destruct Hp as (c0 & Hp & Hg0).
    rewrite (bind_Ret _ _ _ _ _ Hp). cbv beta.
    destruct (loadSecretsFromManager_total w options c0 s)
      as (c' & err & s1 & Hr & _).
    rewrite (bind_Ret _ _ _ _ _ Hr). cbv beta iota.
    apply loadSecretsFromManager_frame in Hr.
    apply Hfin. congruence.
  - destruct (String.eqb (Mode config) ModeBasic) eqn:E2.
    + destruct (loadBasicConfig_eq config s) as (c' & s1 & Hr & _).
      rewrite (bind_Ret _ _ _ _ _ Hr). cbv beta iota.
      apply loadBasicConfig_frame in Hr. apply Hfin. exact Hr.
    + rewrite bind_ret. discriminate.
Qed.

End Frame.

Section LoaderRun.
Variable w : Oracle.
Variable options : ConfigOptions.t.

(** A first load is its second half, run on [firstConfig] in a state that
    differs from the start by the log and the variables of [.env]. *)
Lemma LoadEnvWithOptions_run s :
  once s = false ->
  exists s1,
    sameMemory s s1 /\ environ s1 = environ (afterDotenv w s) /\
    config.LoadEnvWithOptions w options s
    = bind (config.loadAndAssign w options (firstConfig w options s))
        (fun _ => modify (set_once true)) s1.
Proof.
  intros Ho. destruct (newConfig_value w options s) as (s1 & Hn & Hm & He).
  exists s1. split; [exact Hm|]. split; [exact He|].
  apply LoadEnvWithOptions_fresh; assumption.
Qed.

Lemma secretOrEnv_environ s s' p k e :
  environ s' = environ s ->
  secretOrEnv w options s' p k e = secretOrEnv w options s p k e.
Proof. intros H. unfold secretOrEnv. now rewrite (getenv_environ _ _ _ H). Qed.

Lemma unresolved_environ s s' p k e :
  environ s' = environ s ->
  unresolved w options s' p k e <-> unresolved w options s p k e.
Proof. intros H. unfold unresolved. now rewrite (getenv_environ _ _ _ H). Qed.

Lemma secretProject_environ s s' :
  environ s' = environ s -> secretProject options s' = secretProject options s.
Proof. intros H. unfold secretProject. now rewrite (getenv_environ _ _ _ H). Qed.

Lemma assignAll_environ s s' p entries : forall c,
  environ s' = environ s ->
  assignAll w options s' p entries c = assignAll w options s p entries c.
Proof.
  intros c H. unfold assignAll. revert c.
  induction entries as [|[k e] rest IH]; intros c; [reflexivity|].
  cbn [fold_left]. rewrite (secretOrEnv_environ _ _ _ _ _ H). apply IH.
Qed.

End LoaderRun.

Lemma last_log s line : lastLog (set_stderr (stderr s ++ [line]) s) = Some line.
Proof. unfold lastLog. cbn. apply last_snoc. Qed.

(** [frame_of g Hl c Hc Hg]: the configuration [c] that the completed second
    half [Hl] assigned, with its field [g] as it was. *)
Ltac frame_of g Hl c Hc Hg :=
  let H := fresh in
  unshelve epose proof (loadAndAssign_frame _ _ _ g _ _ _ _ _ _ _ _ _ Hl) as H;
  try (intros; reflexivity);
  destruct H as (c & Hc & Hg).

(** X1.
    After a load has returned, every accessor returns the field of the
    loaded configuration and leaves the state alone: none of them aborts.
    The start may be any state the loader itself can have left, where the
    guard is only set with [Config] assigned. *)
Theorem X1_accessors_after_load w options s s' :
  (once s = true -> Config s <> None) ->
  config.LoadEnvWithOptions w options s = Ret tt s' ->
  exists c,
    Config s' = Some c /\ once s' = true /\
    config.GetMongoURI s' = Ret (MongoURI c) s' /\
    config.GetDBName s' = Ret (DBName c) s' /\
    config.GetJWTSecret s' = Ret (JWTSecret c) s' /\
    config.GetNATSURL s' = Ret (NATSURL c) s' /\
    config.GetAllowedOrigins s' = Ret (AllowedOrigins c) s' /\
    config.GetPort s' = Ret (Port c) s' /\
    config.GetAppEnv s' = Ret (AppEnv c) s' /\
    config.GetConfig s' = Ret c s' /\
    config.GetConfigMode s' = Ret (Mode c) s'.
Proof.
  intros Hinv Hr.
  assert (Hc : exists c, Config s' = Some c).
  { destruct (once s) eqn:Ho.
    - rewrite (LoadEnvWithOptions_done w options s Ho) in Hr.
      injection Hr as <-. destruct (Config s) as [c|] eqn:Ec; [eauto|].
      now destruct (Hinv eq_refl).
    - destruct (LoadEnvWithOptions_run w options s Ho) as (s1 & _ & _ & Hrun).
      rewrite Hrun in Hr. unfold bind in Hr.
      destruct (loadAndAssign_total w options (firstConfig w options s) s1)
        as [(c' & s2 & Hl & Hc & _) | (s2 & Hl & _)];
        rewrite Hl in Hr; [|discriminate].
      injection Hr as <-. exists c'. exact Hc. }
  destruct Hc as [c Hc]. exists c. split; [exact Hc|].
  split; [apply (LoadEnvWithOptions_sets_once w options s s' Hr)|].
  unfold config.GetMongoURI, config.GetDBName, config.GetJWTSecret,
    config.GetNATSURL, config.GetAllowedOrigins, config.GetPort,
    config.GetAppEnv, config.GetConfig, config.GetConfigMode, bind, gets.
  rewrite Hc. repeat split.
Qed.

Lemma X1_accessors_after_load_witness :
  config.GetPort loadedState = Ret "8080" loadedState /\
  config.GetDBName loadedState = Ret "mrexperiences_service" loadedState.
Proof.
  destruct (X1_accessors_after_load sampleOracle basicOptions
              (startState sampleEnv) loadedState)
    as (c & Hc & _ & _ & Hdb & _ & _ & _ & Hport & _).
  - discriminate.
  - vm_compute. reflexivity.
  - assert (Hv : Config loadedState = Some c) by exact Hc.
    vm_compute in Hv. injection Hv as <-. split; [exact Hport | exact Hdb].
Defined.

(** X2.
    The configuration a first load assigns has a resolved mode, [basic] or
    [secret_manager] and never [auto]; it carries the version of the
    package and the clock reading of the load, and
    [IsSecretManagerEnabled] tells the two modes apart. *)
Theorem X2_loaded_mode_is_resolved w options s s' :
  once s = false ->
  config.LoadEnvWithOptions w options s = Ret tt s' ->
  exists c,
    Config s' = Some c /\
    Mode c = effectiveMode options s /\
    (Mode c = ModeBasic \/ Mode c = ModeSecretManager) /\
    Version c = "2.0.0" /\
    LoadTime c = mkTime (clock w) Local /\
    config.IsSecretManagerEnabled s'
    = Ret (bool_decide (Mode c = ModeSecretManager)) s'.
Proof.
  intros Ho Hr.
  destruct (LoadEnvWithOptions_run w options s Ho) as (s1 & _ & _ & Hrun).
  rewrite Hrun in Hr. unfold bind in Hr.
  destruct (config.loadAndAssign w options (firstConfig w options s) s1)
    as [[] s2| |] eqn:Hl; try discriminate.
  injection Hr as <-.
  frame_of Mode Hl c Hc Hm. frame_of Version Hl c1 Hc1 Hv.
  frame_of LoadTime Hl c2 Hc2 Ht.
  assert (c1 = c) by congruence. assert (c2 = c) by congruence. subst c1 c2.
  cbn in Hm, Hv, Ht. exists c. split; [exact Hc|]. split; [exact Hm|].
  split.
  { revert Hl. unfold config.loadAndAssign.
    replace (Mode (firstConfig w options s)) with (Mode c) by exact Hm.
    destruct (String.eqb (Mode c) ModeSecretManager) eqn:E1;
      [apply String.eqb_eq in E1; now right|].
    destruct (String.eqb (Mode c) ModeBasic) eqn:E2;
      [apply String.eqb_eq in E2; now left|].
    rewrite bind_ret. discriminate. }
  split; [exact Hv|]. split; [exact Ht|].
  unfold config.IsSecretManagerEnabled, config.GetConfigMode, bind, gets.
  cbn [Config set_once]. rewrite Hc. unfold ret. f_equal.
  destruct (String.eqb (Mode c) ModeSecretManager) eqn:E.
  - apply String.eqb_eq in E. now rewrite bool_decide_eq_true_2.
  - apply String.eqb_neq in E. now rewrite bool_decide_eq_false_2.
Qed.

Lemma X2_loaded_mode_is_resolved_witness :
  exists c,
    Config (stateOf (config.LoadEnv sampleOracle (startState sampleEnv)))
    = Some c /\ Mode c = ModeBasic.
Proof.
  destruct (X2_loaded_mode_is_resolved sampleOracle
              (ConfigOptions.mk ModeAuto false "" [] [] true)
              (startState sampleEnv)
              (stateOf (config.LoadEnv sampleOracle (startState sampleEnv))))
    as (c & Hc & Hm & _).
  - reflexivity.
  - vm_compute. reflexivity.
  - exists c. split; [exact Hc|]. rewrite Hm. vm_compute. reflexivity.
Defined.

Lemma lookup_getenv s k v : environ s !! k = Some v -> getenv s k = v.
Proof. unfold getenv. now intros ->. Qed.

(** X3.
    [APP_ENV] and [PORT] are read before [.env] is looked for: the loaded
    [AppEnv] and [Port] come from the environment the process starts with,
    with the fallbacks [development] and [8080]; a [PORT] or [APP_ENV] that
    only the [.env] file sets reaches the environment of the process but not
    the configuration. *)
Theorem X3_port_and_env_precede_dotenv w options s s' :
  once s = false ->
  config.LoadEnvWithOptions w options s = Ret tt s' ->
  exists c,
    Config s' = Some c /\
    AppEnv c = envOr s "APP_ENV" "development" /\
    Port c = envOr s "PORT" "8080" /\
    forall vars value,
      dotenvFile w = inl vars -> AppEnv c = "development" ->
      environ s !! "PORT" = None -> vars !! "PORT" = Some value ->
      Port c = "8080" /\ getenv s' "PORT" = value.
Proof.
  intros Ho Hr.
  destruct (LoadEnvWithOptions_run w options s Ho) as (s1 & _ & He & Hrun).
  rewrite Hrun in Hr. unfold bind in Hr.
  destruct (config.loadAndAssign w options (firstConfig w options s) s1)
    as [[] s2| |] eqn:Hl; try discriminate.
  injection Hr as <-.
  frame_of AppEnv Hl c Hc Ha. frame_of Port Hl c1 Hc1 Hp.
  assert (c1 = c) by congruence. subst c1. cbn in Ha, Hp.
  exists c. split; [exact Hc|]. split; [exact Ha|]. split; [exact Hp|].
  intros vars value Hd Hdev Hnone Hv. split.
  - rewrite Hp. unfold envOr, getenv. now rewrite Hnone.
  - destruct (loadAndAssign_total w options (firstConfig w options s) s1)
      as [(c' & s3 & Hl' & _ & _ & _ & He') | (s3 & Hl' & _)];
      rewrite Hl' in Hl; [|discriminate].
    injection Hl as <-.
    apply lookup_getenv. cbn [environ set_once]. rewrite He', He.
    cbn [environ afterDotenv set_environ]. unfold loadEnviron.
    rewrite <- Ha, Hdev, Hd. cbn.
    apply lookup_union_Some_raw. right. split; assumption.
Qed.

Lemma X3_port_and_env_precede_dotenv_witness :
  exists c s',
    config.LoadEnvWithOptions dotenvOracle basicOptions (startState devEnv)
    = Ret tt s' /\
    Config s' = Some c /\ Port c = "8080" /\ getenv s' "PORT" = "9090".
Proof.
  pose (s' := stateOf (config.LoadEnvWithOptions dotenvOracle basicOptions
                         (startState devEnv))).
  destruct (X3_port_and_env_precede_dotenv dotenvOracle basicOptions
              (startState devEnv) s')
    as (c & Hc & Ha & _ & H).
  - reflexivity.
  - vm_compute. reflexivity.
  - exists c, s'. split; [vm_compute; reflexivity|]. split; [exact Hc|].
    eapply H.
    + reflexivity.
    + rewrite Ha. vm_compute. reflexivity.
    + vm_compute. reflexivity.
    + vm_compute. reflexivity.
Defined.



Lemma getenv_afterDotenv w s s1 k :
  environ s1 = environ (afterDotenv w s) ->
  getenv s1 k = getenv (afterDotenv w s) k.
Proof. apply getenv_environ. Qed.

Lemma no_project_exit w options s :
  once s = false ->
  effectiveMode options s = ModeSecretManager ->
  ConfigOptions.SecretManagerProject options = "" ->
  getenv (afterDotenv w s) "GOOGLE_CLOUD_PROJECT" = "" ->
  exists s',
    config.LoadEnvWithOptions w options s = Exit 1 s' /\
    lastLog s'
    = Some "❌ Failed to load configuration: Google Cloud project ID is required for Secret Manager mode" /\
    Config s' = Config s /\ once s' = false.
Proof.
  intros Ho Hm Hopt Henv.
  destruct (LoadEnvWithOptions_run w options s Ho) as (s1 & Hmem & He & Hrun).
  rewrite Hrun. unfold bind at 1.
  rewrite (loadAndAssign_project w options (firstConfig w options s) s1 Hm).
  assert (Hp : secretProject options s1 = "").
  { unfold secretProject. rewrite Hopt. cbn.
    rewrite (getenv_afterDotenv w s s1 _ He). exact Henv. }
  rewrite Hp. unfold config.loadSecretsFromManager. rewrite bind_bind. mstep.
  cbn [ProjectID set_ProjectID String.eqb]. rewrite bind_ret. cbv beta iota.
  unfold log.Fatalf, log.Fatal. mstep. unfold os_Exit.
  eexists. split; [reflexivity|]. split; [apply last_log|].
  destruct Hmem as (Hc & Hon & _). cbn. split; congruence.
Qed.

(** X5.
    Secret Manager mode without a project id ends the process: when the
    options name no project and [GOOGLE_CLOUD_PROJECT] is empty (after
    [.env] was looked for), a first load exits with status 1 and says why;
    [Config] stays unassigned. *)
Theorem X5_missing_project_is_fatal w options s :
  once s = false ->
  effectiveMode options s = ModeSecretManager ->
  ConfigOptions.SecretManagerProject options = "" ->
  getenv (afterDotenv w s) "GOOGLE_CLOUD_PROJECT" = "" ->
  exists s',
    config.LoadEnvWithOptions w options s = Exit 1 s' /\
    lastLog s'
    = Some "❌ Failed to load configuration: Google Cloud project ID is required for Secret Manager mode" /\
    Config s' = Config s /\ once s' = false.
Proof. apply no_project_exit. Qed.

Lemma X5_missing_project_is_fatal_witness :
  exists s',
    config.LoadEnv sampleOracle
      (startState (<["USE_SECRET_MANAGER" := "true"]> sampleEnv))
    = Exit 1 s' /\ Config s' = None.
Proof.
  destruct (X5_missing_project_is_fatal sampleOracle
              (ConfigOptions.mk ModeAuto false "" [] [] true)
              (startState (<["USE_SECRET_MANAGER" := "true"]> sampleEnv)))
    as (s' & Hr & _ & Hc & _); try (vm_compute; reflexivity).
  exists s'. split; [exact Hr | exact Hc].
Defined.

(** X6.
    A mode that is none of [basic], [secret_manager] and [auto] ends the
    process: a first load exits with status 1, naming the mode; the mode of
    a [ConfigOptions] left at its zero value, the empty string, is one. *)
Theorem X6_unsupported_mode_is_fatal w options s :
  once s = false ->
  let mode := ConfigOptions.Mode options in
  mode <> ModeBasic -> mode <> ModeSecretManager -> mode <> ModeAuto ->
  exists s',
    config.LoadEnvWithOptions w options s = Exit 1 s' /\
    lastLog s'
    = Some ("❌ Failed to load configuration: unsupported config mode: "
            ++ mode) /\
    Config s' = Config s /\ once s' = false.
Proof.
  intros Ho mode Hb Hs Ha.
  destruct (LoadEnvWithOptions_run w options s Ho) as (s1 & Hmem & He & Hrun).
  rewrite Hrun. unfold bind at 1. unfold config.loadAndAssign.
  assert (Hm : Mode (firstConfig w options s) = mode).
  { cbn. unfold effectiveMode. fold mode.
    apply String.eqb_neq in Ha. now rewrite Ha. }
  rewrite Hm.
  apply String.eqb_neq in Hb, Hs. rewrite Hb, Hs.
  rewrite bind_ret. cbv beta iota.
  unfold log.Fatalf, log.Fatal. mstep. unfold os_Exit.
  eexists. split; [reflexivity|]. split; [apply last_log|].
  destruct Hmem as (Hc & Hon & _). cbn. split; congruence.
Qed.

Lemma X6_unsupported_mode_is_fatal_witness :
  exists s',
    config.LoadEnvWithOptions sampleOracle
      (ConfigOptions.mk "" false "" [] [] false) (startState sampleEnv)
    = Exit 1 s' /\
    lastLog s'
    = Some "❌ Failed to load configuration: unsupported config mode: ".
Proof.
  destruct (X6_unsupported_mode_is_fatal sampleOracle
              (ConfigOptions.mk "" false "" [] [] false)
              (startState sampleEnv))
    as (s' & Hr & Hl & _); try discriminate; try reflexivity.
  exists s'. split; [exact Hr | exact Hl].
Defined.

(** [loadBasicConfig], run: every field it assigns. *)
Lemma loadBasicConfig_value config s :
  exists c' s',
    config.loadBasicConfig config s = Ret (c', nil) s' /\ logsOnly s s' /\
    MongoURI c' = getenv s "MONGO_URI" /\
    DBName c' = envOr s "DB_NAME" "mrexperiences_service" /\
    JWTSecret c' = getenv s "JWT_SECRET" /\
    NATSURL c' = getenv s "NATS_URL" /\
    ProjectID c' = ProjectID config.
Proof.
  unfold config.loadBasicConfig.
  mstep. set (s0 := set_stderr _ s). mstep.
  rewrite (bind_Ret _ _ _ _ _ (GetEnv_envOr _ _ _)). cbv beta.
  do 3 mstep.
  change (envOr s0 "DB_NAME" "mrexperiences_service")
    with (envOr s "DB_NAME" "mrexperiences_service").
  destruct (negb (String.eqb (getenv s0 "ALLOWED_ORIGINS") ""));
    do 2 eexists; (split; [reflexivity|]); (split; [repeat split|]);
    repeat split.
Qed.

(** X7.
    Basic mode reads the four settings from the environment variables, as
    they are once [.env] was looked for, and cannot fail: a first load in
    basic mode returns whatever is set, an unset [MONGO_URI], [JWT_SECRET]
    or [NATS_URL] giving an empty field and an unset [DB_NAME] the default
    name. No project is recorded. *)
Theorem X7_basic_mode_fields w options s :
  once s = false ->
  effectiveMode options s = ModeBasic ->
  exists c s',
    config.LoadEnvWithOptions w options s = Ret tt s' /\
    Config s' = Some c /\
    let s1 := afterDotenv w s in
    MongoURI c = getenv s1 "MONGO_URI" /\
    DBName c = envOr s1 "DB_NAME" "mrexperiences_service" /\
    JWTSecret c = getenv s1 "JWT_SECRET" /\
    NATSURL c = getenv s1 "NATS_URL" /\
    ProjectID c = "".
Proof.
  intros Ho Hm.
  destruct (LoadEnvWithOptions_run w options s Ho) as (s1 & Hmem & He & Hrun).
  rewrite Hrun. unfold bind at 1. unfold config.loadAndAssign.
  replace (Mode (firstConfig w options s)) with ModeBasic by (symmetry; exact Hm).
  change (String.eqb ModeBasic ModeSecretManager) with false.
  change (String.eqb ModeBasic ModeBasic) with true. cbv iota.
  destruct (loadBasicConfig_value (firstConfig w options s) s1)
    as (c & s2 & Hl & Hlog & H1 & H2 & H3 & H4 & H5).
  rewrite (bind_Ret _ _ _ _ _ Hl). cbv beta iota.
  exists c. eexists. split; [reflexivity|]. split; [reflexivity|].
  cbv zeta. unfold envOr in *.
  rewrite <- !(getenv_afterDotenv w s s1 _ He).
  repeat split; assumption.
Qed.

Lemma X7_basic_mode_fields_witness :
  exists c s',
    config.LoadEnvWithOptions dotenvOracle basicOptions (startState devEnv)
    = Ret tt s' /\
    Config s' = Some c /\
    MongoURI c = "mongodb://db.local:27017" /\ JWTSecret c = "dev" /\
    DBName c = "mrexperiences_service".
Proof.
  destruct (X7_basic_mode_fields dotenvOracle basicOptions (startState devEnv))
    as (c & s' & Hr & Hc & H1 & H2 & H3 & _); try reflexivity.
  exists c, s'. split; [exact Hr|]. split; [exact Hc|].
  rewrite H1, H2, H3. vm_compute. repeat split.
Defined.

(** X8.
    [contains] and [Contains] tell whether the item is an element of the
    slice. *)
Theorem X8_contains_iff_In slice item :
  (config.contains slice item = true <-> In item slice) /\
  (helpers.Contains slice item = true <-> In item slice).
Proof.
  split; induction slice as [|x rest IH]; cbn;
    try (split; [discriminate | intros []]);
    destruct (String.eqb x item) eqn:E.
  - apply String.eqb_eq in E. split; [now left | reflexivity].
  - apply String.eqb_neq in E. rewrite IH. split; [now right|].
    intros [H|H]; [now destruct E | exact H].
  - apply String.eqb_eq in E. split; [now left | reflexivity].
  - apply String.eqb_neq in E. rewrite IH. split; [now right|].
    intros [H|H]; [now destruct E | exact H].
Qed.

Section SecretValues.
Variable w : Oracle.
Variable options : ConfigOptions.t.

(** A second half that returned in Secret Manager mode had a project and no
    required secret unresolved. *)
Lemma secret_load_returned config s1 s2 :
  Mode config = ModeSecretManager ->
  config.loadAndAssign w options config s1 = Ret tt s2 ->
  secretProject options s1 <> "" /\
  (forall k e, In (k, e) (secretMapOrder w) ->
     config.contains (ConfigOptions.RequiredSecrets options) k = true ->
     ~ unresolved w options s1 (secretProject options s1) k e).
Proof.
  intros Hm Hr. split.
  - intros Hp.
    destruct (loadAndAssign_secret_fails w options config s1 Hm)
      as (s' & Hf & _); [now left | congruence].
  - intros k e Hin Hreq Hun.
    destruct (loadAndAssign_secret_fails w options config s1 Hm)
      as (s' & Hf & _); [right; eauto | congruence].
Qed.

(** The fields a second half assigns in Secret Manager mode. *)
Lemma secret_fields config s1 s2 :
  Mode config = ModeSecretManager ->
  Permutation (secretMapOrder w) config.secretMap ->
  config.loadAndAssign w options config s1 = Ret tt s2 ->
  exists c,
    Config s2 = Some c /\
    (forall k e, In (k, e) config.secretMap ->
       secretField k c
       = withDefault k
           (fst (secretOrEnv w options s1 (secretProject options s1) k e))) /\
    AppEnv c = AppEnv config /\
    AllowedOrigins c = originsFor (getenv s1 "ALLOWED_ORIGINS") (AppEnv config).
Proof.
  intros Hm Hperm Hr.
  destruct (secret_load_returned config s1 s2 Hm Hr) as [Hp Hreq].
  destruct (loadAndAssign_secret_succeeds w options config s1 Hm Hp Hreq)
    as (c & s' & Hr' & Hc & _ & _ & H1 & H2 & H3 & H4 & _ & Ha & Ho).
  rewrite Hr' in Hr. injection Hr as <-.
  exists c. split; [exact Hc|]. split; [|split; [exact Ha | exact Ho]].
  pose proof (order_NoDup w Hperm) as Hnd.
  intros k e Hin.
  pose proof (secretMap_order w k e Hperm Hin) as Hin'.
  cbn in Hin.
  destruct Hin as [[= <- <-]|[[= <- <-]|[[= <- <-]|[[= <- <-]|[]]]]];
    unfold secretField, withDefault; cbn [String.eqb Ascii.eqb Bool.eqb andb].
  - rewrite H1. apply (assignAll_MongoURI w options _ _ _ _ _ Hnd Hin').
  - rewrite H2. apply (assignAll_DBName w options _ _ _ _ _ Hnd Hin').
  - rewrite H3. apply (assignAll_JWTSecret w options _ _ _ _ _ Hnd Hin').
  - rewrite H4. apply (assignAll_NATSURL w options _ _ _ _ _ Hnd Hin').
Qed.

End SecretValues.

(** X9.
    The order in which Secret Manager mode resolves each of the four
    secrets, read in the project [p] with the environment [s1] the process
    has once [.env] was looked for. A value the secret store returns is
    used, whatever the environment variable holds. When the store fails and
    falling back is allowed, a non-empty environment variable is used. When
    the store fails and falling back is switched off, the environment
    variable is ignored. An empty database name becomes the default. *)
Theorem X9_secret_resolution_order w options s s' :
  once s = false ->
  effectiveMode options s = ModeSecretManager ->
  Permutation (secretMapOrder w) config.secretMap ->
  config.LoadEnvWithOptions w options s = Ret tt s' ->
  let s1 := afterDotenv w s in
  let p := secretProject options s1 in
  p <> "" /\
  exists c,
    Config s' = Some c /\
    forall k e, In (k, e) config.secretMap ->
      (forall value,
         config.fetchSecretFromManager w p k = (value, nil) ->
         secretField k c = withDefault k value) /\
      (snd (config.fetchSecretFromManager w p k) <> nil ->
       ConfigOptions.FallbackToEnv options = true -> getenv s1 e <> "" ->
       secretField k c = getenv s1 e) /\
      (snd (config.fetchSecretFromManager w p k) <> nil ->
       ConfigOptions.FallbackToEnv options = false ->
       secretField k c = withDefault k "").
Proof.
  intros Ho Hm Hperm Hr s1 p.
  destruct (LoadEnvWithOptions_run w options s Ho) as (s0 & _ & He & Hrun).
  rewrite Hrun in Hr. unfold bind in Hr.
  destruct (config.loadAndAssign w options (firstConfig w options s) s0)
    as [[] s2| |] eqn:Hl; try discriminate.
  injection Hr as <-.
  assert (Hp0 : secretProject options s0 = p)
    by (apply secretProject_environ, He).
  split.
  { rewrite <- Hp0.
    apply (secret_load_returned w options (firstConfig w options s) s0 s2 Hm Hl). }
  destruct (secret_fields w options (firstConfig w options s) s0 s2 Hm Hperm Hl)
    as (c & Hc & Hf & _).
  exists c. split; [exact Hc|].
  intros k e Hin. rewrite (Hf k e Hin), Hp0.
  rewrite (secretOrEnv_environ w options s1 s0 p k e He).
  unfold secretOrEnv.
  destruct (config.fetchSecretFromManager w p k) as [v [err|]]; cbn [snd].
  - split; [intros value [=]|]. split.
    + intros _ -> Hne. cbn [negb]. apply String.eqb_neq in Hne.
      rewrite Hne. cbn [fst]. unfold withDefault.
      rewrite Hne, andb_false_r. reflexivity.
    + intros _ ->. reflexivity.
  - split; [intros value [= ->]; reflexivity|].
    split; intros H; now destruct H.
Qed.

Lemma X9_secret_resolution_order_witness :
  exists c,
    Config (stateOf (config.LoadEnvWithOptions sampleOracle secretOptions
                       (startState (<["JWT_SECRET" := "from-env"]> sampleEnv))))
    = Some c /\
    JWTSecret c = "s3cret" /\ MongoURI c = "mongodb://localhost:27017".
Proof.
  pose (s := startState (<["JWT_SECRET" := "from-env"]> sampleEnv)).
  destruct (X9_secret_resolution_order sampleOracle secretOptions s
              (stateOf (config.LoadEnvWithOptions sampleOracle secretOptions s)))
    as (_ & c & Hc & H).
  - reflexivity.
  - reflexivity.
  - refine (bool_decide_unpack _ _). vm_compute. exact I.
  - vm_compute. reflexivity.
  - exists c. split; [exact Hc|]. split.
    + destruct (H "jwt-secret" "JWT_SECRET") as (H1 & _); [cbn; tauto|].
      apply (H1 "s3cret"). vm_compute. reflexivity.
    + destruct (H "mongo-uri" "MONGO_URI") as (_ & H2 & _); [cbn; tauto|].
      etransitivity; [apply H2|]; vm_compute; try reflexivity; discriminate.
Defined.

Lemma envOr_nonempty s key fallback : fallback <> "" -> envOr s key fallback <> "".
Proof.
  intros H. unfold envOr. destruct (String.eqb (getenv s key) "") eqn:E.
  - exact H.
  - now apply String.eqb_neq in E.
Qed.

Lemma withDefault_db_name value : withDefault "db-name" value <> "".
Proof.
  unfold withDefault. cbn [String.eqb Ascii.eqb Bool.eqb andb].
  destruct (String.eqb value "") eqn:E; [discriminate|].
  now apply String.eqb_neq in E.
Qed.

(** A second half that returned worked in one of the two modes. *)
Lemma loadAndAssign_mode w options config s s' :
  config.loadAndAssign w options config s = Ret tt s' ->
  Mode config = ModeBasic \/ Mode config = ModeSecretManager.
Proof.
  unfold config.loadAndAssign.
  destruct (String.eqb (Mode config) ModeSecretManager) eqn:E1;
    [apply String.eqb_eq in E1; now right|].
  destruct (String.eqb (Mode config) ModeBasic) eqn:E2;
    [apply String.eqb_eq in E2; now left|].
  rewrite bind_ret. discriminate.
Qed.

(** X10.
    The loaded database name is never empty, in either mode and whatever
    the secret store and the environment hold: where no name is found the
    default [mrexperiences_service] stands in, so [GetDBName] returns a
    name. *)
Theorem X10_database_name_never_empty w options s s' :
  once s = false ->
  Permutation (secretMapOrder w) config.secretMap ->
  config.LoadEnvWithOptions w options s = Ret tt s' ->
  exists c,
    Config s' = Some c /\ DBName c <> "" /\
    config.GetDBName s' = Ret (DBName c) s'.
Proof.
  intros Ho Hperm Hr.
  destruct (LoadEnvWithOptions_run w options s Ho) as (s1 & _ & He & Hrun).
  rewrite Hrun in Hr. unfold bind in Hr.
  destruct (config.loadAndAssign w options (firstConfig w options s) s1)
    as [[] s2| |] eqn:Hl; try discriminate.
  injection Hr as <-.
  assert (H : exists c, Config s2 = Some c /\ DBName c <> "").
  { destruct (loadAndAssign_mode _ _ _ _ _ Hl) as [Hm | Hm].
    - revert Hl. unfold config.loadAndAssign. rewrite Hm.
      change (String.eqb ModeBasic ModeSecretManager) with false.
      change (String.eqb ModeBasic ModeBasic) with true. cbv iota.
      destruct (loadBasicConfig_value (firstConfig w options s) s1)
        as (c & s3 & Hb & _ & _ & Hdb & _).
      rewrite (bind_Ret _ _ _ _ _ Hb). cbv beta iota. intros [= <-].
      exists c. split; [reflexivity|]. rewrite Hdb.
      apply envOr_nonempty. discriminate.
    - destruct (secret_fields w options _ s1 s2 Hm Hperm Hl)
        as (c & Hc & Hf & _).
      exists c. split; [exact Hc|].
      specialize (Hf "db-name" "DB_NAME"). cbn in Hf.
      rewrite Hf by tauto. apply withDefault_db_name. }
  destruct H as (c & Hc & Hne). exists c.
  split; [exact Hc|]. split; [exact Hne|].
  unfold config.GetDBName, bind, gets. cbn [Config set_once]. now rewrite Hc.
Qed.

Lemma X10_database_name_never_empty_witness :
  exists c,
    Config (stateOf (config.LoadEnvWithOptions sampleOracle secretOptions
                       (startState sampleEnv)))
    = Some c /\ DBName c <> "".
Proof.
  destruct (X10_database_name_never_empty sampleOracle secretOptions
              (startState sampleEnv)
              (stateOf (config.LoadEnvWithOptions sampleOracle secretOptions
                          (startState sampleEnv))))
    as (c & Hc & Hne & _).
  - reflexivity.
  - refine (bool_decide_unpack _ _). vm_compute. exact I.
  - vm_compute. reflexivity.
  - exists c. split; assumption.
Defined.

(** A variable the process has with a value keeps it when [.env] is read. *)
Lemma getenv_kept w s k :
  getenv s k <> "" -> getenv (afterDotenv w s) k = getenv s k.
Proof.
  intros H. unfold getenv in *. cbn [afterDotenv environ set_environ].
  unfold loadEnviron.
  destruct (String.eqb _ "development"); [|reflexivity].
  destruct (dotenvFile w) as [vars|e]; [|reflexivity].
  destruct (environ s !! k) as [v|] eqn:E; [|now destruct H].
  now rewrite (lookup_union_Some_l _ vars _ _ E).
Qed.

(** X11.
    [LoadEnv], the load with the default options, ends the process in one
    case only: [USE_SECRET_MANAGER] is [true] and [GOOGLE_CLOUD_PROJECT] is
    empty, also once [.env] was looked for. In every other case it returns
    with [Config] assigned, whatever the secret store answers: with no
    required secret, a secret that cannot be read fails nothing. *)
Theorem X11_LoadEnv_failure_condition w s :
  once s = false ->
  let noProject :=
    getenv s "USE_SECRET_MANAGER" = "true" /\
    getenv (afterDotenv w s) "GOOGLE_CLOUD_PROJECT" = "" in
  (noProject -> exists s', config.LoadEnv w s = Exit 1 s') /\
  (~ noProject ->
   exists c s', config.LoadEnv w s = Ret tt s' /\ Config s' = Some c).
Proof.
  intros Ho noProject. unfold config.LoadEnv.
  set (options := ConfigOptions.mk ModeAuto false "" [] [] true).
  assert (Hem : effectiveMode options s = specAutoMode s) by reflexivity.
  split.
  - intros [Huse Hgcp].
    assert (Hs : getenv s "GOOGLE_CLOUD_PROJECT" = "").
    { destruct (String.eqb (getenv s "GOOGLE_CLOUD_PROJECT") "") eqn:E;
        [now apply String.eqb_eq in E|].
      apply String.eqb_neq in E. now rewrite <- (getenv_kept w s _ E). }
    destruct (no_project_exit w options s Ho) as (s' & Hr & _);
      [|reflexivity|exact Hgcp|eauto].
    rewrite Hem. unfold specAutoMode. rewrite Hs, Huse. reflexivity.
  - intros Hno.
    destruct (LoadEnvWithOptions_run w options s Ho) as (s1 & _ & He & Hrun).
    rewrite Hrun. unfold bind at 1.
    assert (Hmode : Mode (firstConfig w options s) = specAutoMode s)
      by reflexivity.
    unfold specAutoMode in Hmode.
    destruct (negb (String.eqb (getenv s "GOOGLE_CLOUD_PROJECT") "")
              || String.eqb (getenv s "USE_SECRET_MANAGER") "true") eqn:Ed.
    + assert (Hp : secretProject options s1 <> "").
      { unfold secretProject. cbn [ConfigOptions.SecretManagerProject options].
        cbn [String.eqb]. rewrite (getenv_afterDotenv w s s1 _ He).
        destruct (String.eqb (getenv s "GOOGLE_CLOUD_PROJECT") "") eqn:E.
        - cbn in Ed. apply String.eqb_eq in Ed. intros Hgcp. apply Hno.
          split; assumption.
        - apply String.eqb_neq in E. now rewrite (getenv_kept w s _ E). }
      destruct (loadAndAssign_secret_succeeds w options
                  (firstConfig w options s) s1 Hmode Hp)
        as (c & s' & Hr & Hc & _).
      { intros k e _ Hreq. discriminate. }
      rewrite Hr. exists c. eexists. split; [reflexivity | exact Hc].
    + destruct (loadAndAssign_basic w options (firstConfig w options s) s1 Hmode)
        as (c & s' & Hr & Hc & _).
      rewrite Hr. exists c. eexists. split; [reflexivity | exact Hc].
Qed.

Lemma X11_LoadEnv_failure_condition_witness :
  (exists s',
     config.LoadEnv sampleOracle
       (startState (<["USE_SECRET_MANAGER" := "true"]> sampleEnv))
     = Exit 1 s') /\
  (exists c s',
     config.LoadEnv sampleOracle
       (startState (<["GOOGLE_CLOUD_PROJECT" := "nowhere"]> sampleEnv))
     = Ret tt s' /\ Config s' = Some c).
Proof.
  split.
  - apply (X11_LoadEnv_failure_condition sampleOracle
             (startState (<["USE_SECRET_MANAGER" := "true"]> sampleEnv))
             eq_refl).
    split; vm_compute; reflexivity.
  - apply (X11_LoadEnv_failure_condition sampleOracle
             (startState (<["GOOGLE_CLOUD_PROJECT" := "nowhere"]> sampleEnv))
             eq_refl).
    intros [H _]. vm_compute in H. discriminate.
Defined.

(** X12.
    In Secret Manager mode the loaded [AllowedOrigins] follows the same
    rule as in basic mode: the value of [ALLOWED_ORIGINS] when that is not
    empty, and otherwise the production domain for [production], the
    staging domain for [staging] and the localhost pair for any other
    environment name. The secret store is not asked for it. *)
Theorem X12_secret_mode_allowed_origins w options s s' :
  once s = false ->
  effectiveMode options s = ModeSecretManager ->
  config.LoadEnvWithOptions w options s = Ret tt s' ->
  exists c,
    Config s' = Some c /\
    let allowed := getenv s' "ALLOWED_ORIGINS" in
    (allowed <> "" -> AllowedOrigins c = allowed) /\
    (allowed = "" ->
     (AppEnv c = "production" ->
      AllowedOrigins c = "https://your-production-domain.com") /\
     (AppEnv c = "staging" ->
      AllowedOrigins c = "https://staging.your-domain.com") /\
     (AppEnv c <> "production" -> AppEnv c <> "staging" ->
      AllowedOrigins c = "http://localhost:5173,http://127.0.0.1:5173")).
Proof.
  intros Ho Hm Hr.
  destruct (LoadEnvWithOptions_run w options s Ho) as (s1 & _ & He & Hrun).
  rewrite Hrun in Hr. unfold bind in Hr.
  destruct (config.loadAndAssign w options (firstConfig w options s) s1)
    as [[] s2| |] eqn:Hl; try discriminate.
  injection Hr as <-.
  destruct (secret_load_returned w options (firstConfig w options s) s1 s2
              Hm Hl) as [Hp Hreq].
  destruct (loadAndAssign_secret_succeeds w options (firstConfig w options s)
              s1 Hm Hp Hreq)
    as (c & s3 & Hr & Hc & He' & _ & _ & _ & _ & _ & _ & Ha & Horig).
  rewrite Hr in Hl. injection Hl as <-.
  exists c. split; [exact Hc|]. cbv zeta.
  assert (Hg : getenv (set_once true s3) "ALLOWED_ORIGINS"
               = getenv s1 "ALLOWED_ORIGINS")
    by (apply getenv_environ; exact He').
  rewrite Hg, Horig, <- Ha. unfold config.getDefaultAllowedOrigins.
  split.
  - intros Hne. apply String.eqb_neq in Hne. now rewrite Hne.
  - intros ->. cbn [String.eqb]. repeat split.
    + now intros ->.
    + now intros ->.
    + intros H1 H2. apply String.eqb_neq in H1, H2. now rewrite H1, H2.
Qed.

Lemma X12_secret_mode_allowed_origins_witness :
  exists c,
    Config (stateOf (config.LoadEnvWithOptions sampleOracle secretOptions
                       (startState sampleEnv)))
    = Some c /\
    AllowedOrigins c = "https://your-production-domain.com".
Proof.
  destruct (X12_secret_mode_allowed_origins sampleOracle secretOptions
              (startState sampleEnv)
              (stateOf (config.LoadEnvWithOptions sampleOracle secretOptions
                          (startState sampleEnv))))
    as (c & Hc & _ & H).
  - reflexivity.
  - reflexivity.
  - vm_compute. reflexivity.
  - exists c. split; [exact Hc|].
    apply H; [vm_compute; reflexivity|].
    assert (Hv := Hc). vm_compute in Hv. injection Hv as <-. reflexivity.
Defined.

(* ------------------------------------------------------------------ *)
(** ** The database connection *)
(* ------------------------------------------------------------------ *)

Lemma GetMongoURI_eq s c :
  Config s = Some c -> config.GetMongoURI s = Ret (MongoURI c) s.
Proof. intros H. unfold config.GetMongoURI, bind, gets. now rewrite H. Qed.

Lemma GetDBName_eq s c :
  Config s = Some c -> config.GetDBName s = Ret (DBName c) s.
Proof. intros H. unfold config.GetDBName, bind, gets. now rewrite H. Qed.

Lemma IsSecretManagerEnabled_eq s c :
  Config s = Some c ->
  config.IsSecretManagerEnabled s
  = Ret (String.eqb (Mode c) ModeSecretManager) s.
Proof.
  intros H.
  unfold config.IsSecretManagerEnabled, config.GetConfigMode, bind, gets.
  now rewrite H.
Qed.

Lemma Fatal_eq {A} line s :
  @log.Fatal A line s = Exit 1 (set_stderr (stderr s ++ [line]) s).
Proof. reflexivity. Qed.

Section Database.
Variable d : Driver.

(** [ConnectDB] with the configuration loaded and a URI in it, up to the
    call of the driver. *)
Lemma ConnectDB_eq s c :
  Config s = Some c -> MongoURI c <> "" ->
  let s0 :=
    set_stderr (stderr s ++ ["🔗 Connecting to MongoDB database: " ++ DBName c])
      s in
  let clientOptions :=
    mkClientOptions (MongoURI c) 10000000000 5000000000 30000000000 10 2
      30000000000 in
  database.ConnectDB d s
  = match Connect d 10000000000 clientOptions with
    | inr err =>
        Exit 1 (set_stderr
                  (stderr s0 ++ ["❌ Failed to create MongoDB client: " ++ err])
                  s0)
    | inl client =>
        match Ping d 5000000000 client with
        | Some err =>
            Exit 1 (set_stderr
                      (stderr s0 ++ ["❌ Failed to connect to MongoDB: " ++ err])
                      s0)
        | None =>
            let s1 := set_DB (Some client) s0 in
            let configMode :=
              if String.eqb (Mode c) ModeSecretManager
              then "Secret Manager (cached)" else "environment variables" in
            let s2 :=
              set_stdout
                (stdout s1 ++ ["✅ Connected to MongoDB database: " ++ DBName c
                               ++ " (using " ++ configMode ++ ")"]) s1 in
            Ret tt
              (set_stderr
                 (stderr s2
                  ++ ["🚀 Database connection pool configured and ready"])
                 s2)
        end
    end.
Proof.
  intros Hc Hne s0 clientOptions. unfold database.ConnectDB.
  unfold bind at 1. unfold gets at 1. rewrite Hc. rewrite bind_ret.
  rewrite (bind_Ret _ _ _ _ _ (GetMongoURI_eq s c Hc)). cbv beta.
  rewrite (bind_Ret _ _ _ _ _ (GetDBName_eq s c Hc)). cbv beta.
  apply String.eqb_neq in Hne. rewrite Hne. rewrite bind_ret. mstep.
  fold s0. change (utils.Second) with 1000000000%Z.
  change (10 * 1000000000)%Z with 10000000000%Z.
  change (5 * 1000000000)%Z with 5000000000%Z.
  change (30 * 1000000000)%Z with 30000000000%Z.
  fold clientOptions.
  destruct (Connect d 10000000000 clientOptions) as [client|err].
  - destruct (Ping d 5000000000 client) as [err|].
    + reflexivity.
    + unfold modify at 1. unfold bind at 1.
      rewrite (bind_Ret _ _ _ _ _
                 (IsSecretManagerEnabled_eq (set_DB (Some client) s0) c Hc)).
      reflexivity.
  - reflexivity.
Qed.

End Database.

(** X13.
    [ConnectDB] needs a loaded configuration with a MongoDB URI in it:
    before the load, or with an empty [MongoURI] (which a load in basic mode
    leaves when [MONGO_URI] is not set), it ends the process with status 1
    before any connection is tried, leaving [DB] as it was, whatever the
    driver would answer. *)
Theorem X13_ConnectDB_needs_configuration d s :
  (Config s = None ->
   database.ConnectDB d s
   = Exit 1
       (set_stderr
          (stderr s
           ++ ["❌ Configuration not loaded. Call LoadEnv() first before ConnectDB()"])
          s)) /\
  (forall c,
     Config s = Some c -> MongoURI c = "" ->
     database.ConnectDB d s
     = Exit 1
         (set_stderr
            (stderr s
             ++ ["❌ MongoDB URI is required. Please set MONGO_URI environment variable or configure Secret Manager"])
            s)).
Proof.
  split.
  - intros Hc. unfold database.ConnectDB.
    unfold bind at 1. unfold gets at 1. rewrite Hc.
    unfold bind. rewrite Fatal_eq. reflexivity.
  - intros c Hc Hu. unfold database.ConnectDB.
    unfold bind at 1. unfold gets at 1. rewrite Hc. rewrite bind_ret.
    rewrite (bind_Ret _ _ _ _ _ (GetMongoURI_eq s c Hc)). cbv beta.
    rewrite (bind_Ret _ _ _ _ _ (GetDBName_eq s c Hc)). cbv beta.
    rewrite Hu. cbn [String.eqb]. unfold bind. rewrite Fatal_eq. reflexivity.
Qed.

Lemma X13_ConnectDB_needs_configuration_witness :
  exists s',
    database.ConnectDB sampleDriver
      (stateOf (config.LoadEnvWithOptions sampleOracle basicOptions
                  (startState devEnv)))
    = Exit 1 s' /\ DB s' = None.
Proof.
  pose (s := stateOf (config.LoadEnvWithOptions sampleOracle basicOptions
                        (startState devEnv))).
  destruct (X13_ConnectDB_needs_configuration sampleDriver s) as [_ H].
  eexists. split.
  - eapply H; vm_compute; reflexivity.
  - reflexivity.
Defined.

(** X14.
    With the configuration loaded and a URI in it, [ConnectDB] assigns [DB]
    exactly when the driver both makes the client and answers the ping: it
    connects with the cached URI, leaves [Config] alone, and from then on
    [GetCollection] hands out collections of the cached database name and
    [HealthCheckDB] is the ping of that client. When the client cannot be
    made or the ping fails, the process ends with status 1 and [DB] is as
    it was. *)
Theorem X14_ConnectDB_outcome d s c :
  Config s = Some c -> MongoURI c <> "" ->
  let clientOptions :=
    mkClientOptions (MongoURI c) 10000000000 5000000000 30000000000 10 2
      30000000000 in
  (forall client,
     Connect d 10000000000 clientOptions = inl client ->
     Ping d 5000000000 client = nil ->
     exists s',
       database.ConnectDB d s = Ret tt s' /\
       DB s' = Some client /\ Config s' = Config s /\
       (forall name,
          config.GetCollection name s'
          = Ret (mkCollection client (DBName c) name) s') /\
       database.GetDatabase s' = Ret (mkDatabase client (DBName c)) s' /\
       database.HealthCheckDB d s' = Ret (Ping d 3000000000 client) s') /\
  (forall client err,
     Connect d 10000000000 clientOptions = inl client ->
     Ping d 5000000000 client = Some err ->
     exists s',
       database.ConnectDB d s = Exit 1 s' /\ DB s' = DB s /\
       lastLog s' = Some ("❌ Failed to connect to MongoDB: " ++ err)) /\
  (forall err,
     Connect d 10000000000 clientOptions = inr err ->
     exists s',
       database.ConnectDB d s = Exit 1 s' /\ DB s' = DB s /\
       lastLog s' = Some ("❌ Failed to create MongoDB client: " ++ err)).
Proof.
  intros Hc Hne clientOptions.
  pose proof (ConnectDB_eq d s c Hc Hne) as H. cbv zeta in H.
  fold clientOptions in H. rewrite H. clear H.
  split; [|split].
  - intros client -> ->. eexists. split; [reflexivity|].
    split; [reflexivity|]. split; [reflexivity|].
    unfold config.GetCollection, database.GetDatabase, database.HealthCheckDB,
      config.GetDBName, bind, gets.
    cbn [DB Config set_stderr set_stdout set_DB]. rewrite Hc.
    split; [|split]; reflexivity.
  - intros client err -> ->. eexists. split; [reflexivity|].
    split; [reflexivity | apply last_log].
  - intros err ->. eexists. split; [reflexivity|].
    split; [reflexivity | apply last_log].
Qed.

Lemma X14_ConnectDB_outcome_witness :
  exists s',
    database.ConnectDB sampleDriver loadedState = Ret tt s' /\
    DB s' = Some (mkMongoClient "mongodb://localhost:27017") /\
    config.GetCollection "oms_audit_logs" s'
    = Ret (mkCollection (mkMongoClient "mongodb://localhost:27017")
             "mrexperiences_service" "oms_audit_logs") s'.
Proof.
  assert (Hc : exists c, Config loadedState = Some c /\
                         MongoURI c = "mongodb://localhost:27017" /\
                         DBName c = "mrexperiences_service").
  { vm_compute. eexists. repeat split. }
  destruct Hc as (c & Hc & Hu & Hn).
  destruct (X14_ConnectDB_outcome sampleDriver loadedState c Hc) as [H _].
  - rewrite Hu. discriminate.
  - destruct (H (mkMongoClient "mongodb://localhost:27017"))
      as (s' & Hr & Hdb & _ & Hcoll & _).
    + cbn. now rewrite Hu.
    + reflexivity.
    + exists s'. split; [exact Hr|]. split; [exact Hdb|].
      rewrite <- Hn. apply Hcoll.
Defined.

(** X15.
    [DisconnectDB] always returns and leaves [DB] nil, also when the driver
    reports an error on disconnecting; with [DB] nil already it does
    nothing, so calling it twice is calling it once. Afterwards
    [HealthCheckDB] reports that the database is not connected, without a
    ping, and [GetCollection] and [GetDatabase] end the process. *)
Theorem X15_DisconnectDB_closes d s :
  exists s',
    database.DisconnectDB d s = Ret tt s' /\
    DB s' = None /\ Config s' = Config s /\ store s' = store s /\
    (DB s = None -> s' = s) /\
    database.DisconnectDB d s' = Ret tt s' /\
    database.HealthCheckDB d s' = Ret (Some "database not connected") s' /\
    (forall name, exists s'', config.GetCollection name s' = Exit 1 s'') /\
    (exists s'', database.GetDatabase s' = Exit 1 s'').
Proof.
  assert (Hafter : forall s', DB s' = None ->
    database.DisconnectDB d s' = Ret tt s' /\
    database.HealthCheckDB d s' = Ret (Some "database not connected") s' /\
    (forall name, exists s'', config.GetCollection name s' = Exit 1 s'') /\
    (exists s'', database.GetDatabase s' = Exit 1 s'')).
  { intros s' H.
    unfold database.DisconnectDB, database.HealthCheckDB,
      config.GetCollection, database.GetDatabase, bind, gets.
    rewrite H. repeat split; try intros name; eexists; reflexivity. }
  unfold database.DisconnectDB. unfold bind at 1. unfold gets at 1.
  destruct (DB s) as [client|] eqn:Hd.
  - destruct (Disconnect d (5 * utils.Second) client) as [err|];
      unfold log.Printf; mstep; unfold modify;
      (eexists; split; [reflexivity|]);
      (split; [reflexivity|]); (split; [reflexivity|]);
      (split; [reflexivity|]); (split; [discriminate|]);
      apply Hafter; reflexivity.
  - exists s. split; [reflexivity|]. split; [exact Hd|].
    split; [reflexivity|]. split; [reflexivity|]. split; [reflexivity|].
    apply Hafter, Hd.
Qed.

(* ------------------------------------------------------------------ *)
(** ** Reading the audit trail *)
(* ------------------------------------------------------------------ *)

(** [GetAuditLogs], run with the database connected: one [Find] on the audit
    collection of the cached database, and nothing of the state touched. *)
Lemma GetAuditLogs_eq d filter s client c :
  DB s = Some client -> Config s = Some c ->
  auditlog.GetAuditLogs d filter s
  = Ret (match Find d 10000000000
                 (mkCollection client (DBName c) "oms_audit_logs") filter
                 (store s) with
         | inr err => ([], Some err)
         | inl cursor =>
             match All cursor with
             | inr err => ([], Some err)
             | inl logs => (logs, nil)
             end
         end) s.
Proof.
  intros Hd Hc. unfold auditlog.GetAuditLogs.
  rewrite (bind_Ret _ _ _ _ _ (GetCollection_eq s client c _ Hd Hc)).
  cbv beta zeta. unfold gets at 1. unfold bind.
  change (10 * utils.Second)%Z with 10000000000%Z.
  destruct (Find d _ _ _ _) as [cursor|err]; [|reflexivity].
  destruct (All cursor); reflexivity.
Qed.

Lemma GetAuditLogs_disconnected d filter s :
  DB s = None ->
  auditlog.GetAuditLogs d filter s
  = Exit 1
      (set_stderr
         (stderr s ++ ["❌ Database not connected. Call ConnectDB() first"]) s).
Proof.
  intros Hd. unfold auditlog.GetAuditLogs, config.GetCollection.
  rewrite bind_bind. unfold gets at 1. unfold bind at 1. rewrite Hd.
  unfold bind. rewrite Fatal_eq. reflexivity.
Qed.

Lemma matches_empty doc : matches ∅ doc = true.
Proof. unfold matches. now rewrite map_to_list_empty. Qed.

Lemma filter_matches_empty l : List.filter (matches ∅) l = l.
Proof.
  induction l as [|x l IH]; [reflexivity|].
  cbn [List.filter]. now rewrite matches_empty, IH.
Qed.

Lemma matches_singleton key value doc :
  matches {[ key := IString value ]} doc
  = match bsonField key doc with
    | Some y => String.eqb value y
    | None => false
    end.
Proof.
  unfold matches. rewrite map_to_list_singleton. cbn.
  destruct (bsonField key doc); [apply andb_true_r | reflexivity].
Qed.

(** X16.
    Recording, then querying, with a store that keeps what is inserted and a
    [Find] that returns the matching entries in insertion order: the entry
    [LogAudit] wrote is the last one of the unfiltered query, of the query
    by its target and of the query by its actor, each time behind the
    entries that matched before; a query for another target does not
    see it. Writer and reader address the same collection. *)
Theorem X16_record_then_query w d adminID action targetID s client c :
  DB s = Some client -> Config s = Some c ->
  (forall ctx coll doc st,
     InsertOne w ctx coll doc st = keepingInsertOne ctx coll doc st) ->
  (forall ctx coll filter st,
     Find d ctx coll filter st
     = inl (mkCursor
              (inl (List.filter (matches filter) (auditEntries coll st))))) ->
  let entry := auditEntry w s adminID action targetID in
  let coll := mkCollection client (DBName c) "oms_audit_logs" in
  let before filter :=
    List.filter (matches filter) (auditEntries coll (store s)) in
  exists s1,
    utils.LogAudit w adminID action targetID s = Ret tt s1 /\
    auditlog.GetAuditLogs d ∅ s1
    = Ret ((auditEntries coll (store s) ++ [entry])%list, nil) s1 /\
    auditlog.GetAuditLogs d {[ "target_id" := IString targetID ]} s1
    = Ret ((before {[ "target_id" := IString targetID ]} ++ [entry])%list,
           nil) s1 /\
    auditlog.GetAuditLogs d {[ "admin_id" := IString adminID ]} s1
    = Ret ((before {[ "admin_id" := IString adminID ]} ++ [entry])%list,
           nil) s1 /\
    forall other,
      other <> targetID ->
      auditlog.GetAuditLogs d {[ "target_id" := IString other ]} s1
      = Ret (before {[ "target_id" := IString other ]}, nil) s1.
Proof.
  intros Hd Hc Hins Hfind entry coll before.
  pose proof (LogAudit_eq w adminID action targetID s client c Hd Hc) as Hl.
  cbv zeta in Hl. fold entry coll in Hl. rewrite Hins in Hl.
  cbn [keepingInsertOne fst snd] in Hl. cbv delta [nil] iota in Hl.
  eexists. split; [exact Hl|].
  set (s1 := set_store _ _).
  assert (Hd1 : DB s1 = Some client) by exact Hd.
  assert (Hc1 : Config s1 = Some c) by exact Hc.
  assert (Hst : auditEntries coll (store s1)
                = (auditEntries coll (store s) ++ [entry])%list).
  { unfold auditEntries, s1. cbn [store set_store set_objectIDCounter].
    unfold Store. now rewrite lookup_insert_eq. }
  assert (Hq : forall filter,
    auditlog.GetAuditLogs d filter s1
    = Ret ((before filter
            ++ (if matches filter entry then [entry] else []))%list, nil) s1).
  { intros filter. rewrite (GetAuditLogs_eq d filter s1 client c Hd1 Hc1).
    fold coll. rewrite Hfind. cbn [All]. rewrite Hst.
    rewrite List.filter_app. cbn [List.filter]. reflexivity. }
  split; [|split; [|split]].
  - rewrite Hq, matches_empty. unfold before.
    now rewrite filter_matches_empty.
  - rewrite Hq, matches_singleton. cbn. now rewrite String.eqb_refl.
  - rewrite Hq, matches_singleton. cbn. now rewrite String.eqb_refl.
  - intros other Hne. rewrite Hq, matches_singleton. cbn.
    apply String.eqb_neq in Hne. rewrite Hne. now rewrite app_nil_r.
Qed.

Lemma X16_record_then_query_witness :
  exists s1 entry,
    utils.LogAudit sampleOracle "admin1" "delete_user" "user42" connectedState
    = Ret tt s1 /\
    auditlog.GetAuditLogs sampleDriver {[ "target_id" := IString "user42" ]} s1
    = Ret ([entry], nil) s1 /\
    AdminID entry = "admin1" /\ Action entry = "delete_user" /\
    TargetID entry = "user42".
Proof.
  assert (Hc : exists c, Config connectedState = Some c /\
                         DBName c = "mrexperiences_service").
  { vm_compute. eexists. split; reflexivity. }
  destruct Hc as (c & Hc & Hn).
  destruct (X16_record_then_query sampleOracle sampleDriver "admin1" "delete_user"
              "user42" connectedState
              (mkMongoClient "mongodb://localhost:27017") c)
    as (s1 & Hl & _ & Ht & _); try reflexivity; try exact Hc.
  exists s1. eexists. split; [exact Hl|]. split; [exact Ht|].
  repeat split.
Defined.

(* ------------------------------------------------------------------ *)
(** ** The middleware, the handlers and the routes *)
(* ------------------------------------------------------------------ *)

Lemma assertStringOk_true v role :
  assertStringOk v = (role, true) <-> v = IString role.
Proof.
  destruct v; cbn; try (split; [intros [=] | discriminate]).
  split; [now intros [= ->] | now intros [= ->]].
Qed.

Lemma AdminOnly_role (c : Ctx) s r :
  ctx_Local c "role" = IString r ->
  roles.AdminOnly c s
  = Ret (if String.eqb r "admin" || String.eqb r "super_admin" then Next c
         else Response 403 (errorBody "Admin privileges required")) s.
Proof.
  intros H. unfold roles.AdminOnly. rewrite H. cbn [assertStringOk negb orb].
  destruct (String.eqb r "admin"), (String.eqb r "super_admin"); reflexivity.
Qed.

(** X17.
    The role gates. [AdminOnly] lets a request through, unchanged, exactly
    when the [role] local is the string [admin] or [super_admin], and
    [SuperAdminOnly] exactly when it is [super_admin]; a request with
    another role, with no role or with a role that is not a string is
    answered with 403. Whatever passes [SuperAdminOnly] passes
    [AdminOnly]. Neither gate touches the state. *)
Theorem X17_role_gates c s :
  let role := ctx_Local c "role" in
  let admin : Prop := role = IString "admin" \/ role = IString "super_admin" in
  (admin -> roles.AdminOnly c s = Ret (Next c) s) /\
  (~ admin ->
   roles.AdminOnly c s
   = Ret (Response 403 (errorBody "Admin privileges required")) s) /\
  (role = IString "super_admin" ->
   roles.SuperAdminOnly c s = Ret (Next c) s) /\
  (role <> IString "super_admin" ->
   roles.SuperAdminOnly c s
   = Ret (Response 403 (errorBody "Super admin privileges required")) s) /\
  (roles.SuperAdminOnly c s = Ret (Next c) s ->
   roles.AdminOnly c s = Ret (Next c) s).
Proof.
  intros role admin. unfold roles.AdminOnly, roles.SuperAdminOnly.
  fold role. unfold admin.
  destruct role as [| |r| | | |]; cbn [assertStringOk negb orb];
    try (split; [intros [H|H]; discriminate H|];
         split; [reflexivity|];
         split; [discriminate|];
         split; [reflexivity | discriminate]).
  destruct (String.eqb r "admin") eqn:Ea;
    [apply String.eqb_eq in Ea | apply String.eqb_neq in Ea];
    (destruct (String.eqb r "super_admin") eqn:Es;
     [apply String.eqb_eq in Es | apply String.eqb_neq in Es]);
    cbn [negb andb orb]; subst.
  - discriminate.
  - split; [reflexivity|]. split; [intros H; destruct H; now left|].
    split; [discriminate|]. split; [reflexivity | discriminate].
  - split; [reflexivity|]. split; [intros H; destruct H; now right|].
    split; [reflexivity|]. split; [intros H; now destruct H | reflexivity].
  - split; [intros [H|H]; congruence|]. split; [reflexivity|].
    split; [congruence|]. split; [reflexivity | discriminate].
Qed.

Section Auth.
Variable w : Oracle.
Variable lib : jwt.Library.

(** Both versions of [AuthMiddleware], once the header is there: what
    [ParseWithClaims] returned decides. *)
Lemma AuthMiddleware_parsed (c : Ctx) s :
  ctx_Get c "Authorization" <> "" ->
  forall r,
    jwt.ParseWithClaims w lib (ctx_Get c "Authorization") utils.keyFunc s
    = Ret r s ->
    middleware.AuthMiddleware w lib c s
    = match r with
      | inr (_, err) =>
          Ret (Response StatusUnauthorized (errorBody "Invalid token"))
            (set_stdout (stdout s ++ [err]) s)
      | inl token =>
          let claims := jwt.Claims token in
          (let* userID := assertString (index claims "user_id") in
           let* organizationID :=
             assertString (index claims "organization_id") in
           let '(role, _) := assertStringOk (index claims "role") in
           let c := ctx_Locals "user_id" (IString userID) c in
           let c := ctx_Locals "organization_id" (IString organizationID) c in
           let c := ctx_Locals "role" (IString role) c in
           ret (Next c)) s
      end /\
    middleware0.AuthMiddleware w lib c s
    = match r with
      | inr (_, err) =>
          Ret (Response StatusUnauthorized (errorBody "Invalid token"))
            (set_stdout (stdout s ++ [err]) s)
      | inl token =>
          let claims := jwt.Claims token in
          (let* userID := assertString (index claims "user_id") in
           let* organizationID :=
             assertString (index claims "organization_id") in
           let c := ctx_Locals "user_id" (IString userID) c in
           let c := ctx_Locals "organization_id" (IString organizationID) c in
           ret (Next c)) s
      end.
Proof.
  intros Hne r Hr. apply String.eqb_neq in Hne.
  unfold middleware.AuthMiddleware, middleware0.AuthMiddleware.
  rewrite Hne. rewrite !(bind_Ret _ _ _ _ _ Hr).
  destruct r as [token | [token err]]; split; reflexivity.
Qed.

(** A token [ParseWithClaims] accepts. *)
Lemma ParseWithClaims_good tokenString s t :
  goodToken w lib s tokenString t ->
  exists token,
    jwt.ParseWithClaims w lib tokenString utils.keyFunc s = Ret (inl token) s /\
    jwt.Claims token = jwt.Claims t /\ jwt.Valid token = true.
Proof.
  intros (p0 & p1 & p2 & Hp & Hv & Hc).
  rewrite (ParseWithClaims_eq w lib tokenString s), Hp. cbv beta iota zeta.
  rewrite Hv, Hc. cbv beta iota delta [nil].
  eexists. split; [reflexivity|]. split; reflexivity.
Qed.

Lemma AuthMiddleware_no_header (c : Ctx) s :
  ctx_Get c "Authorization" = "" ->
  middleware.AuthMiddleware w lib c s
  = Ret (Response 401 (errorBody "Unauthorized")) s /\
  middleware0.AuthMiddleware w lib c s
  = Ret (Response 401 (errorBody "Unauthorized")) s.
Proof.
  intros He. unfold middleware.AuthMiddleware, middleware0.AuthMiddleware.
  rewrite He. split; reflexivity.
Qed.

(** Both versions on a token that is accepted and names its user and
    organization. *)
Lemma AuthMiddleware_good (c : Ctx) s t userID organizationID :
  ctx_Get c "Authorization" <> "" ->
  goodToken w lib s (ctx_Get c "Authorization") t ->
  jwt.Claims t !! "user_id" = Some (IString userID) ->
  jwt.Claims t !! "organization_id" = Some (IString organizationID) ->
  let c0 :=
    ctx_Locals "organization_id" (IString organizationID)
      (ctx_Locals "user_id" (IString userID) c) in
  middleware0.AuthMiddleware w lib c s = Ret (Next c0) s /\
  middleware.AuthMiddleware w lib c s
  = Ret (Next (ctx_Locals "role"
                 (IString (fst (assertStringOk (index (jwt.Claims t) "role"))))
                 c0)) s.
Proof.
  intros Hne Hgood Hu Ho c0.
  destruct (ParseWithClaims_good _ s t Hgood) as (token & Hp & Hcl & _).
  destruct (AuthMiddleware_parsed c s Hne _ Hp) as [H1 H0].
  assert (Hiu : index (jwt.Claims t) "user_id" = IString userID)
    by (unfold index; now rewrite Hu).
  assert (Hio : index (jwt.Claims t) "organization_id"
                = IString organizationID)
    by (unfold index; now rewrite Ho).
  rewrite H1, H0. cbv zeta. rewrite Hcl, Hiu, Hio.
  cbn [assertString]. rewrite !bind_ret.
  destruct (assertStringOk (index (jwt.Claims t) "role")) as [r ok].
  split; reflexivity.
Qed.

End Auth.

(** X18.
    What [AuthMiddleware] rejects, in both its versions. A request without
    an [Authorization] header is answered with 401 [Unauthorized] and
    nothing is parsed. A header that does not decode as a token, a token
    whose signature does not verify against [JWT_SECRET] (a tampered one)
    and a token whose registered claims are not valid are answered with
    401 [Invalid token]; the error is printed on standard output and no
    local is set. *)
Theorem X18_AuthMiddleware_rejects w lib (c : Ctx) s :
  let tokenString := ctx_Get c "Authorization" in
  let answers (h : Handled) (s' : State) : Prop :=
    middleware.AuthMiddleware w lib c s = Ret h s' /\
    middleware0.AuthMiddleware w lib c s = Ret h s' in
  let invalid (err : string) : Prop :=
    answers (Response 401 (errorBody "Invalid token"))
      (set_stdout (stdout s ++ [err]) s) in
  (tokenString = "" ->
   answers (Response 401 (errorBody "Unauthorized")) s) /\
  (tokenString <> "" ->
   (forall token err,
      jwt.ParseUnverified lib tokenString = inr (token, err) -> invalid err) /\
   (forall t part0 part1 part2,
      jwt.ParseUnverified lib tokenString = inl (t, (part0, part1, part2)) ->
      (forall err,
         jwt.Verify (jwt.Method t) (part0 ++ "." ++ part1) part2
           (getenv s "JWT_SECRET") = Some err -> invalid err) /\
      (forall err,
         jwt.Verify (jwt.Method t) (part0 ++ "." ++ part1) part2
           (getenv s "JWT_SECRET") = nil ->
         jwt.MapClaimsValid lib (jwt.unixNow w) (jwt.Claims t) = Some err ->
         invalid err))).
Proof.
  intros tokenString answers invalid. split.
  - intros He. apply AuthMiddleware_no_header, He.
  - intros Hne.
    pose proof (ParseWithClaims_eq w lib tokenString s) as Hp.
    pose proof (AuthMiddleware_parsed w lib c s Hne) as Ha.
    fold tokenString in Ha. split.
    + intros token err He. rewrite He in Hp. exact (Ha _ Hp).
    + intros t part0 part1 part2 He. rewrite He in Hp. cbv beta iota zeta in Hp.
      split.
      * intros err Hv. rewrite Hv in Hp. exact (Ha _ Hp).
      * intros err Hv Hc. rewrite Hv, Hc in Hp.
        cbv beta iota delta [nil] in Hp. exact (Ha _ Hp).
Qed.

Lemma X18_AuthMiddleware_rejects_witness :
  middleware.AuthMiddleware sampleOracle sampleLib
    (requestWith "hdr.access.forged") (startState secretEnv)
  = Ret (Response 401 (errorBody "Invalid token"))
      (set_stdout ["signature is invalid"] (startState secretEnv)).
Proof.
  destruct (X18_AuthMiddleware_rejects sampleOracle sampleLib
              (requestWith "hdr.access.forged") (startState secretEnv))
    as [_ H].
  destruct H as [_ H]; [vm_compute; discriminate|].
  edestruct H as [H1 _]; [vm_compute; reflexivity|].
  apply (H1 "signature is invalid"). vm_compute. reflexivity.
Defined.

(** X19.
    What [AuthMiddleware] accepts. When the token of the header decodes,
    verifies against [JWT_SECRET], has valid registered claims and carries
    [user_id] and [organization_id] as strings, the request is handed on
    with these two stored as locals, the state untouched. The later version
    stores the [role] claim too, or the empty string when the claim is
    missing or is not a string; the earlier version stores no role. *)
Theorem X19_AuthMiddleware_accepts w lib (c : Ctx) s t userID organizationID :
  ctx_Get c "Authorization" <> "" ->
  goodToken w lib s (ctx_Get c "Authorization") t ->
  jwt.Claims t !! "user_id" = Some (IString userID) ->
  jwt.Claims t !! "organization_id" = Some (IString organizationID) ->
  let role := fst (assertStringOk (index (jwt.Claims t) "role")) in
  let c0 :=
    ctx_Locals "organization_id" (IString organizationID)
      (ctx_Locals "user_id" (IString userID) c) in
  let c1 := ctx_Locals "role" (IString role) c0 in
  middleware0.AuthMiddleware w lib c s = Ret (Next c0) s /\
  middleware.AuthMiddleware w lib c s = Ret (Next c1) s /\
  ctx_Local c1 "user_id" = IString userID /\
  ctx_Local c1 "organization_id" = IString organizationID /\
  ctx_Local c1 "role" = IString role /\
  (Locals c !! "role" = None -> ctx_Local c0 "role" = INil).
Proof.
  intros Hne Hgood Hu Ho role c0 c1.
  destruct (AuthMiddleware_good w lib c s t userID organizationID
              Hne Hgood Hu Ho) as [H0 H1].
  split; [exact H0|]. split; [exact H1|].
  unfold c1, c0, ctx_Local, ctx_Locals, index. cbn [Locals].
  repeat split.
  - rewrite lookup_insert_ne by discriminate.
    rewrite lookup_insert_ne by discriminate.
    now rewrite lookup_insert_eq.
  - rewrite lookup_insert_ne by discriminate. now rewrite lookup_insert_eq.
  - now rewrite lookup_insert_eq.
  - intros Hr. rewrite !lookup_insert_ne by discriminate. now rewrite Hr.
Qed.

Lemma X19_AuthMiddleware_accepts_witness :
  exists c1,
    middleware.AuthMiddleware sampleOracle sampleLib
      (requestWith "hdr.access.s3cret") (startState secretEnv)
    = Ret (Next c1) (startState secretEnv) /\
    ctx_Local c1 "user_id" = IString "u1" /\
    ctx_Local c1 "organization_id" = IString "o1" /\
    ctx_Local c1 "role" = IString "".
Proof.
  destruct (X19_AuthMiddleware_accepts sampleOracle sampleLib
              (requestWith "hdr.access.s3cret") (startState secretEnv)
              (sampleToken (<["type" := IString "access"]> (
                            <["user_id" := IString "u1"]> (
                            <["organization_id" := IString "o1"]> ∅)))
                 "hdr.access.s3cret") "u1" "o1")
    as (_ & H1 & Hu & Ho & Hr & _).
  - vm_compute. discriminate.
  - exists "hdr", "access", "s3cret". repeat split; vm_compute; reflexivity.
  - vm_compute. reflexivity.
  - vm_compute. reflexivity.
  - eexists. split; [exact H1|]. split; [exact Hu|]. split; [exact Ho|].
    exact Hr.
Defined.

(** X20.
    The audit handlers check their parameter before anything else and need
    a connected database for the rest. With an empty [adminId] or
    [targetId] the answer is 400, whatever the state of the process and the
    driver; otherwise, and always for [GetAuditLogs], a handler that runs
    while [DB] is nil ends the whole process with status 1. *)
Theorem X20_audit_handlers_validate_first d params (c : Ctx) s :
  let down : Outcome Reply :=
    Exit 1
      (set_stderr
         (stderr s ++ ["❌ Database not connected. Call ConnectDB() first"]) s)
  in
  (controllers.ctx_Params params "adminId" = "" ->
   controllers.GetAdminAuditLogs d params c s
   = Ret (StatusJSON 400 (errorBody "Admin ID is required")) s) /\
  (controllers.ctx_Params params "targetId" = "" ->
   controllers.GetResourceAuditLogs d params c s
   = Ret (StatusJSON 400 (errorBody "Target/Resource ID is required")) s) /\
  (DB s = None -> controllers.GetAuditLogs d params c s = down) /\
  (DB s = None -> controllers.ctx_Params params "adminId" <> "" ->
   controllers.GetAdminAuditLogs d params c s = down) /\
  (DB s = None -> controllers.ctx_Params params "targetId" <> "" ->
   controllers.GetResourceAuditLogs d params c s = down).
Proof.
  intros down.
  unfold controllers.GetAuditLogs, controllers.GetAdminAuditLogs,
    controllers.GetResourceAuditLogs.
  split; [intros ->; reflexivity|].
  split; [intros ->; reflexivity|].
  split; [|split].
  - intros Hd. unfold bind.
    now rewrite (GetAuditLogs_disconnected d _ s Hd).
  - intros Hd Hne. apply String.eqb_neq in Hne. rewrite Hne. unfold bind.
    now rewrite (GetAuditLogs_disconnected d _ s Hd).
  - intros Hd Hne. apply String.eqb_neq in Hne. rewrite Hne. unfold bind.
    now rewrite (GetAuditLogs_disconnected d _ s Hd).
Qed.

(** X21.
    With the database connected and the configuration loaded, an audit
    handler makes one query on the audit collection, with no filter, with
    the actor of the path or with the target of the path, and leaves the
    state alone. Entries found are the JSON answer; any failure of the
    query is answered with 500 and a fixed message, the driver's error
    text staying inside. *)
Theorem X21_audit_handlers_reply d params (c : Ctx) s client cfg :
  DB s = Some client -> Config s = Some cfg ->
  let coll := mkCollection client (DBName cfg) "oms_audit_logs" in
  let reply (filter : gmap string iface) (failure : string)
    : Outcome Reply :=
    match queryResult d coll filter (store s) with
    | (_, Some _) => Ret (StatusJSON 500 (errorBody failure)) s
    | (logs, None) => Ret (JSON logs) s
    end in
  controllers.GetAuditLogs d params c s
  = reply ∅ "Failed to fetch audit logs" /\
  (forall adminID,
     params !! "adminId" = Some adminID -> adminID <> "" ->
     controllers.GetAdminAuditLogs d params c s
     = reply {[ "admin_id" := IString adminID ]}
         "Failed to fetch admin audit logs") /\
  (forall targetID,
     params !! "targetId" = Some targetID -> targetID <> "" ->
     controllers.GetResourceAuditLogs d params c s
     = reply {[ "target_id" := IString targetID ]}
         "Failed to fetch resource audit logs").
Proof.
  intros Hd Hc coll reply.
  assert (Hq : forall filter,
    auditlog.GetAuditLogs d filter s
    = Ret (queryResult d coll filter (store s)) s)
    by (intros filter; apply (GetAuditLogs_eq d filter s client cfg Hd Hc)).
  unfold controllers.GetAuditLogs, controllers.GetAdminAuditLogs,
    controllers.GetResourceAuditLogs, controllers.ctx_Params, reply.
  split; [|split].
  - rewrite (bind_Ret _ _ _ _ _ (Hq _)).
    destruct (queryResult d coll ∅ (store s)) as [logs [e|]]; reflexivity.
  - intros adminID -> Hne. cbn [from_option id].
    apply String.eqb_neq in Hne. rewrite Hne, insert_empty.
    rewrite (bind_Ret _ _ _ _ _ (Hq _)).
    destruct (queryResult d coll _ (store s)) as [logs [e|]]; reflexivity.
  - intros targetID -> Hne. cbn [from_option id].
    apply String.eqb_neq in Hne. rewrite Hne, insert_empty.
    rewrite (bind_Ret _ _ _ _ _ (Hq _)).
    destruct (queryResult d coll _ (store s)) as [logs [e|]]; reflexivity.
Qed.

Lemma X21_audit_handlers_reply_witness :
  controllers.GetAdminAuditLogs sampleDriver (<["adminId" := "admin1"]> ∅)
    (requestWith "") connectedState
  = Ret (JSON []) connectedState.
Proof.
  assert (Hc : exists cfg, Config connectedState = Some cfg /\
                           DBName cfg = "mrexperiences_service").
  { vm_compute. eexists. split; reflexivity. }
  destruct Hc as (cfg & Hc & Hn).
  destruct (X21_audit_handlers_reply sampleDriver (<["adminId" := "admin1"]> ∅)
              (requestWith "") connectedState
              (mkMongoClient "mongodb://localhost:27017") cfg eq_refl Hc)
    as (_ & H & _).
  rewrite (H "admin1"); [|reflexivity|discriminate].
  rewrite Hn. reflexivity.
Defined.

Section Routes.
Variable w : Oracle.
Variable lib : jwt.Library.
Variable d : Driver.

(** A handler of the audit group, run: the token check, the role gate, then
    the handler itself. *)
Lemma auditGroup_eq handler params (c : Ctx) s :
  routes.group [middleware.AuthMiddleware w lib; roles.AdminOnly] handler
    params c s
  = (let* h := middleware.AuthMiddleware w lib c in
     match h with
     | Response status body => ret (StatusJSON status body)
     | Next c =>
         let* h := roles.AdminOnly c in
         match h with
         | Response status body => ret (StatusJSON status body)
         | Next c => handler params c
         end
     end) s.
Proof. reflexivity. Qed.

End Routes.

(** X22.
    The audit routes are guarded by the token check and by [AdminOnly],
    all three of them. A request without the header is answered with 401.
    A request whose token is accepted is answered with 403 unless its
    [role] claim is the string [admin] or [super_admin]; with one of these
    roles it reaches the handler of its path, with the claims stored as
    locals. So the route of all audit logs, [/audit/logs], serves an
    [admin] as it serves a [super_admin]. *)
Theorem X22_audit_routes_are_guarded w lib d path handler params (c : Ctx) s :
  In (path, handler) (routes.SetupAuditRoutes w lib d) ->
  exists controller,
    In (path, controller)
      [ ("/audit/logs", controllers.GetAuditLogs d);
        ("/audit/admin/:adminId", controllers.GetAdminAuditLogs d);
        ("/audit/resource/:targetId", controllers.GetResourceAuditLogs d) ] /\
    (ctx_Get c "Authorization" = "" ->
     handler params c s = Ret (StatusJSON 401 (errorBody "Unauthorized")) s) /\
    (forall t userID organizationID,
       ctx_Get c "Authorization" <> "" ->
       goodToken w lib s (ctx_Get c "Authorization") t ->
       jwt.Claims t !! "user_id" = Some (IString userID) ->
       jwt.Claims t !! "organization_id" = Some (IString organizationID) ->
       let role := index (jwt.Claims t) "role" in
       let admin : Prop :=
         role = IString "admin" \/ role = IString "super_admin" in
       (~ admin ->
        handler params c s
        = Ret (StatusJSON 403 (errorBody "Admin privileges required")) s) /\
       (admin ->
        handler params c s
        = controller params
            (ctx_Locals "role" role
               (ctx_Locals "organization_id" (IString organizationID)
                  (ctx_Locals "user_id" (IString userID) c))) s)).
Proof.
  intros Hin.
  assert (H : exists controller,
    In (path, controller)
      [ ("/audit/logs", controllers.GetAuditLogs d);
        ("/audit/admin/:adminId", controllers.GetAdminAuditLogs d);
        ("/audit/resource/:targetId", controllers.GetResourceAuditLogs d) ] /\
    handler
    = routes.group [middleware.AuthMiddleware w lib; roles.AdminOnly]
        controller).
  { cbn in Hin. destruct Hin as [[= <- <-]|[[= <- <-]|[[= <- <-]|[]]]];
      eexists; (split; [|reflexivity]); cbn; tauto. }
  destruct H as (controller & Hc & ->). exists controller.
  split; [exact Hc|]. split.
  - intros He. rewrite auditGroup_eq.
    destruct (AuthMiddleware_no_header w lib c s He) as [Hr1 _].
    now rewrite (bind_Ret _ _ _ _ _ Hr1).
  - intros t userID organizationID Hne Hgood Hu Ho role admin.
    destruct (AuthMiddleware_good w lib c s t userID organizationID
                Hne Hgood Hu Ho) as [_ Ha].
    rewrite auditGroup_eq, (bind_Ret _ _ _ _ _ Ha). cbv beta iota.
    fold role. set (r := fst (assertStringOk role)).
    set (c1 := ctx_Locals "role" (IString r) _).
    assert (Hl : ctx_Local c1 "role" = IString r).
    { unfold c1, ctx_Local, ctx_Locals, index. cbn [Locals].
      now rewrite lookup_insert_eq. }
    rewrite (bind_Ret _ _ _ _ _ (AdminOnly_role c1 s r Hl)).
    split.
    + intros Hn.
      destruct (String.eqb r "admin" || String.eqb r "super_admin") eqn:E;
        [|reflexivity].
      destruct Hn. unfold admin. subst r.
      destruct role; cbn in E; try discriminate.
      apply orb_true_iff in E.
      destruct E as [E|E]; apply String.eqb_eq in E; subst; auto.
    + intros Hadm. unfold c1, r.
      destruct Hadm as [-> | ->]; reflexivity.
Qed.

Lemma X22_audit_routes_are_guarded_witness :
  exists handler,
    In ("/audit/logs", handler)
      (routes.SetupAuditRoutes sampleOracle pairLib sampleDriver) /\
    handler ∅ (requestWith "hdr.access.s3cret") servingState
    = Ret (JSON []) servingState.
Proof.
  eexists. split; [left; reflexivity|].
  destruct (X22_audit_routes_are_guarded sampleOracle pairLib sampleDriver
              "/audit/logs"
              (routes.group
                 [middleware.AuthMiddleware sampleOracle pairLib;
                  roles.AdminOnly]
                 (controllers.GetAuditLogs sampleDriver))
              ∅ (requestWith "hdr.access.s3cret") servingState)
    as (controller & Hc & _ & H); [left; reflexivity|].
  assert (Hctl : controller = controllers.GetAuditLogs sampleDriver).
  { cbn in Hc. destruct Hc as [[= <-]|[[=]|[[=]|[]]]]. reflexivity. }
  subst controller.
  destruct (H (sampleToken
                 (utils.accessTokenClaims sampleOracle "u1" "o1" "admin")
                 "hdr.access.s3cret") "u1" "o1") as [_ Hadm].
  - vm_compute. discriminate.
  - exists "hdr", "access", "s3cret". repeat split; vm_compute; reflexivity.
  - vm_compute. reflexivity.
  - vm_compute. reflexivity.
  - rewrite Hadm; [vm_compute; reflexivity|].
    left. vm_compute. reflexivity.
Defined.

(* ------------------------------------------------------------------ *)
(** ** Tokens made here, presented here *)
(* ------------------------------------------------------------------ *)

Section Generated.
Variable w : Oracle.
Variable lib : jwt.Library.

Lemma GenerateTokenPair_eq userID organizationID role s :
  let key := getenv s "JWT_SECRET" in
  let sign claims :=
    jwt.SignedString lib
      (jwt.NewWithClaims (jwt.SigningMethodHS256 lib) claims) key in
  utils.GenerateTokenPair w lib userID organizationID role s
  = Ret (match sign (utils.accessTokenClaims w userID organizationID role) with
         | (_, Some e) => ("", "", Some e)
         | (access, None) =>
             match sign (utils.refreshTokenClaims w userID) with
             | (_, Some e) => ("", "", Some e)
             | (refresh, None) => (access, refresh, nil)
             end
         end) s.
Proof.
  intros key sign. unfold utils.GenerateTokenPair.
  unfold os_Getenv, gets. unfold bind at 1. fold (getenv s "JWT_SECRET").
  fold key. fold (sign (utils.accessTokenClaims w userID organizationID role)).
  destruct (sign (utils.accessTokenClaims w userID organizationID role))
    as [access [e|]]; [reflexivity|].
  unfold bind. fold (getenv s "JWT_SECRET"). fold key.
  fold (sign (utils.refreshTokenClaims w userID)).
  destruct (sign (utils.refreshTokenClaims w userID)) as [refresh [e|]];
    reflexivity.
Qed.

Lemma GenerateToken_eq userID role s :
  utils.GenerateToken w lib userID role s
  = Ret (jwt.SignedString lib
           (jwt.NewWithClaims (jwt.SigningMethodHS256 lib)
              (<["user_id" := IString userID]> (
               <["role" := IString role]> (
               <["exp" := IInt64 (jwt.unixNow w + 72 * 3600)]> ∅))))
           (getenv s "JWT_SECRET")) s.
Proof. reflexivity. Qed.

(** A token the library read back is a good token. *)
Lemma readsBack_good key claims signed s :
  key = getenv s "JWT_SECRET" ->
  readsBack w lib key claims ->
  jwt.SignedString lib
    (jwt.NewWithClaims (jwt.SigningMethodHS256 lib) claims) key
  = (signed, nil) ->
  exists t,
    goodToken w lib s signed t /\
    (forall k v, claims !! k = Some (IString v) ->
                 jwt.Claims t !! k = Some (IString v)) /\
    (forall k, claims !! k = None -> jwt.Claims t !! k = None).
Proof.
  intros -> Hrb Hs.
  destruct (Hrb signed Hs) as (t & p0 & p1 & p2 & Hp & Hv & Hc & Hstr & Hno).
  exists t. split; [|split; assumption]. exists p0, p1, p2. auto.
Qed.

(** A signed string is not empty. *)
Lemma SignedString_nonempty t key signed :
  jwt.SignedString lib t key = (signed, nil) -> signed <> "".
Proof.
  unfold jwt.SignedString.
  destruct (jwt.SigningString lib t) as [sstr [e|]]; [discriminate|].
  destruct (jwt.Sign (jwt.Method t) sstr key) as [sig [e|]]; [discriminate|].
  intros [= <-]. destruct sstr; discriminate.
Qed.

(** [VerifyRefreshToken] on a good token. *)
Lemma VerifyRefreshToken_good tokenString s t :
  goodToken w lib s tokenString t ->
  exists token,
    jwt.Claims token = jwt.Claims t /\
    utils.VerifyRefreshToken w lib tokenString s
    = Ret (if neqString (index (jwt.Claims t) "type") "refresh"
           then (None, None, Some "not a refresh token")
           else (Some token, Some (jwt.Claims t), nil)) s.
Proof.
  intros Hgood.
  destruct (ParseWithClaims_good w lib tokenString s t Hgood)
    as (token & Hp & Hcl & Hv).
  exists token. split; [exact Hcl|].
  unfold utils.VerifyRefreshToken, jwt.Parse.
  rewrite (bind_Ret _ _ _ _ _ Hp). cbv beta iota zeta. rewrite Hv, Hcl.
  cbn [negb]. destruct (neqString _ _); reflexivity.
Qed.

End Generated.

(** X23.
    The pair of tokens [GenerateTokenPair] makes, given a library that
    reads back what it signs and tokens that have not expired: the state is
    left alone; [VerifyRefreshToken] accepts the refresh token and returns
    claims that name the user and the type [refresh]; it answers the access
    token with the error [not a refresh token] and no claims. *)
Theorem X23_token_pair_round_trip w lib s userID organizationID role
    access refresh s' :
  let key := getenv s "JWT_SECRET" in
  readsBack w lib key (utils.accessTokenClaims w userID organizationID role) ->
  readsBack w lib key (utils.refreshTokenClaims w userID) ->
  utils.GenerateTokenPair w lib userID organizationID role s
  = Ret (access, refresh, nil) s' ->
  s' = s /\
  (exists token claims,
     utils.VerifyRefreshToken w lib refresh s
     = Ret (Some token, Some claims, nil) s /\
     claims !! "user_id" = Some (IString userID) /\
     claims !! "type" = Some (IString "refresh")) /\
  utils.VerifyRefreshToken w lib access s
  = Ret (None, None, Some "not a refresh token") s.
Proof.
  intros key Ha Hr Hg.
  rewrite GenerateTokenPair_eq in Hg. cbv zeta in Hg. fold key in Hg.
  destruct (jwt.SignedString lib _ key) as [a [e|]] eqn:Ea in Hg;
    [discriminate|].
  destruct (jwt.SignedString lib _ key) as [r [e|]] eqn:Er in Hg;
    [discriminate|].
  injection Hg as -> -> <-. split; [reflexivity|].
  destruct (readsBack_good w lib key _ access s eq_refl Ha Ea)
    as (ta & Hga & Hsa & _).
  destruct (readsBack_good w lib key _ refresh s eq_refl Hr Er)
    as (tr & Hgr & Hsr & _).
  split.
  - destruct (VerifyRefreshToken_good w lib refresh s tr Hgr)
      as (token & _ & Hv).
    assert (Ht : jwt.Claims tr !! "type" = Some (IString "refresh"))
      by (apply Hsr; reflexivity).
    unfold index in Hv. rewrite Ht in Hv. cbn in Hv.
    exists token, (jwt.Claims tr). split; [exact Hv|].
    split; [apply Hsr; reflexivity | exact Ht].
  - destruct (VerifyRefreshToken_good w lib access s ta Hga)
      as (token & _ & Hv).
    assert (Ht : jwt.Claims ta !! "type" = Some (IString "access"))
      by (apply Hsa; reflexivity).
    unfold index in Hv. rewrite Ht in Hv. exact Hv.
Qed.

(** The toy library reads back the claim sets it knows. *)
Lemma pairLib_readsBack name claims :
  jwt.SignedString pairLib
    (jwt.NewWithClaims (jwt.SigningMethodHS256 pairLib) claims) "s3cret"
  = ("hdr." ++ name ++ ".s3cret", nil) ->
  jwt.ParseUnverified pairLib ("hdr." ++ name ++ ".s3cret")
  = inl (sampleToken claims ("hdr." ++ name ++ ".s3cret"),
         ("hdr", name, "s3cret")) ->
  readsBack sampleOracle pairLib "s3cret" claims.
Proof.
  intros Hs Hp signed Hs'. rewrite Hs in Hs'. injection Hs' as <-.
  do 4 eexists. split; [exact Hp|].
  split; [reflexivity|]. split; [reflexivity|].
  split; [intros k v Hk; exact Hk | intros k Hk; exact Hk].
Qed.

Lemma X23_token_pair_round_trip_witness :
  exists token claims,
    utils.GenerateTokenPair sampleOracle pairLib "u1" "o1" "admin" servingState
    = Ret ("hdr.access.s3cret", "hdr.refresh.s3cret", nil) servingState /\
    utils.VerifyRefreshToken sampleOracle pairLib "hdr.refresh.s3cret"
      servingState
    = Ret (Some token, Some claims, nil) servingState /\
    utils.VerifyRefreshToken sampleOracle pairLib "hdr.access.s3cret"
      servingState
    = Ret (None, None, Some "not a refresh token") servingState.
Proof.
  destruct (X23_token_pair_round_trip sampleOracle pairLib servingState
              "u1" "o1" "admin" "hdr.access.s3cret" "hdr.refresh.s3cret"
              servingState)
    as (_ & (token & claims & Hv & _) & Hacc).
  - apply (pairLib_readsBack "access"); vm_compute; reflexivity.
  - apply (pairLib_readsBack "refresh"); vm_compute; reflexivity.
  - vm_compute. reflexivity.
  - exists token, claims. split; [vm_compute; reflexivity|].
    split; [exact Hv | exact Hacc].
Defined.

Lemma ctx_Get_requestWith tokenString :
  ctx_Get (requestWith tokenString) "Authorization" = tokenString.
Proof.
  unfold ctx_Get, requestWith. cbn [reqHeaders]. now rewrite lookup_insert_eq.
Qed.

Section Presented.
Variable w : Oracle.
Variable lib : jwt.Library.

(** A good token without an [organization_id] makes both versions of the
    middleware panic, when its [user_id] is a string. *)
Lemma no_organization_panics tokenString s t userID :
  tokenString <> "" ->
  goodToken w lib s tokenString t ->
  jwt.Claims t !! "user_id" = Some (IString userID) ->
  jwt.Claims t !! "organization_id" = None ->
  middleware.AuthMiddleware w lib (requestWith tokenString) s
  = Panic "interface conversion: interface {} is nil, not string" s /\
  middleware0.AuthMiddleware w lib (requestWith tokenString) s
  = Panic "interface conversion: interface {} is nil, not string" s.
Proof.
  intros Hne Hgood Hu Ho.
  destruct (ParseWithClaims_good w lib tokenString s t Hgood)
    as (token & Hp & Hcl & _).
  destruct (AuthMiddleware_parsed w lib (requestWith tokenString) s)
    with (r := @inl jwt.Token (option jwt.Token * string) token) as [H1 H0].
  { now rewrite ctx_Get_requestWith. }
  { now rewrite ctx_Get_requestWith. }
  rewrite H1, H0. cbv zeta. rewrite Hcl. unfold index. rewrite Hu, Ho.
  split; reflexivity.
Qed.

End Presented.

(** X24.
    The access token of [GenerateTokenPair], sent as the [Authorization]
    header, passes [AuthMiddleware]: the request is handed on with the
    user, the organization and the role the token was made for stored as
    locals, given a library that reads back what it signs and a token that
    has not expired. *)
Theorem X24_access_token_passes_middleware w lib s userID organizationID role
    access refresh :
  readsBack w lib (getenv s "JWT_SECRET")
    (utils.accessTokenClaims w userID organizationID role) ->
  utils.GenerateTokenPair w lib userID organizationID role s
  = Ret (access, refresh, nil) s ->
  exists c1,
    middleware.AuthMiddleware w lib (requestWith access) s = Ret (Next c1) s /\
    ctx_Local c1 "user_id" = IString userID /\
    ctx_Local c1 "organization_id" = IString organizationID /\
    ctx_Local c1 "role" = IString role /\
    roles.AdminOnly c1 s
    = Ret (if String.eqb role "admin" || String.eqb role "super_admin"
           then Next c1
           else Response 403 (errorBody "Admin privileges required")) s.
Proof.
  intros Ha Hg. set (key := getenv s "JWT_SECRET") in *.
  rewrite GenerateTokenPair_eq in Hg. cbv zeta in Hg. fold key in Hg.
  destruct (jwt.SignedString lib _ key) as [a [e|]] eqn:Ea in Hg;
    [discriminate|].
  destruct (jwt.SignedString lib _ key) as [r [e|]] eqn:Er in Hg;
    [discriminate|].
  injection Hg as -> ->.
  destruct (readsBack_good w lib key _ access s eq_refl Ha Ea)
    as (t & Hgood & Hs & _).
  pose proof (SignedString_nonempty lib _ _ _ Ea) as Hne.
  destruct (AuthMiddleware_good w lib (requestWith access) s t
              userID organizationID) as [_ H1].
  { now rewrite ctx_Get_requestWith. }
  { now rewrite ctx_Get_requestWith. }
  { apply Hs. reflexivity. }
  { apply Hs. reflexivity. }
  assert (Hr : index (jwt.Claims t) "role" = IString role).
  { unfold index. rewrite (Hs "role" role); reflexivity. }
  rewrite Hr in H1. cbn [assertStringOk fst] in H1.
  eexists. split; [exact H1|].
  assert (Hl : forall c, ctx_Local (ctx_Locals "role" (IString role) c) "role"
                         = IString role).
  { intros c. unfold ctx_Local, ctx_Locals, index. cbn [Locals].
    now rewrite lookup_insert_eq. }
  split; [|split; [|split; [apply Hl | apply AdminOnly_role, Hl]]].
  - unfold ctx_Local, ctx_Locals, index. cbn [Locals].
    rewrite !lookup_insert_ne by discriminate. now rewrite lookup_insert_eq.
  - unfold ctx_Local, ctx_Locals, index. cbn [Locals].
    rewrite lookup_insert_ne by discriminate. now rewrite lookup_insert_eq.
Qed.

Lemma X24_access_token_passes_middleware_witness :
  exists c1,
    middleware.AuthMiddleware sampleOracle pairLib
      (requestWith "hdr.access.s3cret") servingState
    = Ret (Next c1) servingState /\
    ctx_Local c1 "role" = IString "admin" /\
    roles.AdminOnly c1 servingState = Ret (Next c1) servingState.
Proof.
  destruct (X24_access_token_passes_middleware sampleOracle pairLib servingState
              "u1" "o1" "admin" "hdr.access.s3cret" "hdr.refresh.s3cret")
    as (c1 & H1 & _ & _ & Hr & Ha).
  - apply (pairLib_readsBack "access"); vm_compute; reflexivity.
  - vm_compute. reflexivity.
  - exists c1. split; [exact H1|]. split; [exact Hr | exact Ha].
Defined.

(** X25.
    The other tokens this package makes do not pass [AuthMiddleware]: they
    make it panic. The refresh token of [GenerateTokenPair] and the token
    of [GenerateToken] carry no [organization_id], so a request that sends
    one of them as its [Authorization] header passes the signature check
    and then fails the unchecked type assertion, in both versions of the
    middleware; no 401 is written. *)
Theorem X25_other_tokens_panic_middleware w lib s userID organizationID role
    access refresh single :
  let key := getenv s "JWT_SECRET" in
  let panics (tokenString : string) : Prop :=
    middleware.AuthMiddleware w lib (requestWith tokenString) s
    = Panic "interface conversion: interface {} is nil, not string" s /\
    middleware0.AuthMiddleware w lib (requestWith tokenString) s
    = Panic "interface conversion: interface {} is nil, not string" s in
  (readsBack w lib key (utils.refreshTokenClaims w userID) ->
   utils.GenerateTokenPair w lib userID organizationID role s
   = Ret (access, refresh, nil) s ->
   panics refresh) /\
  (readsBack w lib key
     (<["user_id" := IString userID]> (
      <["role" := IString role]> (
      <["exp" := IInt64 (jwt.unixNow w + 72 * 3600)]> ∅))) ->
   utils.GenerateToken w lib userID role s = Ret (single, nil) s ->
   panics single).
Proof.
  intros key panics. split.
  - intros Hr Hg.
    rewrite GenerateTokenPair_eq in Hg. cbv zeta in Hg. fold key in Hg.
    destruct (jwt.SignedString lib _ key) as [a [e|]] eqn:Ea in Hg;
      [discriminate|].
    destruct (jwt.SignedString lib _ key) as [r [e|]] eqn:Er in Hg;
      [discriminate|].
    injection Hg as -> ->.
    destruct (readsBack_good w lib key _ refresh s eq_refl Hr Er)
      as (t & Hgood & Hs & Hno).
    apply (no_organization_panics w lib refresh s t userID).
    + apply (SignedString_nonempty lib _ _ _ Er).
    + exact Hgood.
    + apply Hs. reflexivity.
    + apply Hno. reflexivity.
  - intros Hr Hg. rewrite GenerateToken_eq in Hg. fold key in Hg.
    injection Hg as Hg.
    destruct (readsBack_good w lib key _ single s eq_refl Hr Hg)
      as (t & Hgood & Hs & Hno).
    apply (no_organization_panics w lib single s t userID).
    + apply (SignedString_nonempty lib _ _ _ Hg).
    + exact Hgood.
    + apply Hs. reflexivity.
    + apply Hno. reflexivity.
Qed.

Lemma X25_other_tokens_panic_middleware_witness :
  middleware.AuthMiddleware sampleOracle pairLib
    (requestWith "hdr.refresh.s3cret") servingState
  = Panic "interface conversion: interface {} is nil, not string"
      servingState /\
  middleware.AuthMiddleware sampleOracle pairLib
    (requestWith "hdr.plain.s3cret") servingState
  = Panic "interface conversion: interface {} is nil, not string"
      servingState.
Proof.
  destruct (X25_other_tokens_panic_middleware sampleOracle pairLib servingState
              "u1" "o1" "admin" "hdr.access.s3cret" "hdr.refresh.s3cret"
              "hdr.plain.s3cret") as [Hr Hs].
  split.
  - apply Hr.
    + apply (pairLib_readsBack "refresh"); vm_compute; reflexivity.
    + vm_compute. reflexivity.
  - apply Hs.
    + apply (pairLib_readsBack "plain"); vm_compute; reflexivity.
    + vm_compute. reflexivity.
Defined.

(* ------------------------------------------------------------------ *)
(** ** The helpers *)
(* ------------------------------------------------------------------ *)

Lemma append_cons c a b : String c a ++ b = String c (a ++ b).
Proof. reflexivity. Qed.

Lemma append_nil b : "" ++ b = b.
Proof. reflexivity. Qed.

Lemma atSigns_append a b : atSigns (a ++ b) = atSigns a + atSigns b.
Proof.
  induction a as [|c a IH]; [reflexivity|].
  rewrite append_cons. cbn [atSigns]. rewrite IH. lia.
Qed.

Lemma atSigns_at rest : atSigns ("@" ++ rest) = S (atSigns rest).
Proof. reflexivity. Qed.

Lemma prefix_at c rest :
  String.prefix "@" (String c rest) = Ascii.eqb c "@".
Proof.
  cbn [String.prefix]. destruct (ascii_dec "@" c) as [<-|Hne].
  - now destruct rest.
  - symmetry. apply Ascii.eqb_neq. congruence.
Qed.

(** [Index s "@"]: nothing when [s] has no [@]; otherwise the length of the
    part before the first one. *)
Lemma Index_at s :
  match helpers.Index s "@" with
  | None => atSigns s = 0
  | Some m =>
      exists l rest,
        s = l ++ "@" ++ rest /\ String.length l = m /\ atSigns l = 0
  end.
Proof.
  induction s as [|c s IH].
  - reflexivity.
  - cbn [helpers.Index]. rewrite prefix_at. cbn [atSigns].
    destruct (Ascii.eqb c "@") eqn:E.
    + apply Ascii.eqb_eq in E. subst c. exists "", s. repeat split.
    + destruct (helpers.Index s "@") as [m|]; cbn [fmap option_fmap option_map].
      * destruct IH as (l & rest & -> & Hl & Ha).
        exists (String c l), rest. rewrite append_cons. cbn [String.length atSigns].
        rewrite E, Hl, Ha. repeat split.
      * rewrite IH. reflexivity.
Qed.

Lemma substring_prefix l rest :
  String.substring 0 (String.length l) (l ++ rest) = l.
Proof.
  induction l as [|c l IH].
  - rewrite append_nil. now destruct rest.
  - rewrite append_cons. cbn [String.length String.substring]. now rewrite IH.
Qed.

Lemma substring_all s : String.substring 0 (String.length s) s = s.
Proof. induction s as [|c s IH]; cbn; [reflexivity | now rewrite IH]. Qed.

Lemma substring_suffix l rest :
  String.substring (String.length l) (String.length rest) (l ++ rest) = rest.
Proof.
  induction l as [|c l IH].
  - apply substring_all.
  - rewrite append_cons. cbn [String.length String.substring]. exact IH.
Qed.

Lemma length_append a b :
  String.length (a ++ b) = String.length a + String.length b.
Proof.
  induction a as [|c a IH]; [reflexivity|].
  rewrite append_cons. cbn [String.length]. now rewrite IH.
Qed.

Lemma append_assoc a b c : (a ++ b) ++ c = a ++ b ++ c.
Proof.
  induction a as [|x a IH]; [reflexivity|].
  rewrite !append_cons. now rewrite IH.
Qed.

Lemma atSigns_length s : atSigns s <= String.length s.
Proof.
  induction s as [|c s IH]; cbn; [lia|]. destruct (Ascii.eqb c "@"); lia.
Qed.

(** The part before the first [@] is determined. *)
Lemma first_at_unique l : forall l' rest rest',
  l ++ "@" ++ rest = l' ++ "@" ++ rest' ->
  atSigns l = 0 -> atSigns l' = 0 -> l' = l /\ rest' = rest.
Proof.
  induction l as [|c l IH]; intros l' rest rest' He Hl Ha.
  - destruct l' as [|c' l'].
    + change (String "@" rest = String "@" rest') in He.
      now injection He as <-.
    + change (String "@" rest = String c' (l' ++ "@" ++ rest')) in He.
      injection He as <- _. cbn in Ha. discriminate.
  - cbn in Hl. destruct (Ascii.eqb c "@") eqn:E; [discriminate|].
    destruct l' as [|c' l'].
    + change (String c (l ++ "@" ++ rest) = String "@" rest') in He.
      injection He as -> _. discriminate.
    + change (String c (l ++ "@" ++ rest) = String c' (l' ++ "@" ++ rest'))
        in He.
      injection He as <- He. cbn in Ha. rewrite E in Ha.
      destruct (IH l' rest rest' He Hl Ha) as [-> ->]. split; reflexivity.
Qed.

(** One round of the loop of [Split]. *)
Lemma genSplit_step fuel l rest :
  atSigns l = 0 ->
  helpers.genSplit (S fuel) (l ++ "@" ++ rest) "@"
  = l :: helpers.genSplit fuel rest "@".
Proof.
  intros Hl. cbn [helpers.genSplit].
  pose proof (Index_at (l ++ "@" ++ rest)) as Hi.
  destruct (helpers.Index (l ++ "@" ++ rest) "@") as [m|].
  - destruct Hi as (l' & rest' & He & Hm & Ha).
    destruct (first_at_unique l l' rest rest' He Hl Ha) as [-> ->].
    subst m. cbv zeta. rewrite substring_prefix. f_equal.
    change (String.length "@") with 1.
    replace (String.length l + 1) with (String.length (l ++ "@"))
      by (rewrite length_append; reflexivity).
    replace (String.length (l ++ "@" ++ rest) - String.length (l ++ "@"))
      with (String.length rest)
      by (rewrite !length_append; cbn [String.length]; lia).
    rewrite <- append_assoc. now rewrite substring_suffix.
  - rewrite atSigns_append, atSigns_at in Hi. lia.
Qed.

Lemma genSplit_none fuel s :
  atSigns s = 0 -> helpers.genSplit fuel s "@" = [s].
Proof.
  intros H. destruct fuel; [reflexivity|]. cbn [helpers.genSplit].
  pose proof (Index_at s) as Hi.
  destruct (helpers.Index s "@") as [m|]; [|reflexivity].
  destruct Hi as (l & rest & -> & _ & _).
  rewrite atSigns_append, atSigns_at in H. lia.
Qed.

(** [Split] cuts at every [@]: one part more than there are [@]. *)
Lemma genSplit_length fuel : forall s,
  atSigns s <= fuel ->
  length (helpers.genSplit fuel s "@") = S (atSigns s).
Proof.
  induction fuel as [|fuel IH]; intros s Hf.
  - cbn. lia.
  - pose proof (Index_at s) as Hi.
    destruct (helpers.Index s "@") as [m|] eqn:E.
    + destruct Hi as (l & rest & -> & _ & Hl).
      rewrite (genSplit_step fuel l rest Hl). cbn [length].
      rewrite atSigns_append, atSigns_at in *. rewrite IH; lia.
    + rewrite (genSplit_none _ s Hi). cbn. lia.
Qed.

(** X26.
    [ExtractDomain] returns what follows the [@] of an address that has
    exactly one, and the empty string for every other input: no [@], or
    two and more. What it returns holds no [@]. An address that ends in
    its [@] gives the empty string too, and an address that starts with
    its [@] is accepted. *)
Theorem X26_ExtractDomain_single_at email :
  (atSigns email <> 1 -> helpers.ExtractDomain email = "") /\
  (forall localPart domain,
     email = localPart ++ "@" ++ domain ->
     atSigns localPart = 0 -> atSigns domain = 0 ->
     helpers.ExtractDomain email = domain) /\
  atSigns (helpers.ExtractDomain email) = 0.
Proof.
  assert (H1 : atSigns email <> 1 -> helpers.ExtractDomain email = "").
  { intros Hn. unfold helpers.ExtractDomain, helpers.Split.
    rewrite genSplit_length by apply atSigns_length.
    destruct (S (atSigns email) =? 2)%nat eqn:E; [|reflexivity].
    apply Nat.eqb_eq in E. lia. }
  assert (H2 : forall localPart domain,
     email = localPart ++ "@" ++ domain ->
     atSigns localPart = 0 -> atSigns domain = 0 ->
     helpers.ExtractDomain email = domain).
  { intros l d -> Hl Hd. unfold helpers.ExtractDomain, helpers.Split.
    rewrite length_append. change (String.length ("@" ++ d))
      with (S (String.length d)).
    replace (String.length l + S (String.length d))
      with (S (String.length l + String.length d)) by lia.
    rewrite (genSplit_step _ l d Hl), (genSplit_none _ d Hd). reflexivity. }
  split; [exact H1|]. split; [exact H2|].
  destruct (Nat.eq_dec (atSigns email) 1) as [He|Hn];
    [|now rewrite (H1 Hn)].
  pose proof (Index_at email) as Hi.
  destruct (helpers.Index email "@") as [m|]; [|lia].
  destruct Hi as (l & rest & -> & _ & Hl).
  rewrite atSigns_append, atSigns_at in He.
  assert (Hd : atSigns rest = 0) by lia.
  now rewrite (H2 l rest eq_refl Hl Hd).
Qed.

Section Hex.
Local Open Scope Z_scope.

Lemma fromHexChar_range c d : helpers.fromHexChar c = Some d -> 0 <= d < 16.
Proof.
  unfold helpers.fromHexChar.
  repeat match goal with
         | |- context [if ?b then _ else _] => destruct b eqn:?
         end; intros [= <-]; lia.
Qed.

Lemma pair_ind (P : list ascii -> Prop) :
  P [] -> (forall x, P [x]) -> (forall x y l, P l -> P (x :: y :: l)) ->
  forall l, P l.
Proof.
  intros H0 H1 H2.
  fix IH 1. intros [|x [|y l]]; [exact H0 | apply H1 | apply H2, IH].
Qed.

Lemma isHex_true c d :
  helpers.fromHexChar c = Some d ->
  bool_decide (helpers.fromHexChar c <> None) = true.
Proof. intros H. apply bool_decide_eq_true_2. congruence. Qed.

Lemma isHex_false c :
  helpers.fromHexChar c = None ->
  bool_decide (helpers.fromHexChar c <> None) = false.
Proof. intros H. apply bool_decide_eq_false_2. intros H'. now apply H'. Qed.

(** [hex.Decode], characterised: it fails on an odd length and on a
    character that is no digit; the bytes it yields denote the number the
    digits denote. *)
Lemma hexDecode_spec l :
  match helpers.hexDecode l with
  | Some bytes =>
      forallb (fun c => bool_decide (helpers.fromHexChar c <> None)) l = true /\
      forall acc,
        fold_left (fun a b => a * 256 + b) bytes acc
        = fold_left hexDigitValue l acc
  | None =>
      Nat.even (length l) = false \/
      forallb (fun c => bool_decide (helpers.fromHexChar c <> None)) l = false
  end.
Proof.
  induction l as [|x|x y l IH] using pair_ind.
  - split; reflexivity.
  - left. reflexivity.
  - cbn [helpers.hexDecode forallb].
    pose proof (isHex_true x) as Hx1. pose proof (isHex_false x) as Hx0.
    pose proof (isHex_true y) as Hy1. pose proof (isHex_false y) as Hy0.
    destruct (helpers.fromHexChar x) as [a|] eqn:Ex; cbn [mbind option_bind];
      [rewrite (Hx1 a eq_refl) | right; now rewrite (Hx0 eq_refl)].
    destruct (helpers.fromHexChar y) as [b|] eqn:Ey; cbn [mbind option_bind];
      [rewrite (Hy1 b eq_refl) | right; now rewrite (Hy0 eq_refl)].
    cbn [andb].
    destruct (helpers.hexDecode l) as [bytes|]; cbn [mbind option_bind].
    + destruct IH as [Hall Hfold]. split; [exact Hall|].
      intros acc. cbn [fold_left]. rewrite Hfold. f_equal.
      unfold hexDigitValue. rewrite ?Ex, ?Ey. cbn [from_option id].
      pose proof (fromHexChar_range _ _ Ex).
      pose proof (fromHexChar_range _ _ Ey).
      rewrite (lor_shiftl_add a b 4) by lia.
      change (2 ^ 4) with 16. lia.
    + destruct IH as [IH|IH].
      * left. cbn [length]. rewrite Nat.even_succ_succ. exact IH.
      * right. exact IH.
Qed.

Lemma hexDigits_bound l : forall acc k,
  0 <= acc < 16 ^ k -> 0 <= k ->
  0 <= fold_left hexDigitValue l acc < 16 ^ (k + Z.of_nat (length l)).
Proof.
  induction l as [|c l IH]; intros acc k Ha Hk.
  - cbn. now rewrite Z.add_0_r.
  - cbn [fold_left length].
    replace (k + Z.of_nat (S (length l))) with ((k + 1) + Z.of_nat (length l))
      by lia.
    apply IH; [|lia].
    unfold hexDigitValue.
    assert (0 <= default 0 (helpers.fromHexChar c) < 16).
    { destruct (helpers.fromHexChar c) as [d|] eqn:E; cbn; [|lia].
      apply (fromHexChar_range _ _ E). }
    rewrite Z.pow_add_r by lia. change (16 ^ 1) with 16. nia.
Qed.

End Hex.

(** X27.
    [ToObjectID] never fails: it returns [NilObjectID], the identifier of
    twelve zero bytes, for every string that is not 24 hexadecimal digits,
    and for 24 digits, of either case, the identifier they denote. A caller
    cannot tell an invalid string from the string of 24 zeros. *)
Theorem X27_ToObjectID_hex id :
  (String.length id <> 24 -> helpers.ToObjectID id = helpers.NilObjectID) /\
  (allHex id = false -> helpers.ToObjectID id = helpers.NilObjectID) /\
  (String.length id = 24 -> allHex id = true ->
   helpers.ToObjectID id = Z.to_N (hexValue id)) /\
  (helpers.ToObjectID id < 2 ^ 96)%N.
Proof.
  unfold helpers.ToObjectID, helpers.ObjectIDFromHex, allHex, hexValue.
  pose proof (hexDecode_spec (list_ascii_of_string id)) as Hs.
  assert (Hlen : length (list_ascii_of_string id) = String.length id)
    by apply length_list_of_string.
  destruct (String.length id =? 24)%nat eqn:El; cbn [negb].
  - apply Nat.eqb_eq in El.
    destruct (helpers.hexDecode (list_ascii_of_string id)) as [bytes|].
    + destruct Hs as [Hall Hfold]. unfold helpers.ofBytes. rewrite Hfold.
      split; [intros H; now destruct H|]. split; [congruence|].
      split; [reflexivity|].
      pose proof (hexDigits_bound (list_ascii_of_string id) 0 0
                    ltac:(lia) ltac:(lia)) as Hb.
      rewrite Hlen, El in Hb. change (16 ^ (0 + Z.of_nat 24))%Z
        with (2 ^ 96)%Z in Hb.
      cbv delta [nil] iota.
      apply N2Z.inj_lt. rewrite Z2N.id by lia.
      change (Z.of_N (2 ^ 96)) with (2 ^ 96)%Z. lia.
    + split; [reflexivity|]. split; [reflexivity|].
      split; [|reflexivity].
      intros _ Hall. destruct Hs as [Hs|Hs]; [|congruence].
      rewrite Hlen, El in Hs. discriminate.
  - apply Nat.eqb_neq in El.
    split; [reflexivity|]. split; [reflexivity|].
    split; [intros H; now destruct El | reflexivity].
Qed.

(* ------------------------------------------------------------------ *)
(** ** The e-mail verification token *)
(* ------------------------------------------------------------------ *)

Section AnyAlphabet.
Local Open Scope Z_scope.
Variable enc : base64.Encoding.

(** [Encode] of three bytes and more, and of two bytes, by sextets. *)
Lemma Encode_sextets b0 b1 b2 rest :
  base64.Encode enc (b0 :: b1 :: b2 :: rest)
  = let '(d0, d1, d2, d3) :=
      sextets (base64.byteZ b0) (base64.byteZ b1) (base64.byteZ b2) in
    base64.encodeAt enc d0 :: base64.encodeAt enc d1
    :: base64.encodeAt enc d2 :: base64.encodeAt enc d3
    :: base64.Encode enc rest.
Proof.
  cbn [base64.Encode]. unfold sextets.
  pose proof (byteZ_range b0). pose proof (byteZ_range b1).
  pose proof (byteZ_range b2).
  rewrite val3 by assumption.
  set (val := base64.byteZ b0 * 65536 + base64.byteZ b1 * 256 + base64.byteZ b2).
  assert (0 <= val) by (unfold val; lia).
  rewrite !land_63, !Z.shiftr_div_pow2 by
    (try apply Z.shiftr_nonneg; lia).
  reflexivity.
Qed.

Lemma Encode_sextets2 b0 b1 :
  base64.Encode enc [b0; b1]
  = let '(d0, d1, d2, _) :=
      sextets (base64.byteZ b0) (base64.byteZ b1) 0 in
    ([base64.encodeAt enc d0; base64.encodeAt enc d1; base64.encodeAt enc d2]
     ++ base64.padding enc)%list.
Proof.
  cbn [base64.Encode]. unfold sextets.
  pose proof (byteZ_range b0). pose proof (byteZ_range b1).
  rewrite <- (Z.lor_0_r (Z.lor _ _)).
  rewrite val3 by (try assumption; lia).
  set (val := base64.byteZ b0 * 65536 + base64.byteZ b1 * 256 + 0).
  assert (0 <= val) by (unfold val; lia).
  rewrite !land_63, !Z.shiftr_div_pow2 by
    (try apply Z.shiftr_nonneg; lia).
  reflexivity.
Qed.

End AnyAlphabet.

Lemma byteZ_inj a b : base64.byteZ a = base64.byteZ b -> a = b.
Proof.
  intros H. rewrite <- (Zbyte_byteZ a), <- (Zbyte_byteZ b). now rewrite H.
Qed.

Section UrlAlphabet.
Local Open Scope Z_scope.

Lemma url_table :
  forallb (fun n =>
             let c := base64.encodeAt email.URLEncoding (Z.of_nat n) in
             urlSafe c
             && (base64.decodeMap email.URLEncoding c =? Z.of_nat n))
    (seq 0 64) = true.
Proof. vm_compute. reflexivity. Qed.

Lemma url_sextet d :
  0 <= d < 64 ->
  urlSafe (base64.encodeAt email.URLEncoding d) = true /\
  base64.decodeMap email.URLEncoding (base64.encodeAt email.URLEncoding d) = d.
Proof.
  intros Hd.
  pose proof (proj1 (forallb_forall _ _) url_table (Z.to_nat d)) as H.
  cbv beta zeta in H. rewrite Z2Nat.id in H by lia.
  assert (Hin : In (Z.to_nat d) (seq 0 64)) by (apply in_seq; lia).
  specialize (H Hin). apply andb_true_iff in H. destruct H as [H1 H2].
  split; [exact H1 | now apply Z.eqb_eq].
Qed.

Lemma url_encodeAt_inj d d' :
  0 <= d < 64 -> 0 <= d' < 64 ->
  base64.encodeAt email.URLEncoding d = base64.encodeAt email.URLEncoding d' ->
  d = d'.
Proof.
  intros Hd Hd' He.
  rewrite <- (proj2 (url_sextet d Hd)), <- (proj2 (url_sextet d' Hd')).
  now rewrite He.
Qed.

Lemma sextets_inj B0 B1 B2 B0' B1' B2' :
  0 <= B0 < 256 -> 0 <= B1 < 256 -> 0 <= B2 < 256 ->
  0 <= B0' < 256 -> 0 <= B1' < 256 -> 0 <= B2' < 256 ->
  sextets B0 B1 B2 = sextets B0' B1' B2' ->
  B0 = B0' /\ B1 = B1' /\ B2 = B2'.
Proof.
  intros H0 H1 H2 H0' H1' H2' He.
  pose proof (octets_sextets B0 B1 B2 H0 H1 H2) as Ho.
  pose proof (octets_sextets B0' B1' B2' H0' H1' H2') as Ho'.
  rewrite He in Ho.
  destruct (sextets B0' B1' B2') as [[[d0 d1] d2] d3].
  rewrite Ho in Ho'. injection Ho' as -> -> ->. repeat split.
Qed.

(** The encoding of [3 n + 2] bytes: [4 n + 3] characters that need no
    escaping, and one pad. *)
Lemma url_Encode_shape n : forall bytes,
  length bytes = (3 * n + 2)%nat ->
  exists L,
    base64.Encode email.URLEncoding bytes = (L ++ ["="%char])%list /\
    length L = (4 * n + 3)%nat /\
    Forall (fun c => urlSafe c = true) L.
Proof.
  induction n as [|n IH]; intros bytes Hl.
  - destruct bytes as [|b0 [|b1 [|]]]; try discriminate Hl.
    rewrite Encode_sextets2.
    destruct (sextets _ _ 0) as [[[d0 d1] d2] d3] eqn:Es.
    destruct (sextets_range _ _ _ _ _ _ _ Es) as (R0 & R1 & R2 & _).
    eexists [_; _; _]. split; [reflexivity|]. split; [reflexivity|].
    repeat constructor; now apply url_sextet.
  - destruct bytes as [|b0 [|b1 [|b2 rest]]]; cbn in Hl; try lia.
    destruct (IH rest) as (L & He & Hlen & Hall); [lia|].
    rewrite Encode_sextets.
    destruct (sextets _ _ _) as [[[d0 d1] d2] d3] eqn:Es.
    destruct (sextets_range _ _ _ _ _ _ _ Es) as (R0 & R1 & R2 & R3).
    rewrite He. eexists (_ :: _ :: _ :: _ :: L).
    split; [reflexivity|]. split; [cbn; lia|].
    repeat constructor; try (now apply url_sextet). exact Hall.
Qed.

(** Byte strings of the same length with the same encoding are the same. *)
Lemma url_Encode_inj n : forall a b,
  length a = (3 * n + 2)%nat -> length b = (3 * n + 2)%nat ->
  base64.Encode email.URLEncoding a = base64.Encode email.URLEncoding b ->
  a = b.
Proof.
  induction n as [|n IH]; intros a b Ha Hb He.
  - destruct a as [|a0 [|a1 [|]]]; try discriminate Ha.
    destruct b as [|b0 [|b1 [|]]]; try discriminate Hb.
    rewrite !Encode_sextets2 in He.
    pose proof (byteZ_range a0). pose proof (byteZ_range a1).
    pose proof (byteZ_range b0). pose proof (byteZ_range b1).
    destruct (sextets_inj (base64.byteZ a0) (base64.byteZ a1) 0
                (base64.byteZ b0) (base64.byteZ b1) 0) as (E0 & E1 & _);
      try lia.
    { destruct (sextets _ _ 0) as [[[d0 d1] d2] d3] eqn:Es.
      destruct (sextets (base64.byteZ b0) _ 0) as [[[e0 e1] e2] e3] eqn:Es'.
      destruct (sextets_range _ _ _ _ _ _ _ Es) as (R0 & R1 & R2 & R3).
      destruct (sextets_range _ _ _ _ _ _ _ Es') as (S0 & S1 & S2 & S3).
      injection He as He0 He1 He2.
      apply url_encodeAt_inj in He0, He1, He2; try assumption. subst.
      f_equal. unfold sextets in Es, Es'.
      injection Es as _ _ _ <-. injection Es' as _ _ _ <-.
      Z.div_mod_to_equations. lia. }
    apply byteZ_inj in E0, E1. now subst.
  - destruct a as [|a0 [|a1 [|a2 a]]]; cbn in Ha; try lia.
    destruct b as [|b0 [|b1 [|b2 b]]]; cbn in Hb; try lia.
    rewrite !Encode_sextets in He.
    pose proof (byteZ_range a0). pose proof (byteZ_range a1).
    pose proof (byteZ_range a2).
    pose proof (byteZ_range b0). pose proof (byteZ_range b1).
    pose proof (byteZ_range b2).
    destruct (sextets (base64.byteZ a0) _ _) as [[[d0 d1] d2] d3] eqn:Es.
    destruct (sextets (base64.byteZ b0) _ _) as [[[e0 e1] e2] e3] eqn:Es'.
    destruct (sextets_range _ _ _ _ _ _ _ Es) as (R0 & R1 & R2 & R3).
    destruct (sextets_range _ _ _ _ _ _ _ Es') as (S0 & S1 & S2 & S3).
    injection He as He0 He1 He2 He3 Hrest.
    apply url_encodeAt_inj in He0, He1, He2, He3; try assumption. subst.
    destruct (sextets_inj (base64.byteZ a0) (base64.byteZ a1)
                (base64.byteZ a2) (base64.byteZ b0) (base64.byteZ b1)
                (base64.byteZ b2)) as (E0 & E1 & E2);
      try assumption; [congruence|].
    apply byteZ_inj in E0, E1, E2. subst.
    f_equal. f_equal. f_equal. apply IH; [lia | lia | exact Hrest].
Qed.

End UrlAlphabet.

Lemma length_tokenBuffer read : length (tokenBuffer read) = 32.
Proof.
  unfold tokenBuffer. rewrite length_copyAt; [apply repeat_length|].
  rewrite repeat_length. lia.
Qed.

Lemma token_eq read :
  email.GenerateEmailVerificationToken read
  = string_of_list_ascii (base64.Encode email.URLEncoding (tokenBuffer read)).
Proof.
  unfold email.GenerateEmailVerificationToken, base64.EncodeToString.
  now rewrite list_ascii_of_string_of_list_ascii.
Qed.

(** X28.
    The verification token has 44 characters whatever the random source
    does: 43 characters that need no escaping in a URL, letters, digits,
    [-] and [_], and one [=] at the end. It is made of 32 bytes; where the
    random source wrote nothing the bytes are zero, and since its error is
    dropped, a source that fails without writing yields the token of 32
    zero bytes. *)
Theorem X28_verification_token_shape read :
  let token := email.GenerateEmailVerificationToken read in
  String.length token = 44 /\
  (exists body,
     list_ascii_of_string token = (body ++ ["="%char])%list /\
     length body = 43 /\ Forall (fun c => urlSafe c = true) body) /\
  (read 32 = [] ->
   token = "AAAAAAAAAAAAAAAAAAAAAAAAAAAAAAAAAAAAAAAAAAA=").
Proof.
  intros token. unfold token. rewrite token_eq.
  destruct (url_Encode_shape 10 (tokenBuffer read) (length_tokenBuffer read))
    as (L & He & Hl & Hs).
  rewrite He. split; [|split].
  - rewrite length_string_of_list, length_app, Hl. reflexivity.
  - exists L. rewrite list_ascii_of_string_of_list_ascii.
    split; [reflexivity|]. split; [exact Hl | exact Hs].
  - intros Hr. rewrite <- He. unfold tokenBuffer. rewrite Hr.
    vm_compute. reflexivity.
Qed.

(** X29.
    The token tells the random bytes apart: two sources that fill the
    buffer with different bytes give different tokens, so the token keeps
    all of the 256 random bits. *)
Theorem X29_verification_token_distinct read read' :
  length (read 32) = 32 -> length (read' 32) = 32 ->
  read 32 <> read' 32 ->
  email.GenerateEmailVerificationToken read
  <> email.GenerateEmailVerificationToken read'.
Proof.
  intros Hl Hl' Hne He. apply Hne.
  rewrite !token_eq in He.
  apply (f_equal list_ascii_of_string) in He.
  rewrite !list_ascii_of_string_of_list_ascii in He.
  apply (url_Encode_inj 10) in He;
    [|apply length_tokenBuffer|apply length_tokenBuffer].
  unfold tokenBuffer in He.
  rewrite !copyAt_exact in He by (rewrite repeat_length; lia).
  exact He.
Qed.

Lemma X29_verification_token_distinct_witness :
  String.length
    (email.GenerateEmailVerificationToken (fun n => repeat "a"%char n)) = 44 /\
  email.GenerateEmailVerificationToken (fun n => repeat "a"%char n)
  <> email.GenerateEmailVerificationToken (fun n => repeat "b"%char n).
Proof.
  split; [reflexivity|].
  apply X29_verification_token_distinct.
  - reflexivity.
  - reflexivity.
  - discriminate.
Defined.

(* ------------------------------------------------------------------ *)
(** ** The stored hash *)
(* ------------------------------------------------------------------ *)

(** X30.
    What [HashPassword] returns on success is always 80 characters of the
    standard base64 alphabet, with no padding: the encoding of the 60 bytes
    of a bcrypt hash of cost 10. On failure it returns the empty string
    with the error. *)
Theorem X30_stored_hash_shape prim password :
  match utils.HashPassword prim password with
  | (h, None) =>
      String.length h = 80 /\
      Forall (fun c => inAlphabet c = true) (list_ascii_of_string h)
  | (h, Some _) => h = ""
  end.
Proof.
  destruct (utils.HashPassword prim password) as [h [e|]] eqn:E.
  - unfold utils.HashPassword in E.
    destruct (bcrypt.GenerateFromPassword _ _ _);
      [discriminate | now injection E as <- _].
  - destruct (HashPassword_layout prim password h E)
      as (salt & digest & field & Hs & Hf & _ & _ & ->).
    destruct (Encode_quanta 20 (prefix29 "2" "a" salt ++ field)
                (length_prefix29 _ _ _ _ Hs Hf)) as [[Hl Hall] _].
    rewrite length_string_of_list, list_ascii_of_string_of_list_ascii.
    split; [exact Hl | exact Hall].
Qed.
